(** * julius-sdl3: the platform shim (mouse relative mode, sound device)

    A shallow embedding of [src/platform/mouse.c] and
    [src/platform/sound_device.c].  Both files are glue over a multimedia
    library: what they own is a little static state, and what they do is
    call the library in some order.  The embedding therefore has two parts:

    - the static state of each file, threaded explicitly;
    - a trace of the calls made to code outside the file, each recorded
      with its arguments and with what it answered.  What the outside
      answers is not decided here: it is read from an environment that
      maps the calls made so far to the next answer.

    C indexes arrays without checks; an index outside the array is
    undefined behaviour.  It is modelled as a fault that stops the
    program and names the array and the index, so that "this access stays
    inside the table" is a statement about the model. *)

From Stdlib Require Import ZArith QArith.
From stdpp Require Import base numbers option list strings gmap.

Local Open Scope Z_scope.
Set Warnings "-clear-no-such-hyp".

(** ** Programs over a static state and a trace of outside calls *)

Section Prog.
Context {S E : Type}.

Record world := World { state : S; trace : list E }.

Inductive outcome (A : Type) :=
| Returns (a : A) (w : world)
| OutOfBounds (array : string) (index : Z) (w : world).
#[global] Arguments Returns {A} a w.
#[global] Arguments OutOfBounds {A} array index w.

Definition prog (A : Type) := world -> outcome A.

Definition ret {A} (a : A) : prog A := fun w => Returns a w.

Definition bind {A B} (m : prog A) (k : A -> prog B) : prog B :=
  fun w => match m w with
           | Returns a w' => k a w'
           | OutOfBounds arr i w' => OutOfBounds arr i w'
           end.

Definition get : prog S := fun w => Returns (state w) w.

Definition put (s : S) : prog unit :=
  fun w => Returns tt (World s (trace w)).

Definition modify (f : S -> S) : prog unit :=
  fun w => Returns tt (World (f (state w)) (trace w)).

Definition fault {A} (array : string) (index : Z) : prog A :=
  fun w => OutOfBounds array index w.

(** A call that returns nothing the caller looks at. *)
Definition emit (e : E) : prog unit :=
  fun w => Returns tt (World (state w) (trace w ++ [e])).

(** A call whose answer the caller uses: the environment gives the
    answer from the calls made so far, and the call is recorded with it. *)
Definition extern {A} (answer : list E -> A) (ev : A -> E) : prog A :=
  fun w => let a := answer (trace w) in
           Returns a (World (state w) (trace w ++ [ev a])).

(** [for (int i = lo; ...; i++) body(i)], [n] iterations left. *)
Fixpoint for_loop (n : nat) (i : Z) (body : Z -> prog unit) : prog unit :=
  match n with
  | O => ret tt
  | Datatypes.S n' => bind (body i) (fun _ => for_loop n' (i + 1) body)
  end.

(** [for (int i = 0; i < hi; i++) body(i)] *)
Definition for_lt (hi : Z) (body : Z -> prog unit) : prog unit :=
  for_loop (Z.to_nat hi) 0 body.

(** [m], started in [w], ends in a result and a world that satisfy [Q];
    [faulty] says what a fault counts as: [False] makes this a statement
    that [m] returns, [True] a statement about the runs that return. *)
Definition triple {A} (faulty : Prop) (m : prog A) (w : world)
           (Q : A -> world -> Prop) : Prop :=
  match m w with
  | Returns a w' => Q a w'
  | OutOfBounds _ _ _ => faulty
  end.
End Prog.

Arguments world : clear implicits.
Arguments outcome : clear implicits.
Arguments prog : clear implicits.

Notation "'let*' x ':=' m 'in' k" := (bind m (fun x => k))
  (at level 10, x pattern, m at level 100, k at level 200, only parsing).
Notation "m ';;' k" := (bind m (fun _ => k))
  (at level 100, k at level 200, right associativity, only parsing).

(** C's [(int) f] on a float: truncation toward zero.  Floats are modelled
    by the rationals they denote. *)
Definition float_to_int (f : Q) : Z := Z.quot (Qnum f) (Zpos (Qden f)).

(** C's conversions of an integer to a narrower type: to [int], to the
    32-bit [unsigned] that [size_t] and [SceSize] are on the Vita, and to
    [Uint8].  The unsigned ones reduce modulo 2^32 and 2^8; the signed one is
    the compiler's, which wraps as well. *)
Definition to_int (v : Z) : Z := (v + 2 ^ 31) mod 2 ^ 32 - 2 ^ 31.
Definition to_unsigned (v : Z) : Z := v mod 2 ^ 32.
Definition to_Uint8 (v : Z) : Z := v mod 256.

(** A pointer is an address or NULL. *)
Definition handle := positive.

(** ** Programs that leave a part of the statics alone *)

Section Frames.
Context {S E X : Type}.

(** Two worlds agree on what [f] reads from the statics. *)
Definition same_on (f : S -> X) (w w' : world S E) : Prop :=
  f (state w') = f (state w).

(** Wherever [m] is started, [f] reads the same from the statics when [m]
    returns; [faulty] as in [triple]. *)
Definition keeps {A} (f : S -> X) (faulty : Prop) (m : prog S E A) : Prop :=
  forall w, triple faulty m w (fun _ w' => same_on f w w').
End Frames.

(** ** [src/platform/mouse.c] *)

Module Mouse.

(** [static struct { int x; int y; int enabled; } data], and the caller's
    [int] cells that [system_mouse_get_relative_state] writes through. *)
Record data_t := Data {
  x : Z;
  y : Z;
  enabled : Z;
  heap : gmap handle Z;
}.

Inductive event :=
| SDL_GetRelativeMouseState (fx fy : Q)
| SDL_GetMouseFocus (window : option handle)
| SDL_GetMouseState (fx fy : Q)
| platform_screen_get_scale (scale : Z)
| SDL_SetWindowRelativeMouseMode (window : option handle) (on : bool)
| system_set_mouse_position (x_in y_in x_out y_out : Z)
| mouse_set_position (mx my : Z)
| mouse_get (mx my : Z).

(** What the code outside [mouse.c] answers.  [calc_percentage] and
    [calc_adjust_with_percentage] are the repository's [core/calc.h]
    helpers, [system_set_mouse_position] may rewrite the coordinates it is
    given by reference. *)
Record platform := Platform {
  on_SDL_GetRelativeMouseState : list event -> Q * Q;
  on_SDL_GetMouseFocus : list event -> option handle;
  on_SDL_GetMouseState : list event -> Q * Q;
  on_platform_screen_get_scale : list event -> Z;
  on_system_set_mouse_position : list event -> Z -> Z -> Z * Z;
  on_mouse_get : list event -> Z * Z;
  calc_percentage : Z -> Z -> Z;
  calc_adjust_with_percentage : Z -> Z -> Z;
}.

Definition M := prog data_t event.

Definition initial : world data_t event := World (Data 0 0 0 ∅) [].

Definition store (p : handle) (v : Z) : M unit :=
  modify (fun d => Data (x d) (y d) (enabled d) (<[p := v]> (heap d))).

Definition set_x (v : Z) : M unit :=
  modify (fun d => Data v (y d) (enabled d) (heap d)).
Definition set_y (v : Z) : M unit :=
  modify (fun d => Data (x d) v (enabled d) (heap d)).
Definition set_enabled (v : Z) : M unit :=
  modify (fun d => Data (x d) (y d) v (heap d)).

Section Code.
Variable P : platform.

Definition system_mouse_get_relative_state (px py : option handle) : M unit :=
  match px, py with
  | Some ax, Some ay =>
      let* (fx, fy) := extern (on_SDL_GetRelativeMouseState P)
                               (fun r => SDL_GetRelativeMouseState r.1 r.2) in
      store ax (float_to_int fx);;
      store ay (float_to_int fy)
  | _, _ => ret tt
  end.

Definition system_mouse_set_relative_mode (enabled_arg : Z) : M unit :=
  let* d := get in
  if enabled_arg =? enabled d then ret tt else
  let* window := extern (on_SDL_GetMouseFocus P) SDL_GetMouseFocus in
  (if negb (enabled_arg =? 0) then
     let* (fx, fy) := extern (on_SDL_GetMouseState P)
                              (fun r => SDL_GetMouseState r.1 r.2) in
     set_x (float_to_int fx);;
     set_y (float_to_int fy);;
     let* scale := extern (on_platform_screen_get_scale P)
                          platform_screen_get_scale in
     let scale_percentage := calc_percentage P 100 scale in
     let* d := get in
     set_x (calc_adjust_with_percentage P (x d) scale_percentage);;
     let* d := get in
     set_y (calc_adjust_with_percentage P (y d) scale_percentage);;
     emit (SDL_SetWindowRelativeMouseMode window true);;
     system_mouse_get_relative_state None None
   else
     emit (SDL_SetWindowRelativeMouseMode window false);;
     let* d := get in
     let* (x', y') := extern (fun t => on_system_set_mouse_position P t (x d) (y d))
                              (fun r => system_set_mouse_position (x d) (y d) r.1 r.2) in
     set_x x';;
     set_y y';;
     emit (mouse_set_position x' y'));;
  set_enabled enabled_arg.

Definition system_move_mouse_cursor (delta_x delta_y : Z) : M unit :=
  let* m1 := extern (on_mouse_get P) (fun r => mouse_get r.1 r.2) in
  let x0 := m1.1 + delta_x in
  let* m2 := extern (on_mouse_get P) (fun r => mouse_get r.1 r.2) in
  let y0 := m2.2 + delta_y in
  let* (x', y') := extern (fun t => on_system_set_mouse_position P t x0 y0)
                           (fun r => system_set_mouse_position x0 y0 r.1 r.2) in
  emit (mouse_set_position x' y').
End Code.

(** What the file keeps between calls. *)
Definition saved (d : data_t) : Z * Z * Z := (x d, y d, enabled d).

(** The calls that the rest of the program makes into the file. *)
Inductive call :=
| call_get_relative_state (px py : option handle)
| call_move_cursor (delta_x delta_y : Z)
| call_set_relative_mode (enabled_arg : Z).

Definition run_call (P : platform) (c : call) : M unit :=
  match c with
  | call_get_relative_state px py => system_mouse_get_relative_state P px py
  | call_move_cursor dx dy => system_move_mouse_cursor P dx dy
  | call_set_relative_mode e => system_mouse_set_relative_mode P e
  end.

Fixpoint run_calls (P : platform) (cs : list call) : M unit :=
  match cs with
  | [] => ret tt
  | c :: cs' => run_call P c;; run_calls P cs'
  end.

(** A call that does not ask for another mode than [e]. *)
Definition same_mode (e : Z) (c : call) : bool :=
  match c with
  | call_set_relative_mode e' => e' =? e
  | _ => true
  end.

(** A platform to run the code on: a window has the focus, the cursor
    is at (10.5, 20.25) on a screen scaled to 150%, and the cursor can be
    put anywhere. *)
Definition demo_platform : platform := {|
  on_SDL_GetRelativeMouseState := fun _ => (Qmake 3 1, Qmake (-4) 1);
  on_SDL_GetMouseFocus := fun _ => Some 1%positive;
  on_SDL_GetMouseState := fun _ => (Qmake 21 2, Qmake 81 4);
  on_platform_screen_get_scale := fun _ => 150;
  on_system_set_mouse_position := fun _ px py => (px, py);
  on_mouse_get := fun _ => (0, 0);
  calc_percentage := fun value total =>
    if total =? 0 then 0 else Z.quot (100 * value) total;
  calc_adjust_with_percentage := fun value percentage =>
    Z.quot (percentage * value) 100;
|}.

End Mouse.

(** ** [src/platform/platform.c] *)

Module Platform.

(** The library: the version that runs, as [SDL_GetVersion] answers it, and
    the [SDL_VERSIONNUM] macro of its headers. *)
Record sdl := Sdl {
  on_SDL_GetVersion : Z;
  SDL_VERSIONNUM : Z -> Z -> Z -> Z;
}.

Definition platform_sdl_version_at_least (S : sdl) (major minor patch : Z) : Z :=
  let v := on_SDL_GetVersion S in
  if v >=? SDL_VERSIONNUM S major minor patch then 1 else 0.

(** SDL3's [SDL_version.h]:
    [((major) * 1000000 + (minor) * 1000 + (patch))]. *)
Definition sdl3_versionnum (major minor patch : Z) : Z :=
  major * 1000000 + minor * 1000 + patch.

(** SDL 3.2.10. *)
Definition demo_sdl : sdl := Sdl (sdl3_versionnum 3 2 10) sdl3_versionnum.

End Platform.

(** ** [src/platform/sound_device.c] *)

Module SoundDevice.

Definition AUDIO_RATE : Z := 22050.
Definition AUDIO_CHANNELS : Z := 2.
Definition MAX_CHANNELS : Z := 150.

(** The three builds the preprocessor selects between. *)
Inductive target := Desktop | Android | Vita.

(** *** Data *)

Definition SDL_AudioFormat := Z.

Record SDL_AudioSpec := AudioSpec {
  freq : Z;
  spec_format : SDL_AudioFormat;
  spec_channels : Z;
}.

(** [typedef struct { const char *filename; Mix_Chunk *chunk; } sound_channel].
    The file name is a pointer into the array given to
    [sound_device_init_channels]; no function of this file writes to that
    array, and the pointer is modelled by the string it points to. *)
Record sound_channel := Channel {
  filename : option string;
  chunk : option handle;
}.

(** [static struct { int initialized; Mix_Music *music;
                     sound_channel channels[MAX_CHANNELS]; } data] *)
Record data_t := Data {
  initialized : Z;
  music : option handle;
  channels : list sound_channel;
}.

(** [static struct { SDL_AudioFormat format; SDL_AudioFormat dst_format;
                     SDL_AudioStream *stream; } custom_music] *)
Record custom_music_t := CustomMusic {
  format : SDL_AudioFormat;
  dst_format : SDL_AudioFormat;
  stream : option handle;
}.

(** [static struct { char filename[FILE_NAME_MAX]; char *buffer; int size; }
    vita_music_data] (Vita build only) *)
Record vita_music_data_t := VitaMusicData {
  vita_filename : string;
  buffer : option handle;
  size : Z;
}.

Record statics := Statics {
  data : data_t;
  custom_music : custom_music_t;
  vita_music_data : vita_music_data_t;
}.

(** [typedef struct IOStreamStdioFPData { FILE *fp; bool autoclose; }] *)
Record IOStreamStdioFPData := StdioFPData {
  fp : handle;
  autoclose : bool;
}.

Inductive stdio_whence := SEEK_SET | SEEK_CUR | SEEK_END.

(** [SDL_IOWhence], from SDL3's [SDL_iostream.h]. *)
Definition SDL_IO_SEEK_SET : Z := 0.
Definition SDL_IO_SEEK_CUR : Z := 1.
Definition SDL_IO_SEEK_END : Z := 2.

(** The functions of this file that are handed to the library as
    callbacks. *)
Inductive io_callback :=
| fn_stdio_seek | fn_stdio_read | fn_stdio_write | fn_stdio_close.
Inductive music_hook := fn_custom_music_callback.

(** [SDL_IOStreamInterface] after [SDL_INIT_INTERFACE]: every entry NULL
    until assigned. *)
Record SDL_IOStreamInterface := IOInterface {
  iface_seek : option io_callback;
  iface_read : option io_callback;
  iface_write : option io_callback;
  iface_close : option io_callback;
}.

Inductive log_arg := ArgInt (n : Z) | ArgStr (s : option string).

Inductive music_type := MUS_MP3 | MUS_WAV.

Definition bytes := list Z.

(** *** Calls to the outside, with their answers *)

Inductive event :=
(* stdio and SDL's error slot *)
| SDL_SetError (msg : string)
| fseek (f : handle) (offset : Z) (whence : stdio_whence) (r : Z)
| ftell (f : handle) (pos : Z)
| fread (f : handle) (size : Z) (n : Z)
| fwrite (f : handle) (size : Z) (n : Z)
| ferror (f : handle) (r : Z)
| fclose (f : handle) (r : Z)
| SDL_malloc (r : option handle)
| SDL_OpenIO (iface : SDL_IOStreamInterface) (userdata : handle)
             (contents : IOStreamStdioFPData) (r : option handle)
| file_open (name mode : string) (r : option handle)
(* logging *)
| SDL_GetError (msg : option string)
| SDL_LogError (fmt : string) (args : list log_arg)
| SDL_LogWarn (fmt : string) (args : list log_arg)
| SDL_Log (fmt : string) (args : list log_arg)
| log_info (msg : string) (param_str : option string) (param_int : Z)
| log_error (msg : string) (param_str : option string) (param_int : Z)
(* the audio device *)
| Mix_OpenAudio (devid : Z) (spec : SDL_AudioSpec) (ok : bool)
| SDL_GetNumAudioDrivers (n : Z)
| SDL_GetAudioDeviceName (i : Z) (name : option string)
| Mix_CloseAudio
| Mix_QuerySpec (rate : Z) (fmt : SDL_AudioFormat) (nchannels : Z)
(* channels *)
| Mix_AllocateChannels (n : Z)
| Mix_LoadWAV (name : string) (r : option handle)
| Mix_LoadWAV_IO (io : option handle) (closeio : Z) (r : option handle)
| Mix_Playing (channel : Z) (r : Z)
| Mix_VolumeChunk (c : handle) (volume : Z)
| Mix_PlayChannel (channel : Z) (c : option handle) (loops : Z)
| Mix_SetPanning (channel : Z) (left right : Z)
| Mix_HaltChannel (channel : Z)
| Mix_FreeChunk (c : handle)
(* music *)
| Mix_VolumeMusic (volume : Z)
| Mix_LoadMUS (name : string) (r : option handle)
| Mix_LoadMUSType_IO (io : option handle) (type : music_type) (closeio : bool)
                     (r : option handle)
| Mix_PlayMusic (m : handle) (loops : Z) (ok : bool)
| Mix_HaltMusic
| Mix_FreeMusic (m : handle)
| Mix_HookMusic (hook : option music_hook)
(* Vita file access *)
| sceIoOpen (name : string) (fd : Z)
| sceIoLseek (fd : Z) (offset : Z) (from_end : bool) (r : Z)
| sceIoRead (fd : Z) (buf : option handle) (size : Z)
| sceIoClose (fd : Z)
| malloc (size : Z) (r : option handle)
| free (p : option handle)
| SDL_IOFromMem (mem : handle) (size : Z) (r : option handle)
(* the custom music stream *)
| SDL_DestroyAudioStream (s : handle)
| SDL_CreateAudioStream (src dst : SDL_AudioSpec) (r : option handle)
| SDL_PutAudioStreamData (s : handle) (samples : bytes) (len : Z) (ok : bool)
| SDL_GetAudioStreamData (s : handle) (len : Z) (copied : Z) (got : bytes)
| setting_sound_effects_volume (pct : Z)
| SDL_MixAudio (dst src : bytes) (fmt : SDL_AudioFormat) (len : Z) (volume : Q)
               (mixed : bytes).

(** What the library, the C runtime and the rest of the repository answer,
    each from its arguments and the calls made so far; and the constants
    of their headers that the file uses. *)
Record library := Library {
  SDL_AUDIO_U8 : SDL_AudioFormat;
  SDL_AUDIO_S16 : SDL_AudioFormat;
  SDL_AUDIO_S16LE : SDL_AudioFormat;
  MIX_MAX_VOLUME : Z;
  FILE_NAME_MAX : Z;
  fseek_off_t : Z -> Z;
  file_has_extension : string -> string -> bool;
  on_fseek : handle -> Z -> stdio_whence -> list event -> Z;
  on_ftell : handle -> list event -> Z;
  on_fread : handle -> Z -> list event -> Z;
  on_fwrite : handle -> Z -> list event -> Z;
  on_ferror : handle -> list event -> Z;
  on_fclose : handle -> list event -> Z;
  on_SDL_malloc : list event -> option handle;
  on_SDL_OpenIO : SDL_IOStreamInterface -> handle -> list event -> option handle;
  on_file_open : string -> string -> list event -> option handle;
  on_SDL_GetError : list event -> option string;
  on_Mix_OpenAudio : Z -> SDL_AudioSpec -> list event -> bool;
  on_SDL_GetNumAudioDrivers : list event -> Z;
  on_SDL_GetAudioDeviceName : Z -> list event -> option string;
  on_Mix_QuerySpec : list event -> Z * SDL_AudioFormat * Z;
  on_Mix_LoadWAV : string -> list event -> option handle;
  on_Mix_LoadWAV_IO : option handle -> Z -> list event -> option handle;
  on_Mix_Playing : Z -> list event -> Z;
  on_Mix_LoadMUS : string -> list event -> option handle;
  on_Mix_LoadMUSType_IO : option handle -> music_type -> bool -> list event -> option handle;
  on_Mix_PlayMusic : handle -> Z -> list event -> bool;
  on_sceIoOpen : string -> list event -> Z;
  on_sceIoLseek : Z -> Z -> bool -> list event -> Z;
  on_malloc : Z -> list event -> option handle;
  on_SDL_IOFromMem : handle -> Z -> list event -> option handle;
  on_SDL_CreateAudioStream : SDL_AudioSpec -> SDL_AudioSpec -> list event -> option handle;
  on_SDL_PutAudioStreamData : handle -> bytes -> Z -> list event -> bool;
  on_SDL_GetAudioStreamData : handle -> Z -> list event -> Z * bytes;
  on_setting_sound_effects_volume : list event -> Z;
  on_SDL_MixAudio : bytes -> bytes -> SDL_AudioFormat -> Z -> Q -> bytes;
}.

Definition M := prog statics event.

Definition no_channel : sound_channel := Channel None None.

(** C zero-initialises statics. *)
Definition initial : world statics event :=
  World (Statics (Data 0 None (replicate (Z.to_nat MAX_CHANNELS) no_channel))
                 (CustomMusic 0 0 None)
                 (VitaMusicData "" None 0))
        [].

(** *** Field updates *)

Definition set_data (f : data_t -> data_t) : M unit :=
  modify (fun s => Statics (f (data s)) (custom_music s) (vita_music_data s)).
Definition set_custom_music (f : custom_music_t -> custom_music_t) : M unit :=
  modify (fun s => Statics (data s) (f (custom_music s)) (vita_music_data s)).
Definition set_vita_music_data (f : vita_music_data_t -> vita_music_data_t) : M unit :=
  modify (fun s => Statics (data s) (custom_music s) (f (vita_music_data s))).

Definition set_initialized (v : Z) : M unit :=
  set_data (fun d => Data v (music d) (channels d)).
Definition set_music (m : option handle) : M unit :=
  set_data (fun d => Data (initialized d) m (channels d)).
Definition set_stream (s : option handle) : M unit :=
  set_custom_music (fun c => CustomMusic (format c) (dst_format c) s).
Definition set_format (f : SDL_AudioFormat) : M unit :=
  set_custom_music (fun c => CustomMusic f (dst_format c) (stream c)).
Definition set_dst_format (f : SDL_AudioFormat) : M unit :=
  set_custom_music (fun c => CustomMusic (format c) f (stream c)).

(** *** The channel table: [data.channels[i]]

    The table has [MAX_CHANNELS] slots; C does not check [i]. *)

Definition in_table (i : Z) : bool := (0 <=? i) && (i <? MAX_CHANNELS).

Definition read_channel (i : Z) : M sound_channel :=
  let* s := get in
  if in_table i then
    match channels (data s) !! Z.to_nat i with
    | Some c => ret c
    | None => fault "data.channels" i
    end
  else fault "data.channels" i.

Definition write_channel (i : Z) (f : sound_channel -> sound_channel) : M unit :=
  let* c := read_channel i in
  set_data (fun d => Data (initialized d) (music d)
                          (<[Z.to_nat i := f c]> (channels d))).

Definition set_chunk (i : Z) (c : option handle) : M unit :=
  write_channel i (fun ch => Channel (filename ch) c).
Definition set_filename (i : Z) (f : option string) : M unit :=
  write_channel i (fun ch => Channel f (chunk ch)).

(** [filenames[i]] of the caller's array, which C does not check either. *)
Definition read_filename (filenames : list string) (i : Z) : M string :=
  if 0 <=? i then
    match filenames !! Z.to_nat i with
    | Some f => ret f
    | None => fault "filenames" i
    end
  else fault "filenames" i.

(** [s[0]] as a condition. *)
Definition nonempty (s : string) : bool :=
  match s with EmptyString => false | String _ _ => true end.

(** [strncpy(dst, src, n)] into a zeroed buffer: at most [n] characters. *)
Definition strncpy (src : string) (n : Z) : string :=
  String.substring 0 (Z.to_nat n) src.

Definition is_null {A} (p : option A) : bool :=
  match p with Some _ => false | None => true end.

Definition zeros (len : Z) : bytes := replicate (Z.to_nat len) 0.

(** [memset(dst, 0, len)] *)
Definition memset_zero (dst : bytes) (len : Z) : bytes :=
  zeros len ++ drop (Z.to_nat len) dst.

(** *** The code *)

Section Code.
Variable T : target.
Variable L : library.

Definition AUDIO_FORMAT : SDL_AudioFormat := SDL_AUDIO_S16LE L.

(** **** The emulated [SDL_RWFromFP] (Vita and Android builds) *)

(** The [switch (whence)] of [stdio_seek]; [None] is its [default]. *)
Definition stdio_whence_of (whence : Z) : option stdio_whence :=
  if whence =? SDL_IO_SEEK_SET then Some SEEK_SET
  else if whence =? SDL_IO_SEEK_CUR then Some SEEK_CUR
  else if whence =? SDL_IO_SEEK_END then Some SEEK_END
  else None.

Definition stdio_seek (userdata : IOStreamStdioFPData) (offset whence : Z) : M Z :=
  let f := fp userdata in
  match stdio_whence_of whence with
  | None =>
      emit (SDL_SetError "Unknown value for 'whence'");;
      ret (-1)
  | Some stdiowhence =>
      let* r := extern (on_fseek L f (fseek_off_t L offset) stdiowhence)
                       (fseek f (fseek_off_t L offset) stdiowhence) in
      if r =? 0 then
        let* pos := extern (on_ftell L f) (ftell f) in
        if pos <? 0 then
          emit (SDL_SetError "Couldn't get stream offset");;
          ret (-1)
        else ret pos
      else
        emit (SDL_SetError "Couldn't seek in stream");;
        ret (-1)
  end.

Definition stdio_read (userdata : IOStreamStdioFPData) (size : Z) : M Z :=
  let f := fp userdata in
  let* n := extern (on_fread L f size) (fread f size) in
  (if n =? 0 then
     let* e := extern (on_ferror L f) (ferror f) in
     if negb (e =? 0) then emit (SDL_SetError "Couldn't read stream") else ret tt
   else ret tt);;
  ret n.

Definition stdio_write (userdata : IOStreamStdioFPData) (size : Z) : M Z :=
  let f := fp userdata in
  let* n := extern (on_fwrite L f size) (fwrite f size) in
  (if n =? 0 then
     let* e := extern (on_ferror L f) (ferror f) in
     if negb (e =? 0) then emit (SDL_SetError "Couldn't write stream") else ret tt
   else ret tt);;
  ret n.

Definition stdio_close (userdata : IOStreamStdioFPData) : M bool :=
  if autoclose userdata then
    let* r := extern (on_fclose L (fp userdata)) (fclose (fp userdata)) in
    if negb (r =? 0) then
      emit (SDL_SetError "Couldn't close stream");;
      ret false
    else ret true
  else ret true.

Definition SDL_RWFromFP (f : handle) (autoclose_arg : bool) : M (option handle) :=
  let* rwopsdata := extern (on_SDL_malloc L) SDL_malloc in
  match rwopsdata with
  | None => ret None
  | Some p =>
      let iface := IOInterface (Some fn_stdio_seek) (Some fn_stdio_read)
                               (Some fn_stdio_write) (Some fn_stdio_close) in
      let contents := StdioFPData f autoclose_arg in
      let* rwops := extern (on_SDL_OpenIO L iface p)
                           (SDL_OpenIO iface p contents) in
      (if is_null rwops then
         let* _ := stdio_close contents in ret tt
       else ret tt);;
      ret rwops
  end.

(** **** The device and its channels *)

Definition percentage_to_volume (percentage : Z) : Q :=
  Qmake percentage 100.

(** [percentage_to_volume(volume_pct) * MIX_MAX_VOLUME], passed as [int]. *)
Definition mixer_volume (volume_pct : Z) : Z :=
  float_to_int (Qmult (percentage_to_volume volume_pct)
                      (inject_Z (MIX_MAX_VOLUME L))).

Definition init_channels : M unit :=
  set_initialized 1;;
  for_lt MAX_CHANNELS (fun i => set_chunk i None).

Definition sound_device_stop_channel (channel : Z) : M unit :=
  let* s := get in
  if negb (initialized (data s) =? 0) then
    let* ch := read_channel channel in
    match chunk ch with
    | Some c =>
        emit (Mix_HaltChannel channel);;
        emit (Mix_FreeChunk c);;
        set_chunk channel None
    | None => ret tt
    end
  else ret tt.

Definition sound_device_open : M unit :=
  let spec := AudioSpec AUDIO_RATE AUDIO_FORMAT AUDIO_CHANNELS in
  let* ok := extern (on_Mix_OpenAudio L 0 spec) (Mix_OpenAudio 0 spec) in
  if ok then init_channels
  else
    let* err := extern (on_SDL_GetError L) SDL_GetError in
    emit (SDL_LogError "Sound failed to initialize using default driver: %s"
                       [ArgStr err]);;
    let* max := extern (on_SDL_GetNumAudioDrivers L) SDL_GetNumAudioDrivers in
    emit (SDL_Log "Number of audio devices: %d" [ArgInt max]);;
    for_lt max (fun i =>
      let* name := extern (on_SDL_GetAudioDeviceName L i)
                          (SDL_GetAudioDeviceName i) in
      emit (SDL_Log "Audio device: %s" [ArgStr name])).

Definition sound_device_close : M unit :=
  let* s := get in
  if negb (initialized (data s) =? 0) then
    for_lt MAX_CHANNELS sound_device_stop_channel;;
    emit Mix_CloseAudio;;
    set_initialized 0
  else ret tt.

Definition load_chunk (name : string) : M (option handle) :=
  if nonempty name then
    match T with
    | Desktop => extern (on_Mix_LoadWAV L name) (Mix_LoadWAV name)
    | Android | Vita =>
        let* f := extern (on_file_open L name "rb") (file_open name "rb") in
        match f with
        | None => ret None
        | Some f =>
            let* sdl_fp := SDL_RWFromFP f true in
            extern (on_Mix_LoadWAV_IO L sdl_fp 1) (Mix_LoadWAV_IO sdl_fp 1)
        end
    end
  else ret None.

(** [load_channel(&data.channels[channel])] *)
Definition load_channel (channel : Z) : M Z :=
  let* ch := read_channel channel in
  (match chunk ch, filename ch with
   | None, Some name =>
       let* c := load_chunk name in
       set_chunk channel c
   | _, _ => ret tt
   end);;
  let* ch := read_channel channel in
  ret (match chunk ch with Some _ => 1 | None => 0 end).

Definition sound_device_init_channels (num_channels : Z)
           (filenames : list string) : M unit :=
  let* s := get in
  if negb (initialized (data s) =? 0) then
    let num_channels :=
      if num_channels >? MAX_CHANNELS then MAX_CHANNELS else num_channels in
    emit (Mix_AllocateChannels num_channels);;
    emit (log_info "Loading audio files" None 0);;
    for_lt num_channels (fun i =>
      set_chunk i None;;
      let* name := read_filename filenames i in
      set_filename i (if nonempty name then Some name else None))
  else ret tt.

Definition sound_device_is_channel_playing (channel : Z) : M Z :=
  let* ch := read_channel channel in
  match chunk ch with
  | Some _ =>
      let* playing := extern (on_Mix_Playing L channel) (Mix_Playing channel) in
      ret (if playing =? 0 then 0 else 1)
  | None => ret 0
  end.

Definition sound_device_set_music_volume (volume_pct : Z) : M unit :=
  emit (Mix_VolumeMusic (mixer_volume volume_pct)).

Definition sound_device_set_channel_volume (channel volume_pct : Z) : M unit :=
  let* ch := read_channel channel in
  match chunk ch with
  | Some c => emit (Mix_VolumeChunk c (mixer_volume volume_pct))
  | None => ret tt
  end.

(** **** Music *)

Definition sound_device_stop_music : M unit :=
  let* s := get in
  if negb (initialized (data s) =? 0) then
    match music (data s) with
    | Some m =>
        emit Mix_HaltMusic;;
        emit (Mix_FreeMusic m);;
        set_music None
    | None => ret tt
    end
  else ret tt.

Definition load_music_for_vita (name : string) : M unit :=
  let* s := get in
  let v := vita_music_data s in
  let cached :=
    match buffer v with
    | Some _ => String.eqb name (vita_filename v)
    | None => false
    end in
  if cached then ret tt else
  (match buffer v with
   | Some b =>
       emit (free (Some b));;
       set_vita_music_data (fun v => VitaMusicData (vita_filename v) None (size v))
   | None => ret tt
   end);;
  set_vita_music_data (fun v =>
    VitaMusicData (strncpy name (FILE_NAME_MAX L - 1)) (buffer v) (size v));;
  let* fd := extern (on_sceIoOpen L name) (sceIoOpen name) in
  if fd <? 0 then ret tt else
  let* end_offset := extern (on_sceIoLseek L fd 0 true) (sceIoLseek fd 0 true) in
  set_vita_music_data (fun v =>
    VitaMusicData (vita_filename v) (buffer v) (to_int end_offset));;
  let* _ := extern (on_sceIoLseek L fd 0 false) (sceIoLseek fd 0 false) in
  let* s := get in
  let sz := to_unsigned (size (vita_music_data s)) in
  let* b := extern (on_malloc L sz) (malloc sz) in
  set_vita_music_data (fun v => VitaMusicData (vita_filename v) b (size v));;
  let* s := get in
  emit (sceIoRead fd (buffer (vita_music_data s))
                  (to_unsigned (size (vita_music_data s))));;
  emit (sceIoClose fd).

Definition music_type_of (name : string) : music_type :=
  if file_has_extension L name "mp3" then MUS_MP3 else MUS_WAV.

(** The build-dependent middle of [sound_device_play_music]: [None] when
    it returns 0 early, otherwise the value assigned to [data.music]. *)
Definition load_music (name : string) : M (option (option handle)) :=
  match T with
  | Vita =>
      load_music_for_vita name;;
      let* s := get in
      match buffer (vita_music_data s) with
      | None => ret None
      | Some b =>
          let sz := to_unsigned (size (vita_music_data s)) in
          let* sdl_music := extern (on_SDL_IOFromMem L b sz) (SDL_IOFromMem b sz) in
          let* m := extern (on_Mix_LoadMUSType_IO L sdl_music (music_type_of name) true)
                           (Mix_LoadMUSType_IO sdl_music (music_type_of name) true) in
          ret (Some m)
      end
  | Android =>
      let* f := extern (on_file_open L name "rb") (file_open name "rb") in
      match f with
      | None => ret None
      | Some f =>
          let* sdl_fp := SDL_RWFromFP f true in
          let* m := extern (on_Mix_LoadMUSType_IO L sdl_fp (music_type_of name) true)
                           (Mix_LoadMUSType_IO sdl_fp (music_type_of name) true) in
          ret (Some m)
      end
  | Desktop =>
      let* m := extern (on_Mix_LoadMUS L name) (Mix_LoadMUS name) in
      ret (Some m)
  end.

Definition sound_device_play_music (name : option string) (volume_pct : Z) : M Z :=
  let* s := get in
  if negb (initialized (data s) =? 0) then
    sound_device_stop_music;;
    match name with
    | None => ret 0
    | Some name =>
        let* loaded := load_music name in
        match loaded with
        | None => ret 0
        | Some m =>
            set_music m;;
            (match m with
             | None =>
                 let* err := extern (on_SDL_GetError L) SDL_GetError in
                 emit (SDL_LogWarn "Error opening music file '%s'. Reason: %s"
                                   [ArgStr (Some name); ArgStr err])
             | Some h =>
                 let* ok := extern (on_Mix_PlayMusic L h (-1)) (Mix_PlayMusic h (-1)) in
                 if negb ok then
                   set_music None;;
                   let* err := extern (on_SDL_GetError L) SDL_GetError in
                   emit (SDL_LogWarn "Error playing music file '%s'. Reason: %s"
                                     [ArgStr (Some name); ArgStr err])
                 else sound_device_set_music_volume volume_pct
             end);;
            let* s := get in
            ret (match music (data s) with Some _ => 1 | None => 0 end)
        end
    end
  else ret 0.

Definition sound_device_play_file_on_channel (name : string)
           (channel volume_pct : Z) : M unit :=
  let* s := get in
  if negb (initialized (data s) =? 0) then
    sound_device_stop_channel channel;;
    let* c := load_chunk name in
    set_chunk channel c;;
    let* ch := read_channel channel in
    match chunk ch with
    | Some _ =>
        sound_device_set_channel_volume channel volume_pct;;
        let* ch := read_channel channel in
        emit (Mix_PlayChannel channel (chunk ch) 0)
    | None => ret tt
    end
  else ret tt.

Definition sound_device_play_channel (channel volume_pct : Z) : M unit :=
  let* s := get in
  if negb (initialized (data s) =? 0) then
    let* loaded := load_channel channel in
    if negb (loaded =? 0) then
      sound_device_set_channel_volume channel volume_pct;;
      let* ch := read_channel channel in
      emit (Mix_PlayChannel channel (chunk ch) 0)
    else ret tt
  else ret tt.

Definition sound_device_play_channel_panned (channel volume_pct left_pct right_pct : Z)
  : M unit :=
  let* s := get in
  if negb (initialized (data s) =? 0) then
    let* loaded := load_channel channel in
    if negb (loaded =? 0) then
      emit (Mix_SetPanning channel (to_Uint8 (Z.quot (left_pct * 255) 100))
                                   (to_Uint8 (Z.quot (right_pct * 255) 100)));;
      sound_device_set_channel_volume channel volume_pct;;
      let* ch := read_channel channel in
      emit (Mix_PlayChannel channel (chunk ch) 0)
    else ret tt
  else ret tt.

(** **** The custom music stream *)

Definition free_custom_audio_stream : M unit :=
  let* s := get in
  match stream (custom_music s) with
  | Some st =>
      emit (SDL_DestroyAudioStream st);;
      set_stream None
  | None => ret tt
  end.

(** [src_channels] and [dst_channels] are [Uint8] parameters. *)
Definition create_custom_audio_stream
           (src_format : SDL_AudioFormat) (src_channels src_rate : Z)
           (dst_format_arg : SDL_AudioFormat) (dst_channels dst_rate : Z) : M Z :=
  let src_channels := src_channels mod 256 in
  let dst_channels := dst_channels mod 256 in
  free_custom_audio_stream;;
  set_dst_format dst_format_arg;;
  let src_spec := AudioSpec src_rate src_format src_channels in
  let dst_spec := AudioSpec dst_rate dst_format_arg dst_channels in
  let* st := extern (on_SDL_CreateAudioStream L src_spec dst_spec)
                    (SDL_CreateAudioStream src_spec dst_spec) in
  set_stream st;;
  ret (if is_null st then 0 else 1).

Definition custom_audio_stream_active : M Z :=
  let* s := get in
  ret (if is_null (stream (custom_music s)) then 0 else 1).

Definition put_custom_audio_stream (audio_data : option bytes) (len : Z) : M Z :=
  let* active := custom_audio_stream_active in
  if is_null audio_data || (len <=? 0) || (active =? 0) then ret 0 else
  let* s := get in
  match audio_data, stream (custom_music s) with
  | Some samples, Some st =>
      let* ok := extern (on_SDL_PutAudioStreamData L st samples len)
                        (SDL_PutAudioStreamData st samples len) in
      ret (if ok then 0 else 1)
  | _, _ => ret 0
  end.

(** [dst] is the mixer's music output of [len] bytes; its new contents
    are returned next to the C return value. *)
Definition get_custom_audio_stream (dst : option bytes) (len : Z)
  : M (Z * option bytes) :=
  let dst := (fun d => memset_zero d len) <$> dst in
  let* active := custom_audio_stream_active in
  if is_null dst || (len <=? 0) || (active =? 0) then ret (0, dst) else
  let* s := get in
  match dst, stream (custom_music s) with
  | Some d, Some st =>
      let* mix_buffer := extern (on_malloc L len) (malloc len) in
      if is_null mix_buffer then ret (0, dst) else
      let* (bytes_copied, got) :=
        extern (on_SDL_GetAudioStreamData L st len)
               (fun r => SDL_GetAudioStreamData st len r.1 r.2) in
      if bytes_copied <=? 0 then ret (0, dst) else
      let* pct := extern (on_setting_sound_effects_volume L)
                         setting_sound_effects_volume in
      let fmt := dst_format (custom_music s) in
      let volume := percentage_to_volume pct in
      let mixed := on_SDL_MixAudio L d got fmt bytes_copied volume in
      emit (SDL_MixAudio d got fmt bytes_copied volume mixed);;
      emit (free mix_buffer);;
      ret (bytes_copied, Some mixed)
  | _, _ => ret (0, dst)
  end.

Definition custom_music_callback (out : option bytes) (len : Z) : M (option bytes) :=
  let* r := get_custom_audio_stream out len in
  ret r.2.

(** What the mixer runs when it needs [len] bytes of music and [hook]
    is installed. *)
Definition run_music_hook (hook : music_hook) (out : option bytes) (len : Z)
  : M (option bytes) :=
  match hook with
  | fn_custom_music_callback => custom_music_callback out len
  end.

Definition sound_device_write_custom_music_data (audio_data : option bytes)
           (len : Z) : M unit :=
  let* active := custom_audio_stream_active in
  if is_null audio_data || (len <=? 0) || (active =? 0) then ret tt else
  let* _ := put_custom_audio_stream audio_data len in
  ret tt.

(** The format chosen from [bitdepth]; [None] is the unsupported case. *)
Definition format_of_bitdepth (bitdepth : Z) : option SDL_AudioFormat :=
  if bitdepth =? 8 then Some (SDL_AUDIO_U8 L)
  else if bitdepth =? 16 then Some (SDL_AUDIO_S16 L)
  else None.

Definition sound_device_use_custom_music_player
           (bitdepth num_channels rate : Z) (audio_data : option bytes) (len : Z)
  : M unit :=
  match format_of_bitdepth bitdepth with
  | None => emit (log_error "Custom music bitdepth not supported:" None bitdepth)
  | Some fmt =>
      let* (device_rate, device_format, device_channels) :=
        extern (on_Mix_QuerySpec L) (fun r => Mix_QuerySpec r.1.1 r.1.2 r.2) in
      set_format fmt;;
      let* result := create_custom_audio_stream fmt num_channels rate
                       device_format device_channels device_rate in
      if result =? 0 then ret tt else
      sound_device_write_custom_music_data audio_data len;;
      emit (Mix_HookMusic (Some fn_custom_music_callback))
  end.

Definition sound_device_use_default_music_player : M unit :=
  emit (Mix_HookMusic None);;
  free_custom_audio_stream.

(** **** The operations as one alphabet *)

(** Every entry point of the file: the functions of [sound/device.h],
    the emulated [SDL_RWFromFP], and the callbacks the library runs. *)
Inductive op :=
| op_open
| op_close
| op_init_channels (num_channels : Z) (filenames : list string)
| op_is_channel_playing (channel : Z)
| op_set_music_volume (volume_pct : Z)
| op_set_channel_volume (channel volume_pct : Z)
| op_play_music (name : option string) (volume_pct : Z)
| op_play_file_on_channel (name : string) (channel volume_pct : Z)
| op_play_channel (channel volume_pct : Z)
| op_play_channel_panned (channel volume_pct left_pct right_pct : Z)
| op_stop_music
| op_stop_channel (channel : Z)
| op_use_custom_music_player (bitdepth num_channels rate : Z)
                             (audio_data : option bytes) (len : Z)
| op_write_custom_music_data (audio_data : option bytes) (len : Z)
| op_use_default_music_player
| op_music_hook (hook : music_hook) (out : option bytes) (len : Z)
| op_SDL_RWFromFP (f : handle) (autoclose_arg : bool)
| op_stdio_seek (userdata : IOStreamStdioFPData) (offset whence : Z)
| op_stdio_read (userdata : IOStreamStdioFPData) (size : Z)
| op_stdio_write (userdata : IOStreamStdioFPData) (size : Z)
| op_stdio_close (userdata : IOStreamStdioFPData).

Definition discard {A} (m : M A) : M unit := let* _ := m in ret tt.

Definition run (o : op) : M unit :=
  match o with
  | op_open => sound_device_open
  | op_close => sound_device_close
  | op_init_channels n names => sound_device_init_channels n names
  | op_is_channel_playing c => discard (sound_device_is_channel_playing c)
  | op_set_music_volume v => sound_device_set_music_volume v
  | op_set_channel_volume c v => sound_device_set_channel_volume c v
  | op_play_music name v => discard (sound_device_play_music name v)
  | op_play_file_on_channel name c v => sound_device_play_file_on_channel name c v
  | op_play_channel c v => sound_device_play_channel c v
  | op_play_channel_panned c v l r => sound_device_play_channel_panned c v l r
  | op_stop_music => sound_device_stop_music
  | op_stop_channel c => sound_device_stop_channel c
  | op_use_custom_music_player b n r d len =>
      sound_device_use_custom_music_player b n r d len
  | op_write_custom_music_data d len => sound_device_write_custom_music_data d len
  | op_use_default_music_player => sound_device_use_default_music_player
  | op_music_hook h out len => discard (run_music_hook h out len)
  | op_SDL_RWFromFP f a => discard (SDL_RWFromFP f a)
  | op_stdio_seek u off wh => discard (stdio_seek u off wh)
  | op_stdio_read u sz => discard (stdio_read u sz)
  | op_stdio_write u sz => discard (stdio_write u sz)
  | op_stdio_close u => discard (stdio_close u)
  end.

(** The channel number an operation is given, if it is given one. *)
Definition op_channel (o : op) : option Z :=
  match o with
  | op_is_channel_playing c | op_set_channel_volume c _
  | op_play_file_on_channel _ c _ | op_play_channel c _
  | op_play_channel_panned c _ _ _ | op_stop_channel c => Some c
  | _ => None
  end.

(** What the callers owe: a channel number inside the table, and an
    array of file names that has the entries the loop reads. *)
Definition within_table (o : op) : Prop :=
  match o with
  | op_init_channels n names =>
      Z.min n MAX_CHANNELS <= Z.of_nat (length names)
  | _ =>
      match op_channel o with
      | Some c => 0 <= c < MAX_CHANNELS
      | None => True
      end
  end.

(** Running operations one after the other; a fault ends the run. *)
Fixpoint run_all (os : list op) : M unit :=
  match os with
  | [] => ret tt
  | o :: os' => run o;; run_all os'
  end.

(** The states the file can be in: those some sequence of operations
    leads to from the zeroed statics. *)
Definition reachable (w : world statics event) : Prop :=
  exists os, run_all os initial = Returns tt w.

End Code.

(** *** What a trace says about the library's objects

    A music track exists from the load that answered its handle until
    [Mix_FreeMusic]; it plays from a [Mix_PlayMusic] that succeeded until
    [Mix_HaltMusic] or until it is freed; an audio stream exists from
    [SDL_CreateAudioStream] until [SDL_DestroyAudioStream]. *)

Record mixer := Mixer {
  tracks : gset handle;
  playing : option handle;
  streams : gset handle;
}.

Definition observe (m : mixer) (e : event) : mixer :=
  match e with
  | Mix_LoadMUS _ (Some h) | Mix_LoadMUSType_IO _ _ _ (Some h) =>
      Mixer ({[h]} ∪ tracks m) (playing m) (streams m)
  | Mix_FreeMusic h =>
      Mixer (tracks m ∖ {[h]})
            (if decide (playing m = Some h) then None else playing m)
            (streams m)
  | Mix_PlayMusic h _ true => Mixer (tracks m) (Some h) (streams m)
  | Mix_HaltMusic => Mixer (tracks m) None (streams m)
  | SDL_CreateAudioStream _ _ (Some s) =>
      Mixer (tracks m) (playing m) ({[s]} ∪ streams m)
  | SDL_DestroyAudioStream s =>
      Mixer (tracks m) (playing m) (streams m ∖ {[s]})
  | _ => m
  end.

Definition mixer_from (m : mixer) (t : list event) : mixer := fold_left observe t m.

Definition no_mixer : mixer := Mixer ∅ None ∅.

Definition mixer_of (t : list event) : mixer := mixer_from no_mixer t.

Definition handle_set (p : option handle) : gset handle :=
  match p with Some h => {[h]} | None => ∅ end.

(** *** The invariants of the statics *)

(** The table keeps its [MAX_CHANNELS] slots. *)
Definition table_ok (w : world statics event) : Prop :=
  length (channels (data (state w))) = Z.to_nat MAX_CHANNELS.

(** The stored music handle, when there is one, is a track that exists;
    and a track that plays is the stored one. *)
Definition music_ok (w : world statics event) : Prop :=
  (forall h, music (data (state w)) = Some h -> h ∈ tracks (mixer_of (trace w))) /\
  (forall h, playing (mixer_of (trace w)) = Some h -> music (data (state w)) = Some h).

(** The streams that exist are exactly the stored one, if any. *)
Definition stream_ok (w : world statics event) : Prop :=
  streams (mixer_of (trace w)) = handle_set (stream (custom_music (state w))).

Definition Inv (w : world statics event) : Prop :=
  table_ok w /\ music_ok w /\ stream_ok w.

(** The calls that change nothing of what a trace says about tracks and
    streams. *)
Definition silent (e : event) : bool :=
  match e with
  | Mix_LoadMUS _ (Some _) | Mix_LoadMUSType_IO _ _ _ (Some _)
  | Mix_FreeMusic _ | Mix_PlayMusic _ _ true | Mix_HaltMusic
  | SDL_CreateAudioStream _ _ (Some _) | SDL_DestroyAudioStream _ => false
  | _ => true
  end.

(** A step that leaves the music handle, the custom-music state and the
    size of the table alone, and makes silent calls only. *)
Definition quiet_step (w w' : world statics event) : Prop :=
  (exists evs, trace w' = trace w ++ evs /\ forallb silent evs = true) /\
  music (data (state w')) = music (data (state w)) /\
  custom_music (state w') = custom_music (state w) /\
  length (channels (data (state w'))) = length (channels (data (state w))).

(** The calls by which [sound_device_stop_music] gives up the stored
    track. *)
Definition halt_events (stored : option handle) : list event :=
  match stored with
  | Some m => [Mix_HaltMusic; Mix_FreeMusic m]
  | None => []
  end.

(** What a run of calls does to the tracks, whatever they were before:
    it adds [loaded], and when [started] that track now plays. *)
Definition music_effect (evs : list event) (loaded : option handle)
           (started : bool) : Prop :=
  forall m, mixer_from m evs =
            Mixer (handle_set loaded ∪ tracks m)
                  (if started then loaded else playing m)
                  (streams m).

(** The call by which [free_custom_audio_stream] gives up the stored
    stream. *)
Definition destroy_events (stored : option handle) : list event :=
  match stored with
  | Some s => [SDL_DestroyAudioStream s]
  | None => []
  end.

(** The slot that [sound_device_init_channels] makes of a file name. *)
Definition slot_of (name : string) : sound_channel :=
  Channel (if nonempty name then Some name else None) None.

(** The statics with another table. *)
Definition with_channels (s : statics) (table : list sound_channel) : statics :=
  Statics (Data (initialized (data s)) (music (data s)) table)
          (custom_music s) (vita_music_data s).

(** The handle that [load_music] answered, if it answered one. *)
Definition loaded_of (r : option (option handle)) : option handle :=
  match r with
  | Some (Some h) => Some h
  | _ => None
  end.

(** [quiet faulty m]: wherever [m] is started, with the table at its size
    unless faults are of no concern, it makes a quiet step. *)
Definition quiet {A} (faulty : Prop) (m : M A) : Prop :=
  forall w, faulty \/ table_ok w ->
            triple faulty m w (fun _ w' => quiet_step w w').

(** *** Libraries to run the code on *)

(** Everything succeeds: the device opens, files load, music starts,
    streams are created.  The constants are those of the SDL3 headers. *)
Definition demo_library : library := {|
  SDL_AUDIO_U8 := 8;
  SDL_AUDIO_S16 := 32784;
  SDL_AUDIO_S16LE := 32784;
  MIX_MAX_VOLUME := 128;
  FILE_NAME_MAX := 300;
  fseek_off_t := fun off => off;
  file_has_extension := fun name ext =>
    String.eqb (String.substring (String.length name - String.length ext)
                                 (String.length ext) name) ext;
  on_fseek := fun _ _ _ _ => 0;
  on_ftell := fun _ _ => 42;
  on_fread := fun _ sz _ => sz;
  on_fwrite := fun _ sz _ => sz;
  on_ferror := fun _ _ => 0;
  on_fclose := fun _ _ => 0;
  on_SDL_malloc := fun _ => Some 11%positive;
  on_SDL_OpenIO := fun _ _ _ => Some 12%positive;
  on_file_open := fun _ _ _ => Some 13%positive;
  on_SDL_GetError := fun _ => Some "";
  on_Mix_OpenAudio := fun _ _ _ => true;
  on_SDL_GetNumAudioDrivers := fun _ => 1;
  on_SDL_GetAudioDeviceName := fun _ _ => Some "default";
  on_Mix_QuerySpec := fun _ => (44100, 32784, 2);
  on_Mix_LoadWAV := fun _ _ => Some 21%positive;
  on_Mix_LoadWAV_IO := fun _ _ _ => Some 21%positive;
  on_Mix_Playing := fun _ _ => 1;
  on_Mix_LoadMUS := fun _ _ => Some 31%positive;
  on_Mix_LoadMUSType_IO := fun _ _ _ _ => Some 31%positive;
  on_Mix_PlayMusic := fun _ _ _ => true;
  on_sceIoOpen := fun _ _ => 3;
  on_sceIoLseek := fun _ _ from_end _ => if from_end then 1000 else 0;
  on_malloc := fun _ _ => Some 41%positive;
  on_SDL_IOFromMem := fun _ _ _ => Some 42%positive;
  on_SDL_CreateAudioStream := fun _ _ _ => Some 51%positive;
  on_SDL_PutAudioStreamData := fun _ _ _ _ => true;
  on_SDL_GetAudioStreamData := fun _ len _ => (len, zeros len);
  on_setting_sound_effects_volume := fun _ => 100;
  on_SDL_MixAudio := fun dst src _ _ _ => src;
|}.

(** The same, except that music loads but does not start. *)
Definition silent_library : library := {|
  SDL_AUDIO_U8 := SDL_AUDIO_U8 demo_library;
  SDL_AUDIO_S16 := SDL_AUDIO_S16 demo_library;
  SDL_AUDIO_S16LE := SDL_AUDIO_S16LE demo_library;
  MIX_MAX_VOLUME := MIX_MAX_VOLUME demo_library;
  FILE_NAME_MAX := FILE_NAME_MAX demo_library;
  fseek_off_t := fseek_off_t demo_library;
  file_has_extension := file_has_extension demo_library;
  on_fseek := on_fseek demo_library;
  on_ftell := on_ftell demo_library;
  on_fread := on_fread demo_library;
  on_fwrite := on_fwrite demo_library;
  on_ferror := on_ferror demo_library;
  on_fclose := on_fclose demo_library;
  on_SDL_malloc := on_SDL_malloc demo_library;
  on_SDL_OpenIO := on_SDL_OpenIO demo_library;
  on_file_open := on_file_open demo_library;
  on_SDL_GetError := on_SDL_GetError demo_library;
  on_Mix_OpenAudio := on_Mix_OpenAudio demo_library;
  on_SDL_GetNumAudioDrivers := on_SDL_GetNumAudioDrivers demo_library;
  on_SDL_GetAudioDeviceName := on_SDL_GetAudioDeviceName demo_library;
  on_Mix_QuerySpec := on_Mix_QuerySpec demo_library;
  on_Mix_LoadWAV := on_Mix_LoadWAV demo_library;
  on_Mix_LoadWAV_IO := on_Mix_LoadWAV_IO demo_library;
  on_Mix_Playing := on_Mix_Playing demo_library;
  on_Mix_LoadMUS := on_Mix_LoadMUS demo_library;
  on_Mix_LoadMUSType_IO := on_Mix_LoadMUSType_IO demo_library;
  on_Mix_PlayMusic := fun _ _ _ => false;
  on_sceIoOpen := on_sceIoOpen demo_library;
  on_sceIoLseek := on_sceIoLseek demo_library;
  on_malloc := on_malloc demo_library;
  on_SDL_IOFromMem := on_SDL_IOFromMem demo_library;
  on_SDL_CreateAudioStream := on_SDL_CreateAudioStream demo_library;
  on_SDL_PutAudioStreamData := on_SDL_PutAudioStreamData demo_library;
  on_SDL_GetAudioStreamData := on_SDL_GetAudioStreamData demo_library;
  on_setting_sound_effects_volume := on_setting_sound_effects_volume demo_library;
  on_SDL_MixAudio := on_SDL_MixAudio demo_library;
|}.

(** The world once [sound_device_open] has succeeded on [demo_library]. *)
Definition opened : world statics event :=
  World (Statics (Data 1 None (replicate (Z.to_nat MAX_CHANNELS) no_channel))
                 (CustomMusic 0 0 None)
                 (VitaMusicData "" None 0))
        [Mix_OpenAudio 0 (AudioSpec AUDIO_RATE 32784 AUDIO_CHANNELS) true].

(** The same with a track stored and playing, and with the device closed
    after that. *)
Definition playing_world : world statics event :=
  World (Statics (Data 1 (Some 31%positive)
                       (replicate (Z.to_nat MAX_CHANNELS) no_channel))
                 (CustomMusic 0 0 None)
                 (VitaMusicData "" None 0))
        [Mix_OpenAudio 0 (AudioSpec AUDIO_RATE 32784 AUDIO_CHANNELS) true;
         Mix_LoadMUS "track.mp3" (Some 31%positive);
         Mix_PlayMusic 31%positive (-1) true;
         Mix_VolumeMusic 128].

(** The open device in custom-music-player mode, nothing queued yet. *)
Definition streaming_world : world statics event :=
  World (Statics (Data 1 None (replicate (Z.to_nat MAX_CHANNELS) no_channel))
                 (CustomMusic 32784 32784 (Some 51%positive))
                 (VitaMusicData "" None 0))
        [Mix_OpenAudio 0 (AudioSpec AUDIO_RATE 32784 AUDIO_CHANNELS) true;
         Mix_QuerySpec 44100 32784 2;
         SDL_CreateAudioStream (AudioSpec 22050 32784 2) (AudioSpec 44100 32784 2)
                               (Some 51%positive);
         Mix_HookMusic (Some fn_custom_music_callback)].

Definition closed_world : world statics event :=
  World (Statics (Data 0 (Some 31%positive)
                       (replicate (Z.to_nat MAX_CHANNELS) no_channel))
                 (CustomMusic 0 0 None)
                 (VitaMusicData "" None 0))
        (trace playing_world ++ [Mix_CloseAudio]).

(** *** Giving up chunks *)

(** The slot with its chunk dropped. *)
Definition clear_chunk (c : sound_channel) : sound_channel :=
  Channel (filename c) None.

(** The calls by which [sound_device_stop_channel] gives up the chunk of
    slot [i], and those made for a whole table, slot after slot. *)
Definition release_events (i : nat) (c : sound_channel) : list event :=
  match chunk c with
  | Some h => [Mix_HaltChannel (Z.of_nat i); Mix_FreeChunk h]
  | None => []
  end.

Definition release_all (table : list sound_channel) : list event :=
  concat (imap release_events table).

(** On a device that is not open no slot holds a chunk. *)
Definition closed_silent (w : world statics event) : Prop :=
  initialized (data (state w)) = 0 ->
  Forall (fun c => chunk c = None) (channels (data (state w))).

(** The operations that do not look at [data.initialized]: the two channel
    queries, the music volume, the custom music player and the stream
    shims. *)
Definition unguarded (o : op) : bool :=
  match o with
  | op_is_channel_playing _ | op_set_music_volume _ | op_set_channel_volume _ _
  | op_use_custom_music_player _ _ _ _ _ | op_write_custom_music_data _ _
  | op_use_default_music_player | op_music_hook _ _ _ | op_SDL_RWFromFP _ _
  | op_stdio_seek _ _ _ | op_stdio_read _ _ | op_stdio_write _ _ | op_stdio_close _ =>
      true
  | _ => false
  end.

(** *** Starting a chunk *)

(** The calls that set the volume of a chunk and start it on a channel;
    none when there is no chunk. *)
Definition start_events (L : library) (channel volume_pct : Z) (r : option handle)
  : list event :=
  match r with
  | Some h => [Mix_VolumeChunk h (mixer_volume L volume_pct);
               Mix_PlayChannel channel (Some h) 0]
  | None => []
  end.


(** *** More to run the code on *)

(** A library on which whatever can fail does. *)
Definition broken_library : library := {|
  SDL_AUDIO_U8 := SDL_AUDIO_U8 demo_library;
  SDL_AUDIO_S16 := SDL_AUDIO_S16 demo_library;
  SDL_AUDIO_S16LE := SDL_AUDIO_S16LE demo_library;
  MIX_MAX_VOLUME := MIX_MAX_VOLUME demo_library;
  FILE_NAME_MAX := FILE_NAME_MAX demo_library;
  fseek_off_t := fseek_off_t demo_library;
  file_has_extension := file_has_extension demo_library;
  on_fseek := fun _ _ _ _ => -1;
  on_ftell := fun _ _ => -1;
  on_fread := fun _ _ _ => 0;
  on_fwrite := fun _ _ _ => 0;
  on_ferror := fun _ _ => 1;
  on_fclose := fun _ _ => -1;
  on_SDL_malloc := fun _ => None;
  on_SDL_OpenIO := fun _ _ _ => None;
  on_file_open := fun _ _ _ => None;
  on_SDL_GetError := fun _ => Some "no device";
  on_Mix_OpenAudio := fun _ _ _ => false;
  on_SDL_GetNumAudioDrivers := fun _ => 0;
  on_SDL_GetAudioDeviceName := fun _ _ => None;
  on_Mix_QuerySpec := on_Mix_QuerySpec demo_library;
  on_Mix_LoadWAV := fun _ _ => None;
  on_Mix_LoadWAV_IO := fun _ _ _ => None;
  on_Mix_Playing := fun _ _ => 0;
  on_Mix_LoadMUS := fun _ _ => None;
  on_Mix_LoadMUSType_IO := fun _ _ _ _ => None;
  on_Mix_PlayMusic := fun _ _ _ => false;
  on_sceIoOpen := fun _ _ => -1;
  on_sceIoLseek := fun _ _ _ _ => -1;
  on_malloc := fun _ _ => None;
  on_SDL_IOFromMem := fun _ _ _ => None;
  on_SDL_CreateAudioStream := fun _ _ _ => None;
  on_SDL_PutAudioStreamData := fun _ _ _ _ => false;
  on_SDL_GetAudioStreamData := fun _ _ _ => (0, []);
  on_setting_sound_effects_volume := on_setting_sound_effects_volume demo_library;
  on_SDL_MixAudio := on_SDL_MixAudio demo_library;
|}.

(** The same as [silent_library], except that the music that loads is
    another track than the one of [playing_world]. *)
Definition stalling_library : library := {|
  SDL_AUDIO_U8 := SDL_AUDIO_U8 silent_library;
  SDL_AUDIO_S16 := SDL_AUDIO_S16 silent_library;
  SDL_AUDIO_S16LE := SDL_AUDIO_S16LE silent_library;
  MIX_MAX_VOLUME := MIX_MAX_VOLUME silent_library;
  FILE_NAME_MAX := FILE_NAME_MAX silent_library;
  fseek_off_t := fseek_off_t silent_library;
  file_has_extension := file_has_extension silent_library;
  on_fseek := on_fseek silent_library;
  on_ftell := on_ftell silent_library;
  on_fread := on_fread silent_library;
  on_fwrite := on_fwrite silent_library;
  on_ferror := on_ferror silent_library;
  on_fclose := on_fclose silent_library;
  on_SDL_malloc := on_SDL_malloc silent_library;
  on_SDL_OpenIO := on_SDL_OpenIO silent_library;
  on_file_open := on_file_open silent_library;
  on_SDL_GetError := on_SDL_GetError silent_library;
  on_Mix_OpenAudio := on_Mix_OpenAudio silent_library;
  on_SDL_GetNumAudioDrivers := on_SDL_GetNumAudioDrivers silent_library;
  on_SDL_GetAudioDeviceName := on_SDL_GetAudioDeviceName silent_library;
  on_Mix_QuerySpec := on_Mix_QuerySpec silent_library;
  on_Mix_LoadWAV := on_Mix_LoadWAV silent_library;
  on_Mix_LoadWAV_IO := on_Mix_LoadWAV_IO silent_library;
  on_Mix_Playing := on_Mix_Playing silent_library;
  on_Mix_LoadMUS := fun _ _ => Some 32%positive;
  on_Mix_LoadMUSType_IO := on_Mix_LoadMUSType_IO silent_library;
  on_Mix_PlayMusic := on_Mix_PlayMusic silent_library;
  on_sceIoOpen := on_sceIoOpen silent_library;
  on_sceIoLseek := on_sceIoLseek silent_library;
  on_malloc := on_malloc silent_library;
  on_SDL_IOFromMem := on_SDL_IOFromMem silent_library;
  on_SDL_CreateAudioStream := on_SDL_CreateAudioStream silent_library;
  on_SDL_PutAudioStreamData := on_SDL_PutAudioStreamData silent_library;
  on_SDL_GetAudioStreamData := on_SDL_GetAudioStreamData silent_library;
  on_setting_sound_effects_volume := on_setting_sound_effects_volume silent_library;
  on_SDL_MixAudio := on_SDL_MixAudio silent_library;
|}.

Definition fire : sound_channel := Channel (Some "wavs/fire.wav") None.

(** The open device once slot 0 was given a file name, and once that file
    was loaded and started. *)
Definition named_world : world statics event :=
  World (with_channels (state opened)
           (fire :: replicate (Z.to_nat MAX_CHANNELS - 1) no_channel))
        (trace opened ++ [Mix_AllocateChannels 1;
                          log_info "Loading audio files" None 0]).

Definition loaded_world : world statics event :=
  World (with_channels (state opened)
           (Channel (Some "wavs/fire.wav") (Some 21%positive)
            :: replicate (Z.to_nat MAX_CHANNELS - 1) no_channel))
        (trace named_world ++ [Mix_LoadWAV "wavs/fire.wav" (Some 21%positive);
                               Mix_VolumeChunk 21%positive 128;
                               Mix_PlayChannel 0 (Some 21%positive) 0]).

(** The same as [demo_library], except that seeking to the end of a file
    answers an offset beyond 32 bits. *)
Definition big_file_library : library := {|
  SDL_AUDIO_U8 := SDL_AUDIO_U8 demo_library;
  SDL_AUDIO_S16 := SDL_AUDIO_S16 demo_library;
  SDL_AUDIO_S16LE := SDL_AUDIO_S16LE demo_library;
  MIX_MAX_VOLUME := MIX_MAX_VOLUME demo_library;
  FILE_NAME_MAX := FILE_NAME_MAX demo_library;
  fseek_off_t := fseek_off_t demo_library;
  file_has_extension := file_has_extension demo_library;
  on_fseek := on_fseek demo_library;
  on_ftell := on_ftell demo_library;
  on_fread := on_fread demo_library;
  on_fwrite := on_fwrite demo_library;
  on_ferror := on_ferror demo_library;
  on_fclose := on_fclose demo_library;
  on_SDL_malloc := on_SDL_malloc demo_library;
  on_SDL_OpenIO := on_SDL_OpenIO demo_library;
  on_file_open := on_file_open demo_library;
  on_SDL_GetError := on_SDL_GetError demo_library;
  on_Mix_OpenAudio := on_Mix_OpenAudio demo_library;
  on_SDL_GetNumAudioDrivers := on_SDL_GetNumAudioDrivers demo_library;
  on_SDL_GetAudioDeviceName := on_SDL_GetAudioDeviceName demo_library;
  on_Mix_QuerySpec := on_Mix_QuerySpec demo_library;
  on_Mix_LoadWAV := on_Mix_LoadWAV demo_library;
  on_Mix_LoadWAV_IO := on_Mix_LoadWAV_IO demo_library;
  on_Mix_Playing := on_Mix_Playing demo_library;
  on_Mix_LoadMUS := on_Mix_LoadMUS demo_library;
  on_Mix_LoadMUSType_IO := on_Mix_LoadMUSType_IO demo_library;
  on_Mix_PlayMusic := on_Mix_PlayMusic demo_library;
  on_sceIoOpen := on_sceIoOpen demo_library;
  on_sceIoLseek := fun _ _ from_end _ => if from_end then 2 ^ 32 + 1000 else 0;
  on_malloc := on_malloc demo_library;
  on_SDL_IOFromMem := on_SDL_IOFromMem demo_library;
  on_SDL_CreateAudioStream := on_SDL_CreateAudioStream demo_library;
  on_SDL_PutAudioStreamData := on_SDL_PutAudioStreamData demo_library;
  on_SDL_GetAudioStreamData := on_SDL_GetAudioStreamData demo_library;
  on_setting_sound_effects_volume := on_setting_sound_effects_volume demo_library;
  on_SDL_MixAudio := on_SDL_MixAudio demo_library;
|}.

(** The open device of the Vita build with a music file in memory. *)
Definition vita_world : world statics event :=
  World (Statics (data (state opened)) (custom_music (state opened))
                 (VitaMusicData "track.mp3" (Some 41%positive) 1000))
        (trace opened ++ [sceIoOpen "track.mp3" 3; sceIoLseek 3 0 true 1000;
                          sceIoLseek 3 0 false 0; malloc 1000 (Some 41%positive);
                          sceIoRead 3 (Some 41%positive) 1000; sceIoClose 3]).

End SoundDevice.
(** * Properties *)

(** ** Reasoning about programs *)

Section ProgFacts.
Context {S E : Type}.
Implicit Types w : world S E.

Lemma triple_ret {A} faulty (a : A) w (Q : A -> world S E -> Prop) :
  Q a w -> triple faulty (ret a) w Q.
Proof. intros H. exact H. Qed.

Lemma triple_bind {A B} faulty (m : prog S E A) (k : A -> prog S E B) w
      (Q : B -> world S E -> Prop) :
  triple faulty m w (fun a w' => triple faulty (k a) w' Q) ->
  triple faulty (bind m k) w Q.
Proof. unfold triple, bind. destruct (m w); auto. Qed.

Lemma triple_mono {A} faulty (m : prog S E A) w (Q Q' : A -> world S E -> Prop) :
  triple faulty m w Q -> (forall a w', Q a w' -> Q' a w') ->
  triple faulty m w Q'.
Proof. unfold triple. destruct (m w); auto. Qed.


Lemma triple_returns {A} (m : prog S E A) w (Q : A -> world S E -> Prop) :
  triple False m w Q <-> exists a w', m w = Returns a w' /\ Q a w'.
Proof.
  unfold triple. destruct (m w) as [a w'|arr i w'].
  - split; [eauto|]. intros (a0 & w0 & [= <- <-] & HQ). exact HQ.
  - split; [tauto|]. intros (a0 & w0 & Heq & _). discriminate.
Qed.


(** The loop rule: [I i] holds before the iteration for index [i]. *)
Lemma triple_for_loop faulty (I : Z -> world S E -> Prop) (body : Z -> prog S E unit)
      (n : nat) (lo : Z) w :
  I lo w ->
  (forall i w', lo <= i < lo + Z.of_nat n -> I i w' ->
                triple faulty (body i) w' (fun _ w'' => I (i + 1) w'')) ->
  triple faulty (for_loop n lo body) w (fun _ w' => I (lo + Z.of_nat n) w').
Proof.
  revert lo w. induction n as [|n IH]; intros lo w H0 Hbody.
  - simpl. apply triple_ret. by rewrite Z.add_0_r.
  - simpl. apply triple_bind.
    eapply triple_mono; [apply Hbody; [lia|exact H0]|].
    intros [] w' H1. simpl in H1.
    replace (lo + Z.of_nat (Datatypes.S n)) with ((lo + 1) + Z.of_nat n) by lia.
    apply IH; [exact H1|]. intros i w'' Hi. apply Hbody. lia.
Qed.

(** A loop whose worlds are known in advance: [g i] is the world before
    the iteration for index [i]. *)
Lemma for_loop_explicit (body : Z -> prog S E unit) (g : nat -> world S E)
      (n k : nat) :
  (forall i, (i < n)%nat ->
             body (Z.of_nat (k + i)) (g (k + i)%nat)
             = Returns tt (g (Datatypes.S (k + i)))) ->
  for_loop n (Z.of_nat k) body (g k) = Returns tt (g (k + n)%nat).
Proof.
  revert k. induction n as [|n IH]; intros k Hbody; simpl.
  - by rewrite Nat.add_0_r.
  - unfold bind. pose proof (Hbody 0%nat ltac:(lia)) as H0.
    rewrite Nat.add_0_r in H0. rewrite H0.
    replace (Z.of_nat k + 1) with (Z.of_nat (Datatypes.S k)) by lia.
    rewrite IH.
    + f_equal. f_equal. lia.
    + intros i Hi. specialize (Hbody (Datatypes.S i) ltac:(lia)).
      by replace (k + Datatypes.S i)%nat with (Datatypes.S k + i)%nat in Hbody by lia.
Qed.

(** A loop that faults in the iteration for index [k + j], the worlds up
    to there being known. *)
Lemma for_loop_faults (body : Z -> prog S E unit) (g : nat -> world S E)
      (n k j : nat) arr x wf :
  (j < n)%nat ->
  (forall i, (i < j)%nat ->
             body (Z.of_nat (k + i)) (g (k + i)%nat)
             = Returns tt (g (Datatypes.S (k + i)))) ->
  body (Z.of_nat (k + j)) (g (k + j)%nat) = OutOfBounds arr x wf ->
  for_loop n (Z.of_nat k) body (g k) = OutOfBounds arr x wf.
Proof.
  revert n k. induction j as [|j IH]; intros n k Hj Hbody Hfault.
  - destruct n as [|n]; [lia|]. simpl. unfold bind.
    rewrite Nat.add_0_r in Hfault. by rewrite Hfault.
  - destruct n as [|n]; [lia|]. simpl. unfold bind.
    pose proof (Hbody 0%nat ltac:(lia)) as H0.
    rewrite Nat.add_0_r in H0. rewrite H0.
    replace (Z.of_nat k + 1) with (Z.of_nat (Datatypes.S k)) by lia.
    apply IH; [lia| |].
    + intros i Hi. specialize (Hbody (Datatypes.S i) ltac:(lia)).
      by replace (k + Datatypes.S i)%nat with (Datatypes.S k + i)%nat in Hbody by lia.
    + by replace (Datatypes.S k + j)%nat with (k + Datatypes.S j)%nat by lia.
Qed.
End ProgFacts.

Section FrameFacts.
Context {S E X : Type}.
Variable f : S -> X.
Variable faulty : Prop.
Implicit Types w : world S E.

Lemma keeps_ret {A} (a : A) : keeps f faulty (ret a : prog S E A).
Proof. intros w. reflexivity. Qed.

Lemma keeps_get : keeps f faulty (get : prog S E S).
Proof. intros w. reflexivity. Qed.

Lemma keeps_fault {A} arr i : faulty -> keeps f faulty (fault arr i : prog S E A).
Proof. intros H w. exact H. Qed.

Lemma keeps_emit (e : E) : keeps f faulty (emit e : prog S E unit).
Proof. intros w. reflexivity. Qed.

Lemma keeps_extern {A} (answer : list E -> A) (ev : A -> E) :
  keeps f faulty (extern answer ev).
Proof. intros w. reflexivity. Qed.

Lemma keeps_modify (g : S -> S) :
  (forall s, f (g s) = f s) -> keeps f faulty (modify g : prog S E unit).
Proof. intros Hg w. apply Hg. Qed.

Lemma keeps_bind {A B} (m : prog S E A) (k : A -> prog S E B) :
  keeps f faulty m -> (forall a, keeps f faulty (k a)) -> keeps f faulty (bind m k).
Proof.
  intros Hm Hk w. apply triple_bind.
  eapply triple_mono; [apply Hm|]. intros a w1 H1. simpl in H1.
  eapply triple_mono; [apply Hk|]. intros b w2 H2. simpl in H2.
  unfold same_on in *. congruence.
Qed.

Lemma keeps_for_loop (body : Z -> prog S E unit) (n : nat) (lo : Z) :
  (forall i, keeps f faulty (body i)) -> keeps f faulty (for_loop n lo body).
Proof.
  intros Hbody. revert lo. induction n as [|n IH]; intros lo; simpl.
  - apply keeps_ret.
  - apply keeps_bind; [apply Hbody|]. intros _. apply IH.
Qed.

Lemma keeps_for_lt (body : Z -> prog S E unit) (hi : Z) :
  (forall i, keeps f faulty (body i)) -> keeps f faulty (for_lt hi body).
Proof. intros H. by apply keeps_for_loop. Qed.

Lemma keeps_run {A} (m : prog S E A) w w' a :
  keeps f faulty m -> m w = Returns a w' -> f (state w') = f (state w).
Proof. intros Hm Hrun. specialize (Hm w). unfold triple in Hm. by rewrite Hrun in Hm. Qed.
End FrameFacts.

(** One structural step of a proof that a program keeps something. *)
Ltac keeps_step :=
  lazymatch goal with
  | |- keeps _ _ (ret _) => apply keeps_ret
  | |- keeps _ _ get => apply keeps_get
  | |- keeps _ _ (fault _ _) => apply keeps_fault; exact I
  | |- keeps _ _ (emit _) => apply keeps_emit
  | |- keeps _ _ (extern _ _) => apply keeps_extern
  | |- keeps _ _ (modify _) => apply keeps_modify; intros; reflexivity
  | |- keeps _ _ (bind _ _) => apply keeps_bind; [|intros ?]
  | |- keeps _ _ (for_lt _ _) => apply keeps_for_lt; intros ?
  | |- keeps _ _ (match ?x with _ => _ end) => destruct x
  end.

(** ** Relative mouse mode *)

Section MouseFacts.
Import Mouse.
Variable P : platform.

Ltac run_mouse :=
  unfold system_mouse_set_relative_mode, system_mouse_get_relative_state,
    system_move_mouse_cursor, set_x, set_y, set_enabled, store,
    bind, ret, get, modify, emit, extern; simpl.

(** C8. When either pointer is NULL, [system_mouse_get_relative_state]
    returns at once: the world is the one it was given, so nothing was
    asked of the library and no cell was written.  The call with
    (NULL, NULL) made on enabling relative mode is such a call: the calls
    made on enabling are the four listed, and none of them polls the
    relative state. *)
Theorem get_relative_state_null_is_noop
    (px py : option handle) (enabled_arg : Z) (w w2 : world data_t event) :
  px = None \/ py = None ->
  enabled_arg <> enabled (state w2) ->
  enabled_arg <> 0 ->
  system_mouse_get_relative_state P px py w = Returns tt w /\
  exists w2' win fx fy scale,
    system_mouse_set_relative_mode P enabled_arg w2 = Returns tt w2' /\
    trace w2' = trace w2 ++ [SDL_GetMouseFocus win; SDL_GetMouseState fx fy;
                             platform_screen_get_scale scale;
                             SDL_SetWindowRelativeMouseMode win true].
Proof.
  intros Hnull Hne Hnz. split.
  - destruct Hnull as [-> | ->]; [| destruct px]; reflexivity.
  - run_mouse.
    destruct (Z.eqb_spec enabled_arg (enabled (state w2))) as [|_]; [done|].
    destruct (Z.eqb_spec enabled_arg 0) as [|_]; [done|]. simpl.
    destruct (on_SDL_GetMouseState P _) as [fx fy] eqn:Hms. simpl.
    eexists _, _, fx, fy, _. split; [reflexivity|].
    simpl. rewrite <- !app_assoc. reflexivity.
Qed.

(** C4. [system_mouse_set_relative_mode]: called with the value that
    [data.enabled] already has, it changes nothing; enabling stores the
    cursor position the library reports, cast to [int] and adjusted by the
    percentage computed from the screen scale, and turns relative mode on;
    disabling turns it off and puts the cursor at the stored position.
    The other two functions of the file leave the stored position and the
    flag alone, so the position stored on enabling is the one used on
    disabling. *)
Theorem set_relative_mode_saves_and_restores
    (enabled_arg : Z) (w : world data_t event) :
  let d := state w in
  let win := on_SDL_GetMouseFocus P (trace w) in
  let t1 := trace w ++ [SDL_GetMouseFocus win] in
  (enabled_arg = enabled d ->
     system_mouse_set_relative_mode P enabled_arg w = Returns tt w) /\
  (enabled_arg <> enabled d -> enabled_arg <> 0 ->
     let pos := on_SDL_GetMouseState P t1 in
     let t2 := t1 ++ [SDL_GetMouseState pos.1 pos.2] in
     let scale := on_platform_screen_get_scale P t2 in
     let pct := calc_percentage P 100 scale in
     system_mouse_set_relative_mode P enabled_arg w =
     Returns tt
       (World (Data (calc_adjust_with_percentage P (float_to_int pos.1) pct)
                    (calc_adjust_with_percentage P (float_to_int pos.2) pct)
                    enabled_arg (heap d))
              (t2 ++ [platform_screen_get_scale scale;
                      SDL_SetWindowRelativeMouseMode win true]))) /\
  (enabled_arg <> enabled d -> enabled_arg = 0 ->
     let t2 := t1 ++ [SDL_SetWindowRelativeMouseMode win false] in
     let pos := on_system_set_mouse_position P t2 (x d) (y d) in
     system_mouse_set_relative_mode P enabled_arg w =
     Returns tt
       (World (Data pos.1 pos.2 0 (heap d))
              (t2 ++ [system_set_mouse_position (x d) (y d) pos.1 pos.2;
                      mouse_set_position pos.1 pos.2]))) /\
  (forall px py, exists w',
     system_mouse_get_relative_state P px py w = Returns tt w' /\
     x (state w') = x d /\ y (state w') = y d /\
     enabled (state w') = enabled d) /\
  (forall dx dy, exists w',
     system_move_mouse_cursor P dx dy w = Returns tt w' /\
     x (state w') = x d /\ y (state w') = y d /\
     enabled (state w') = enabled d).
Proof.
  intros d win t1. subst d win t1. repeat split.
  - intros ->. run_mouse. rewrite Z.eqb_refl. reflexivity.
  - intros Hne Hnz. run_mouse.
    destruct (Z.eqb_spec enabled_arg (enabled (state w))) as [|_]; [done|].
    destruct (Z.eqb_spec enabled_arg 0) as [|_]; [done|]. simpl.
    destruct (on_SDL_GetMouseState P _) as [fx fy]. simpl.
    rewrite <- !app_assoc. reflexivity.
  - intros Hne Hz. run_mouse.
    destruct (Z.eqb_spec enabled_arg (enabled (state w))) as [|_]; [done|].
    destruct (Z.eqb_spec enabled_arg 0) as [->|]; [|done]. simpl.
    destruct (on_system_set_mouse_position P _ _ _) as [x' y']. simpl.
    rewrite <- !app_assoc. reflexivity.
  - intros px py. run_mouse.
    destruct px as [ax|], py as [ay|]; simpl; eauto.
    destruct (on_SDL_GetRelativeMouseState P _) as [fx fy]. simpl. eauto.
  - intros dx dy. run_mouse.
    destruct (on_system_set_mouse_position P _ _ _) as [x' y']. simpl. eauto.
Qed.
End MouseFacts.

(** The enabling call on the demo platform: the cursor at (10.5, 20.25)
    on a screen scaled to 150% is stored as (6, 13). *)
Lemma get_relative_state_null_is_noop_witness :
  Mouse.system_mouse_get_relative_state Mouse.demo_platform None (Some 2%positive)
    Mouse.initial = Returns tt Mouse.initial /\
  exists w' win fx fy scale,
    Mouse.system_mouse_set_relative_mode Mouse.demo_platform 1 Mouse.initial
      = Returns tt w' /\
    trace w' = [Mouse.SDL_GetMouseFocus win; Mouse.SDL_GetMouseState fx fy;
                Mouse.platform_screen_get_scale scale;
                Mouse.SDL_SetWindowRelativeMouseMode win true].
Proof.
  apply (get_relative_state_null_is_noop Mouse.demo_platform None (Some 2%positive) 1
           Mouse.initial Mouse.initial).
  - left; reflexivity.
  - simpl; lia.
  - lia.
Defined.

Lemma set_relative_mode_saves_and_restores_witness :
  Mouse.system_mouse_set_relative_mode Mouse.demo_platform 0 Mouse.initial
    = Returns tt Mouse.initial /\
  Mouse.system_mouse_set_relative_mode Mouse.demo_platform 1 Mouse.initial
    = Returns tt
        (World (Mouse.Data 6 13 1 ∅)
               [Mouse.SDL_GetMouseFocus (Some 1%positive);
                Mouse.SDL_GetMouseState (Qmake 21 2) (Qmake 81 4);
                Mouse.platform_screen_get_scale 150;
                Mouse.SDL_SetWindowRelativeMouseMode (Some 1%positive) true]) /\
  Mouse.system_mouse_set_relative_mode Mouse.demo_platform 0
    (World (Mouse.Data 6 13 1 ∅) [])
    = Returns tt
        (World (Mouse.Data 6 13 0 ∅)
               [Mouse.SDL_GetMouseFocus (Some 1%positive);
                Mouse.SDL_SetWindowRelativeMouseMode (Some 1%positive) false;
                Mouse.system_set_mouse_position 6 13 6 13;
                Mouse.mouse_set_position 6 13]).
Proof.
  split; [|split].
  - apply (set_relative_mode_saves_and_restores Mouse.demo_platform 0 Mouse.initial).
    reflexivity.
  - apply (set_relative_mode_saves_and_restores Mouse.demo_platform 1 Mouse.initial);
      simpl; lia.
  - apply (set_relative_mode_saves_and_restores Mouse.demo_platform 0
             (World (Mouse.Data 6 13 1 ∅) [])); simpl; lia.
Defined.

(** ** The sound device *)

Section SoundFacts.
Import SoundDevice.
Variable T : target.
Variable L : library.

Abbreviation W := (world statics event).

#[local] Arguments in_table : simpl never.

(** *** What silent calls and quiet steps preserve *)

Lemma silent_observe (m : mixer) (e : event) :
  silent e = true -> observe m e = m.
Proof.
  destruct e; simpl; try done;
    repeat match goal with
           | |- context [match ?x with _ => _ end] => destruct x
           end; simpl; done.
Qed.

Lemma mixer_from_app (m : mixer) (t1 t2 : list event) :
  mixer_from m (t1 ++ t2) = mixer_from (mixer_from m t1) t2.
Proof. apply fold_left_app. Qed.

Lemma mixer_of_app (t1 t2 : list event) :
  mixer_of (t1 ++ t2) = mixer_from (mixer_of t1) t2.
Proof. apply mixer_from_app. Qed.

Lemma mixer_from_silent (m : mixer) (evs : list event) :
  forallb silent evs = true -> mixer_from m evs = m.
Proof.
  revert m. induction evs as [|e evs IH]; intros m H; [done|].
  simpl in *. apply andb_true_iff in H as [He Hevs].
  rewrite silent_observe; auto.
Qed.

Lemma quiet_step_refl (w : W) : quiet_step w w.
Proof.
  split; [|done]. exists []. by rewrite app_nil_r.
Qed.

Lemma quiet_step_trans (w1 w2 w3 : W) :
  quiet_step w1 w2 -> quiet_step w2 w3 -> quiet_step w1 w3.
Proof.
  intros [(e1 & Ht1 & Hs1) (Hm1 & Hc1 & Hl1)] [(e2 & Ht2 & Hs2) (Hm2 & Hc2 & Hl2)].
  split; [|repeat split; congruence].
  exists (e1 ++ e2). split.
  - rewrite Ht2, Ht1. by rewrite app_assoc.
  - rewrite forallb_app. by rewrite Hs1, Hs2.
Qed.

Lemma quiet_step_mixer (w w' : W) :
  quiet_step w w' -> mixer_of (trace w') = mixer_of (trace w).
Proof.
  intros [(evs & -> & Hs) _]. rewrite mixer_of_app. by apply mixer_from_silent.
Qed.

Lemma quiet_step_Inv (w w' : W) : quiet_step w w' -> Inv w -> Inv w'.
Proof.
  intros Hq (Ht & [Hm1 Hm2] & Hs).
  pose proof (quiet_step_mixer _ _ Hq) as Hmix.
  destruct Hq as [_ (Hm & Hc & Hl)].
  unfold Inv, table_ok, music_ok, stream_ok in *.
  rewrite Hmix, Hm, Hc, Hl. auto.
Qed.

(** *** Quiet programs *)

Lemma quiet_ret {A} faulty (a : A) : quiet faulty (ret a).
Proof. intros w _. apply quiet_step_refl. Qed.

Lemma quiet_get faulty : quiet faulty (get : M statics).
Proof. intros w _. apply quiet_step_refl. Qed.


Lemma quiet_emit faulty e : silent e = true -> quiet faulty (emit e : M unit).
Proof.
  intros He w _. split; [|done]. exists [e]. simpl. by rewrite He.
Qed.

Lemma quiet_extern {A} faulty (answer : list event -> A) (ev : A -> event) :
  (forall a, silent (ev a) = true) -> quiet faulty (extern answer ev : M A).
Proof.
  intros He w _. split; [|done]. eexists [_]. simpl. by rewrite He.
Qed.

Lemma quiet_bind {A B} faulty (m : M A) (k : A -> M B) :
  quiet faulty m -> (forall a, quiet faulty (k a)) -> quiet faulty (bind m k).
Proof.
  intros Hm Hk w Hw. apply triple_bind.
  eapply triple_mono; [by apply Hm|]. intros a w' Hq. simpl in Hq.
  eapply triple_mono; [apply Hk|].
  - destruct Hw as [|Hw]; [by left|right].
    unfold table_ok in *. destruct Hq as [_ (_ & _ & ->)]. exact Hw.
  - intros b w'' Hq'. simpl in Hq'. by eapply quiet_step_trans.
Qed.

Lemma quiet_for_loop faulty (body : Z -> M unit) (n : nat) (lo : Z) :
  (forall i, lo <= i < lo + Z.of_nat n -> quiet faulty (body i)) ->
  quiet faulty (for_loop n lo body).
Proof.
  intros Hbody w Hw.
  eapply triple_mono.
  - apply (triple_for_loop faulty
             (fun _ w' => quiet_step w w' /\ (faulty \/ table_ok w'))).
    + split; [apply quiet_step_refl|exact Hw].
    + intros i w' Hi [Hq Hw'].
      eapply triple_mono; [by apply Hbody|].
      intros [] w'' Hq'. simpl in Hq'. split; [by eapply quiet_step_trans|].
      destruct Hw' as [|Hw']; [by left|right].
      unfold table_ok in *. destruct Hq' as [_ (_ & _ & ->)]. exact Hw'.
  - intros [] w' [Hq _]. exact Hq.
Qed.

Lemma quiet_for_lt faulty (body : Z -> M unit) (hi : Z) :
  (forall i, 0 <= i < hi -> quiet faulty (body i)) ->
  quiet faulty (for_lt hi body).
Proof. intros H. apply quiet_for_loop. intros i Hi. apply H. lia. Qed.

Lemma quiet_set_data faulty (f : data_t -> data_t) :
  (forall d, music (f d) = music d /\ length (channels (f d)) = length (channels d)) ->
  quiet faulty (set_data f).
Proof.
  intros Hf w _. split; [exists []; by rewrite app_nil_r|].
  simpl. destruct (Hf (data (state w))) as [-> ->]. done.
Qed.

Lemma quiet_set_vita_music_data faulty f : quiet faulty (set_vita_music_data f).
Proof. intros w _. split; [exists []; by rewrite app_nil_r|done]. Qed.

Lemma quiet_discard {A} faulty (m : M A) : quiet faulty m -> quiet faulty (discard m).
Proof. intros H. apply quiet_bind; [exact H|]. intros a. apply quiet_ret. Qed.

(** *** The table *)

Lemma quiet_read_channel faulty i :
  faulty \/ in_table i = true -> quiet faulty (read_channel i).
Proof.
  intros Hi w Hw. unfold read_channel, triple, bind, get, ret, fault.
  destruct (in_table i) eqn:Hin.
  - destruct (channels (data (state w)) !! Z.to_nat i) eqn:Hl.
    + apply quiet_step_refl.
    + destruct Hw as [|Hw]; [done|]. exfalso.
      apply lookup_ge_None in Hl. unfold table_ok in Hw.
      unfold in_table in Hin. lia.
  - destruct Hi as [|]; done.
Qed.

Lemma quiet_write_channel faulty i f :
  faulty \/ in_table i = true -> quiet faulty (write_channel i f).
Proof.
  intros Hi. apply quiet_bind; [by apply quiet_read_channel|].
  intros c. apply quiet_set_data. intros d. simpl. by rewrite length_insert.
Qed.

Lemma quiet_read_filename faulty (names : list string) i :
  faulty \/ (0 <= i < Z.of_nat (length names)) -> quiet faulty (read_filename names i).
Proof.
  intros Hi w Hw. unfold read_filename, triple, ret, fault.
  destruct (Z.leb_spec 0 i).
  - destruct (names !! Z.to_nat i) eqn:Hl.
    + apply quiet_step_refl.
    + destruct Hi as [|Hi]; [done|]. apply lookup_ge_None in Hl. lia.
  - destruct Hi as [|Hi]; [done|lia].
Qed.


(** *** The quiet functions of the file *)

Ltac quiet_step_tac :=
  lazymatch goal with
  | |- quiet _ (ret _) => apply quiet_ret
  | |- quiet _ get => apply quiet_get
  | |- quiet _ (emit _) => apply quiet_emit; reflexivity
  | |- quiet _ (extern _ _) => apply quiet_extern; intros; reflexivity
  | |- quiet _ (set_vita_music_data _) => apply quiet_set_vita_music_data
  | |- quiet _ (set_data _) => apply quiet_set_data; intros; simpl; split; reflexivity
  | |- quiet _ (set_initialized _) => unfold set_initialized
  | |- quiet _ (read_channel _) => apply quiet_read_channel; assumption
  | |- quiet _ (write_channel _ _) => apply quiet_write_channel; assumption
  | |- quiet _ (discard _) => apply quiet_discard
  | |- quiet _ (bind _ _) => apply quiet_bind; [|intros ?]
  | |- quiet _ (match ?x with _ => _ end) => destruct x eqn:?
  end.

Ltac quiet_tac := repeat quiet_step_tac.

Lemma quiet_stdio_seek faulty u offset whence :
  quiet faulty (stdio_seek L u offset whence).
Proof. unfold stdio_seek. quiet_tac. Qed.

Lemma quiet_stdio_read faulty u sz : quiet faulty (stdio_read L u sz).
Proof. unfold stdio_read. quiet_tac. Qed.

Lemma quiet_stdio_write faulty u sz : quiet faulty (stdio_write L u sz).
Proof. unfold stdio_write. quiet_tac. Qed.

Lemma quiet_stdio_close faulty u : quiet faulty (stdio_close L u).
Proof. unfold stdio_close. quiet_tac. Qed.

Lemma quiet_SDL_RWFromFP faulty f a : quiet faulty (SDL_RWFromFP L f a).
Proof. unfold SDL_RWFromFP. quiet_tac; apply quiet_stdio_close. Qed.

Lemma quiet_set_chunk faulty i c :
  faulty \/ in_table i = true -> quiet faulty (set_chunk i c).
Proof. intros H. by apply quiet_write_channel. Qed.

Lemma quiet_set_filename faulty i f :
  faulty \/ in_table i = true -> quiet faulty (set_filename i f).
Proof. intros H. by apply quiet_write_channel. Qed.

Lemma in_table_range i : 0 <= i < MAX_CHANNELS -> in_table i = true.
Proof. unfold in_table. lia. Qed.

Lemma quiet_init_channels faulty : quiet faulty init_channels.
Proof.
  unfold init_channels, set_initialized. quiet_tac.
  apply quiet_for_lt. intros i Hi. apply quiet_set_chunk.
  right. by apply in_table_range.
Qed.

Lemma quiet_stop_channel faulty channel :
  faulty \/ in_table channel = true -> quiet faulty (sound_device_stop_channel channel).
Proof.
  intros H. unfold sound_device_stop_channel. quiet_tac.
  by apply quiet_set_chunk.
Qed.

Lemma quiet_open faulty : quiet faulty (sound_device_open L).
Proof.
  unfold sound_device_open. quiet_tac; [apply quiet_init_channels|].
  apply quiet_for_lt. intros i Hi. quiet_tac.
Qed.

Lemma quiet_close faulty : quiet faulty sound_device_close.
Proof.
  unfold sound_device_close, set_initialized. quiet_tac.
  apply quiet_for_lt. intros i Hi. apply quiet_stop_channel.
  right. by apply in_table_range.
Qed.

Lemma quiet_load_chunk faulty name : quiet faulty (load_chunk T L name).
Proof. unfold load_chunk. quiet_tac; apply quiet_SDL_RWFromFP. Qed.

Lemma quiet_load_channel faulty channel :
  faulty \/ in_table channel = true -> quiet faulty (load_channel T L channel).
Proof.
  intros H. unfold load_channel. quiet_tac;
    first [apply quiet_load_chunk | by apply quiet_set_chunk].
Qed.

Lemma quiet_sound_device_init_channels faulty num_channels names :
  faulty \/ Z.min num_channels MAX_CHANNELS <= Z.of_nat (length names) ->
  quiet faulty (sound_device_init_channels num_channels names).
Proof.
  intros H. unfold sound_device_init_channels. quiet_tac.
  apply quiet_for_lt. intros i Hi.
  assert (0 <= i < MAX_CHANNELS /\ i < Z.min num_channels MAX_CHANNELS) as [Hi1 Hi2].
  { destruct (Z.gtb_spec num_channels MAX_CHANNELS); lia. }
  pose proof (in_table_range i Hi1) as Hin.
  apply quiet_bind; [apply quiet_set_chunk; by right|]. intros _.
  apply quiet_bind.
  - apply quiet_read_filename. destruct H as [|H]; [by left|right; lia].
  - intros name. apply quiet_set_filename. by right.
Qed.

Lemma quiet_is_channel_playing faulty channel :
  faulty \/ in_table channel = true ->
  quiet faulty (sound_device_is_channel_playing L channel).
Proof. intros H. unfold sound_device_is_channel_playing. quiet_tac. Qed.

Lemma quiet_set_music_volume faulty v : quiet faulty (sound_device_set_music_volume L v).
Proof. unfold sound_device_set_music_volume. quiet_tac. Qed.

Lemma quiet_set_channel_volume faulty channel v :
  faulty \/ in_table channel = true ->
  quiet faulty (sound_device_set_channel_volume L channel v).
Proof. intros H. unfold sound_device_set_channel_volume. quiet_tac. Qed.

Lemma quiet_play_file_on_channel faulty name channel v :
  faulty \/ in_table channel = true ->
  quiet faulty (sound_device_play_file_on_channel T L name channel v).
Proof.
  intros H. unfold sound_device_play_file_on_channel. quiet_tac;
    first [ by apply quiet_stop_channel | apply quiet_load_chunk
          | by apply quiet_set_chunk | by apply quiet_set_channel_volume ].
Qed.

Lemma quiet_play_channel faulty channel v :
  faulty \/ in_table channel = true ->
  quiet faulty (sound_device_play_channel T L channel v).
Proof.
  intros H. unfold sound_device_play_channel. quiet_tac;
    first [ by apply quiet_load_channel | by apply quiet_set_channel_volume ].
Qed.

Lemma quiet_play_channel_panned faulty channel v l r :
  faulty \/ in_table channel = true ->
  quiet faulty (sound_device_play_channel_panned T L channel v l r).
Proof.
  intros H. unfold sound_device_play_channel_panned. quiet_tac;
    first [ by apply quiet_load_channel | by apply quiet_set_channel_volume ].
Qed.

Lemma quiet_load_music_for_vita faulty name : quiet faulty (load_music_for_vita L name).
Proof. unfold load_music_for_vita. quiet_tac. Qed.

Lemma quiet_custom_audio_stream_active faulty : quiet faulty custom_audio_stream_active.
Proof. unfold custom_audio_stream_active. quiet_tac. Qed.

Lemma quiet_put_custom_audio_stream faulty d len :
  quiet faulty (put_custom_audio_stream L d len).
Proof.
  unfold put_custom_audio_stream. quiet_tac.
  apply quiet_custom_audio_stream_active.
Qed.

Lemma quiet_get_custom_audio_stream faulty out len :
  quiet faulty (get_custom_audio_stream L out len).
Proof.
  unfold get_custom_audio_stream. quiet_tac.
  apply quiet_custom_audio_stream_active.
Qed.

Lemma quiet_run_music_hook faulty hook out len :
  quiet faulty (run_music_hook L hook out len).
Proof.
  unfold run_music_hook, custom_music_callback. quiet_tac.
  apply quiet_get_custom_audio_stream.
Qed.

Lemma quiet_write_custom_music_data faulty d len :
  quiet faulty (sound_device_write_custom_music_data L d len).
Proof.
  unfold sound_device_write_custom_music_data. quiet_tac;
    first [apply quiet_custom_audio_stream_active | apply quiet_put_custom_audio_stream].
Qed.

(** *** Stepping through a program *)

Lemma triple_get_bind {A} faulty (k : statics -> M A) (w : W) Q :
  triple faulty (k (state w)) w Q -> triple faulty (bind get k) w Q.
Proof. intros H. exact H. Qed.

Lemma triple_emit_bind {A} faulty e (k : unit -> M A) (w : W) Q :
  triple faulty (k tt) (World (state w) (trace w ++ [e])) Q ->
  triple faulty (bind (emit e) k) w Q.
Proof. intros H. exact H. Qed.

Lemma triple_extern_bind {A B} faulty (answer : list event -> B) ev
      (k : B -> M A) (w : W) Q :
  triple faulty (k (answer (trace w)))
         (World (state w) (trace w ++ [ev (answer (trace w))])) Q ->
  triple faulty (bind (extern answer ev) k) w Q.
Proof. intros H. exact H. Qed.

Lemma triple_modify_bind {A} faulty f (k : unit -> M A) (w : W) Q :
  triple faulty (k tt) (World (f (state w)) (trace w)) Q ->
  triple faulty (bind (modify f) k) w Q.
Proof. intros H. exact H. Qed.

Lemma triple_emit faulty e (w : W) (Q : unit -> W -> Prop) :
  Q tt (World (state w) (trace w ++ [e])) -> triple faulty (emit e) w Q.
Proof. intros H. exact H. Qed.

Lemma triple_extern {B} faulty (answer : list event -> B) ev (w : W)
      (Q : B -> W -> Prop) :
  Q (answer (trace w)) (World (state w) (trace w ++ [ev (answer (trace w))])) ->
  triple faulty (extern answer ev) w Q.
Proof. intros H. exact H. Qed.

Lemma triple_modify faulty f (w : W) (Q : unit -> W -> Prop) :
  Q tt (World (f (state w)) (trace w)) -> triple faulty (modify f) w Q.
Proof. intros H. exact H. Qed.

Lemma triple_quiet_bind {A B} faulty (m : M B) (k : B -> M A) (w : W) Q :
  quiet faulty m -> faulty \/ table_ok w ->
  (forall b w', quiet_step w w' -> triple faulty (k b) w' Q) ->
  triple faulty (bind m k) w Q.
Proof.
  intros Hm Hw Hk. apply triple_bind.
  eapply triple_mono; [by apply Hm|]. intros b w' Hq. by apply Hk.
Qed.

Ltac tstep :=
  lazymatch goal with
  | |- triple _ (bind get _) _ _ => apply triple_get_bind
  | |- triple _ (bind (emit _) _) _ _ => apply triple_emit_bind
  | |- triple _ (bind (extern _ _) _) _ _ => apply triple_extern_bind
  | |- triple _ (bind (modify _) _) _ _ => apply triple_modify_bind
  | |- triple _ (bind (set_music _) _) _ _ =>
      unfold set_music at 1, set_data at 1
  | |- triple _ (bind (set_stream _) _) _ _ =>
      unfold set_stream at 1, set_custom_music at 1
  | |- triple _ (bind (set_format _) _) _ _ =>
      unfold set_format at 1, set_custom_music at 1
  | |- triple _ (bind (set_dst_format _) _) _ _ =>
      unfold set_dst_format at 1, set_custom_music at 1
  | |- triple _ (bind (bind _ _) _) _ _ => apply triple_bind
  | |- triple _ (ret _) _ _ => apply triple_ret
  | |- triple _ (emit _) _ _ => apply triple_emit
  | |- triple _ (extern _ _) _ _ => apply triple_extern
  | |- triple _ (modify _) _ _ => apply triple_modify
  | |- triple _ (set_music _) _ _ => unfold set_music at 1, set_data at 1
  | |- triple _ (set_stream _) _ _ => unfold set_stream at 1, set_custom_music at 1
  end; cbn beta iota; cbn [state trace].

(** *** [sound_device_stop_music] *)

Lemma stop_music_initialized (w : W) :
  initialized (data (state w)) <> 0 ->
  sound_device_stop_music w =
  Returns tt
    (World (Statics (Data (initialized (data (state w))) None
                          (channels (data (state w))))
                    (custom_music (state w)) (vita_music_data (state w)))
           (trace w ++ halt_events (music (data (state w))))).
Proof.
  intros Hi. unfold sound_device_stop_music, bind, get. simpl.
  destruct (Z.eqb_spec (initialized (data (state w))) 0); [done|]. simpl.
  destruct w as [[[i mu ch] cm v] t]. simpl.
  destruct mu; unfold set_music, set_data, modify, emit, ret; simpl;
    rewrite <- ?app_assoc, ?app_nil_r; reflexivity.
Qed.

Lemma stop_music_uninitialized (w : W) :
  initialized (data (state w)) = 0 ->
  sound_device_stop_music w = Returns tt w.
Proof.
  intros Hi. unfold sound_device_stop_music, bind, get. simpl.
  rewrite Hi. reflexivity.
Qed.

Lemma halt_events_mixer (m : mixer) (stored : option handle) :
  (forall h, playing m = Some h -> stored = Some h) ->
  mixer_from m (halt_events stored) =
  Mixer (tracks m ∖ handle_set stored) None (streams m).
Proof.
  intros Hp. destruct stored as [h|]; simpl.
  - f_equal; by destruct (decide _).
  - destruct m as [tr [p|] st]; simpl in *.
    + specialize (Hp p eq_refl). discriminate.
    + f_equal. symmetry. apply difference_empty_L.
Qed.

(** *** Loading and starting music *)

Lemma mixer_from_cons (m : mixer) e t :
  mixer_from m (e :: t) = mixer_from (observe m e) t.
Proof. reflexivity. Qed.

Lemma mixer_from_nil (m : mixer) : mixer_from m [] = m.
Proof. reflexivity. Qed.


Ltac open_quiet :=
  repeat match goal with
         | H : quiet_step _ _ |- _ =>
             let evs := fresh "q" in
             let Ht := fresh "Htrace" in
             let Hs := fresh "Hsilent" in
             let Hm := fresh "Hmusic" in
             let Hc := fresh "Hcustom" in
             let Hl := fresh "Hlength" in
             destruct H as [(evs & Ht & Hs) (Hm & Hc & Hl)]; simpl in Ht, Hm, Hc, Hl
         end.

Ltac mixer_simpl :=
  repeat first
    [ rewrite mixer_from_app
    | rewrite mixer_from_cons
    | rewrite mixer_from_nil
    | rewrite mixer_from_silent by assumption ];
  simpl.

Ltac trace_eq :=
  simpl;
  repeat match goal with
         | H : trace _ = _ |- _ => rewrite H
         end;
  rewrite <- ?app_assoc; simpl; try reflexivity.

Ltac effect_tac :=
  let m := fresh "m" in
  intros m; mixer_simpl;
  repeat match goal with
         | |- context [match ?x with _ => _ end] => destruct x; simpl
         end;
  try (destruct m; simpl; f_equal; set_solver).

Lemma load_music_spec name (w : W) :
  table_ok w ->
  triple False (load_music T L name) w (fun r w' =>
    music (data (state w')) = music (data (state w)) /\
    custom_music (state w') = custom_music (state w) /\
    length (channels (data (state w'))) = length (channels (data (state w))) /\
    exists evs, trace w' = trace w ++ evs /\ music_effect evs (loaded_of r) false).
Proof.
  intros Hw. unfold load_music. destruct T.
  - (* Desktop *)
    repeat tstep. simpl. repeat split.
    eexists. split; [reflexivity|].
    destruct (on_Mix_LoadMUS L name (trace w)); effect_tac.
  - (* Android *)
    tstep. destruct (on_file_open L name "rb" (trace w)) as [f|].
    + eapply triple_quiet_bind; [apply quiet_SDL_RWFromFP|by right|].
      intros sdl_fp w1 Hq. repeat tstep.
      generalize (on_Mix_LoadMUSType_IO L sdl_fp (music_type_of L name) true (trace w1)).
      intros r. open_quiet. simpl. repeat split; try done.
      eexists. split; [trace_eq|]. destruct r; effect_tac.
    + tstep. simpl. repeat split. eexists. split; [reflexivity|]. effect_tac.
  - (* Vita *)
    eapply triple_quiet_bind; [apply quiet_load_music_for_vita|by right|].
    intros [] w1 Hq. tstep.
    destruct (buffer (vita_music_data (state w1))) as [b|].
    + repeat tstep.
      match goal with
      | |- context [on_Mix_LoadMUSType_IO L ?a ?b ?c ?t] =>
          generalize (on_Mix_LoadMUSType_IO L a b c t)
      end.
      intros r. open_quiet. simpl. repeat split; try done.
      eexists. split; [trace_eq|]. destruct r; effect_tac.
    + tstep. open_quiet. simpl. repeat split; try done.
      eexists. split; [trace_eq|]. effect_tac.
Qed.

Ltac play_leaf He :=
  split; [trace_eq|];
  split; [let m := fresh "m" in
          intros m; rewrite ?mixer_from_app, ?He; simpl; try reflexivity|];
  split; [try done; intros _; split; eauto|];
  simpl; repeat split; congruence.

(** What [sound_device_play_music] does on an open device: it gives up
    the stored track, then makes calls whose effect on the tracks is to
    add at most the one it loaded; it stores and returns 1 exactly when
    that track was started. *)
Lemma play_music_spec name v (w : W) :
  table_ok w ->
  initialized (data (state w)) <> 0 ->
  triple False (sound_device_play_music T L name v) w (fun r w' =>
    exists rest loaded started,
      trace w' = trace w ++ halt_events (music (data (state w))) ++ rest /\
      music_effect rest loaded started /\
      (started = true -> is_Some loaded /\ is_Some name) /\
      music (data (state w')) = (if started then loaded else None) /\
      r = (if started then 1 else 0) /\
      custom_music (state w') = custom_music (state w) /\
      length (channels (data (state w'))) = length (channels (data (state w)))).
Proof.
  intros Hw Hi. unfold sound_device_play_music. tstep.
  destruct (Z.eqb_spec (initialized (data (state w))) 0) as [|_]; [done|]. simpl.
  apply triple_bind. unfold triple at 1. rewrite stop_music_initialized by done.
  set (w0 := World _ _).
  assert (table_ok w0) as Hw0 by exact Hw.
  destruct name as [name|].
  2:{ tstep. exists [], None, false. simpl. rewrite app_nil_r.
      repeat split; try done. effect_tac. }
  apply triple_bind.
  eapply triple_mono; [by apply load_music_spec|].
  intros r w1 (Hm1 & Hc1 & Hl1 & evs & Ht1 & He1). simpl in Hm1, Hc1, Hl1, Ht1.
  destruct r as [[h|]|]; simpl in He1.
  - (* loaded *)
    repeat tstep.
    destruct (on_Mix_PlayMusic L h (-1) (trace w1)) eqn:Hplay; simpl.
    + (* started *)
      unfold sound_device_set_music_volume. repeat tstep.
      exists (evs ++ [Mix_PlayMusic h (-1) true; Mix_VolumeMusic (mixer_volume L v)]),
             (Some h), true.
      play_leaf He1.
    + (* not started: the handle is dropped *)
      repeat tstep.
      eexists (evs ++ [Mix_PlayMusic h (-1) false; _; _]), (Some h), false.
      play_leaf He1.
  - (* the load answered NULL *)
    repeat tstep.
    eexists (evs ++ [_; _]), None, false.
    play_leaf He1.
  - (* the build-dependent part returned early *)
    tstep.
    exists evs, None, false.
    play_leaf He1.
Qed.

(** *** The custom music stream *)

Ltac run_prog :=
  unfold bind, ret, get, modify, emit, extern, fault; simpl.

Lemma free_custom_audio_stream_spec (w : W) :
  free_custom_audio_stream w =
  Returns tt
    (World (Statics (data (state w))
                    (CustomMusic (format (custom_music (state w)))
                                 (dst_format (custom_music (state w))) None)
                    (vita_music_data (state w)))
           (trace w ++ destroy_events (stream (custom_music (state w))))).
Proof.
  unfold free_custom_audio_stream, set_stream, set_custom_music.
  destruct w as [[d [f df [s|]] v] t]; run_prog; [done|].
  by rewrite app_nil_r.
Qed.

Lemma create_custom_audio_stream_spec
      src_format src_channels src_rate dst_format_arg dst_channels dst_rate (w : W) :
  let src := AudioSpec src_rate src_format (src_channels mod 256) in
  let dst := AudioSpec dst_rate dst_format_arg (dst_channels mod 256) in
  let t1 := trace w ++ destroy_events (stream (custom_music (state w))) in
  let st := on_SDL_CreateAudioStream L src dst t1 in
  create_custom_audio_stream L src_format src_channels src_rate
                             dst_format_arg dst_channels dst_rate w =
  Returns (if is_null st then 0 else 1)
    (World (Statics (data (state w))
                    (CustomMusic (format (custom_music (state w))) dst_format_arg st)
                    (vita_music_data (state w)))
           (t1 ++ [SDL_CreateAudioStream src dst st])).
Proof.
  intros src dst t1 st. subst src dst t1 st.
  unfold create_custom_audio_stream, bind at 1.
  rewrite free_custom_audio_stream_spec.
  unfold set_dst_format, set_stream, set_custom_music. run_prog. reflexivity.
Qed.

Lemma write_custom_music_data_spec audio_data len (w : W) :
  sound_device_write_custom_music_data L audio_data len w =
  Returns tt
    (World (state w)
       (trace w ++
        match audio_data, stream (custom_music (state w)) with
        | Some samples, Some st =>
            if len <=? 0 then []
            else [SDL_PutAudioStreamData st samples len
                    (on_SDL_PutAudioStreamData L st samples len (trace w))]
        | _, _ => []
        end)).
Proof.
  unfold sound_device_write_custom_music_data, put_custom_audio_stream,
    custom_audio_stream_active.
  destruct w as [[d [f df [s|]] v] t], audio_data as [samples|]; run_prog;
    rewrite ?app_nil_r; try reflexivity;
    destruct (len <=? 0); simpl; rewrite ?app_nil_r; reflexivity.
Qed.

Lemma use_default_music_player_spec (w : W) :
  sound_device_use_default_music_player w =
  Returns tt
    (World (Statics (data (state w))
                    (CustomMusic (format (custom_music (state w)))
                                 (dst_format (custom_music (state w))) None)
                    (vita_music_data (state w)))
           (trace w ++ [Mix_HookMusic None] ++
            destroy_events (stream (custom_music (state w))))).
Proof.
  unfold sound_device_use_default_music_player, bind at 1, emit at 1.
  rewrite free_custom_audio_stream_spec. simpl. by rewrite <- app_assoc.
Qed.

Lemma use_custom_music_player_spec bitdepth num_channels rate audio_data len fmt (w : W) :
  format_of_bitdepth L bitdepth = Some fmt ->
  let spec := on_Mix_QuerySpec L (trace w) in
  let src := AudioSpec rate fmt (num_channels mod 256) in
  let dst := AudioSpec spec.1.1 spec.1.2 (spec.2 mod 256) in
  let t1 := trace w ++ [Mix_QuerySpec spec.1.1 spec.1.2 spec.2] ++
            destroy_events (stream (custom_music (state w))) in
  let st := on_SDL_CreateAudioStream L src dst t1 in
  let t2 := t1 ++ [SDL_CreateAudioStream src dst st] in
  sound_device_use_custom_music_player L bitdepth num_channels rate audio_data len w =
  Returns tt
    (World (Statics (data (state w)) (CustomMusic fmt spec.1.2 st)
                    (vita_music_data (state w)))
           (t2 ++
            match st with
            | None => []
            | Some s =>
                match audio_data with
                | Some samples =>
                    if len <=? 0 then []
                    else [SDL_PutAudioStreamData s samples len
                            (on_SDL_PutAudioStreamData L s samples len t2)]
                | None => []
                end ++ [Mix_HookMusic (Some fn_custom_music_callback)]
            end)).
Proof.
  intros Hfmt spec src dst t1 st t2.
  unfold sound_device_use_custom_music_player. rewrite Hfmt.
  unfold bind at 1, extern at 1. fold spec.
  destruct spec as [[dr df] dc] eqn:Hspec. simpl in src, dst, t1, st, t2 |- *.
  unfold bind at 1, set_format at 1, set_custom_music at 1, modify at 1.
  unfold bind at 1. rewrite create_custom_audio_stream_spec. simpl.
  rewrite <- app_assoc. simpl. fold t1. fold src. fold dst. fold st.
  destruct st as [s|] eqn:Hst; simpl.
  - unfold bind at 1. rewrite write_custom_music_data_spec. simpl.
    unfold emit. simpl. fold t2.
    destruct audio_data as [samples|]; simpl;
      [destruct (len <=? 0); simpl|]; rewrite <- ?app_assoc; simpl;
      rewrite ?app_nil_r; reflexivity.
  - unfold ret. by rewrite app_nil_r.
Qed.

Lemma destroy_events_mixer (m : mixer) (stored : option handle) :
  mixer_from m (destroy_events stored) =
  Mixer (tracks m) (playing m) (streams m ∖ handle_set stored).
Proof.
  destruct stored; simpl; [done|].
  destruct m; simpl. f_equal. symmetry. apply difference_empty_L.
Qed.

(** *** Every operation keeps the invariants *)

Lemma quiet_Inv {A} (m : M A) (w w' : W) (a : A) :
  quiet True m -> Inv w -> m w = Returns a w' -> Inv w'.
Proof.
  intros Hq HI Hrun. specialize (Hq w (or_introl I)).
  unfold triple in Hq. rewrite Hrun in Hq. by eapply quiet_step_Inv.
Qed.

Lemma stop_music_Inv (w w' : W) :
  Inv w -> sound_device_stop_music w = Returns tt w' -> Inv w'.
Proof.
  intros HI Hrun.
  destruct (decide (initialized (data (state w)) = 0)) as [Hi|Hi].
  - rewrite stop_music_uninitialized in Hrun by done. by injection Hrun as <-.
  - rewrite stop_music_initialized in Hrun by done. injection Hrun as <-.
    destruct HI as (Ht & [Hm1 Hm2] & Hs).
    unfold Inv, table_ok, music_ok, stream_ok in *. simpl.
    rewrite mixer_of_app, halt_events_mixer by exact Hm2. simpl.
    repeat split; try done.
Qed.

Lemma play_music_Inv name v (w w' : W) r :
  Inv w -> sound_device_play_music T L name v w = Returns r w' -> Inv w'.
Proof.
  intros HI Hrun.
  destruct (decide (initialized (data (state w)) = 0)) as [Hi|Hi].
  - unfold sound_device_play_music, bind, get in Hrun. simpl in Hrun.
    rewrite Hi in Hrun. simpl in Hrun. by injection Hrun as _ <-.
  - destruct HI as (Ht & [Hm1 Hm2] & Hs).
    pose proof (play_music_spec name v w Ht Hi) as Hspec.
    unfold triple in Hspec. rewrite Hrun in Hspec.
    destruct Hspec as (rest & loaded & started & Htr & Heff & Hst & Hmu & _ & Hc & Hl).
    unfold Inv, table_ok, music_ok, stream_ok in *.
    unfold music_effect in Heff.
    rewrite Htr, Hmu, Hc, Hl, app_assoc, mixer_of_app, !Heff, mixer_of_app,
      halt_events_mixer by exact Hm2.
    simpl. split; [done|]. split; [|done].
    destruct started; [|done].
    destruct (Hst eq_refl) as [[h ->] _]. simpl.
    split; intros h' [= <-]; [set_solver|done].
Qed.

Lemma use_custom_music_player_Inv bitdepth num_channels rate audio_data len (w w' : W) :
  Inv w ->
  sound_device_use_custom_music_player L bitdepth num_channels rate audio_data len w
    = Returns tt w' ->
  Inv w'.
Proof.
  intros HI Hrun.
  destruct (format_of_bitdepth L bitdepth) as [fmt|] eqn:Hfmt.
  - rewrite (use_custom_music_player_spec _ _ _ _ _ fmt) in Hrun by done.
    injection Hrun as <-.
    destruct HI as (Ht & [Hm1 Hm2] & Hs).
    unfold Inv, table_ok, music_ok, stream_ok in *. simpl.
    set (tail := match on_SDL_CreateAudioStream L _ _ _ with
                 | Some s => _ | None => _ end).
    assert (forallb silent tail = true) as Htail.
    { subst tail. destruct (on_SDL_CreateAudioStream L _ _ _); [|done].
      destruct audio_data; [destruct (len <=? 0)|]; done. }
    rewrite !mixer_of_app, mixer_from_silent by done.
    rewrite ?mixer_from_app, ?mixer_from_cons, destroy_events_mixer. simpl.
    destruct (on_SDL_CreateAudioStream L _ _ _) as [s|]; simpl;
      (split; [done|]; split; [done|]); rewrite Hs; set_solver.
  - unfold sound_device_use_custom_music_player in Hrun. rewrite Hfmt in Hrun.
    eapply (quiet_Inv (emit _)); [|exact HI|exact Hrun].
    by apply quiet_emit.
Qed.

Lemma use_default_music_player_Inv (w w' : W) :
  Inv w -> sound_device_use_default_music_player w = Returns tt w' -> Inv w'.
Proof.
  intros HI Hrun. rewrite use_default_music_player_spec in Hrun.
  injection Hrun as <-.
  destruct HI as (Ht & [Hm1 Hm2] & Hs).
  unfold Inv, table_ok, music_ok, stream_ok in *. simpl.
  rewrite mixer_of_app, mixer_from_cons, destroy_events_mixer. simpl.
  split; [done|]. split; [done|]. rewrite Hs. set_solver.
Qed.

Lemma initial_Inv : Inv initial.
Proof. by repeat split. Qed.

Lemma discard_returns {A} (m : M A) (w w' : W) :
  discard m w = Returns tt w' -> exists a, m w = Returns a w'.
Proof.
  unfold discard, bind, ret. destruct (m w) as [a w1|]; [|done].
  intros [= <-]. eauto.
Qed.

Lemma run_Inv (o : op) (w w' : W) :
  Inv w -> run T L o w = Returns tt w' -> Inv w'.
Proof.
  intros HI Hrun. destruct o; simpl in Hrun;
    try (apply discard_returns in Hrun as [? Hrun]).
  - by eapply (quiet_Inv _ _ _ _ (quiet_open True)).
  - by eapply (quiet_Inv _ _ _ _ (quiet_close True)).
  - eapply (quiet_Inv _ _ _ _ (quiet_sound_device_init_channels True _ _ (or_introl I)));
      eauto.
  - by eapply (quiet_Inv _ _ _ _ (quiet_is_channel_playing True _ (or_introl I))).
  - by eapply (quiet_Inv _ _ _ _ (quiet_set_music_volume True _)).
  - by eapply (quiet_Inv _ _ _ _ (quiet_set_channel_volume True _ _ (or_introl I))).
  - by eapply play_music_Inv.
  - by eapply (quiet_Inv _ _ _ _ (quiet_play_file_on_channel True _ _ _ (or_introl I))).
  - by eapply (quiet_Inv _ _ _ _ (quiet_play_channel True _ _ (or_introl I))).
  - by eapply (quiet_Inv _ _ _ _ (quiet_play_channel_panned True _ _ _ _ (or_introl I))).
  - by eapply stop_music_Inv.
  - by eapply (quiet_Inv _ _ _ _ (quiet_stop_channel True _ (or_introl I))).
  - by eapply use_custom_music_player_Inv.
  - by eapply (quiet_Inv _ _ _ _ (quiet_write_custom_music_data True _ _)).
  - by eapply use_default_music_player_Inv.
  - by eapply (quiet_Inv _ _ _ _ (quiet_run_music_hook True _ _ _)).
  - by eapply (quiet_Inv _ _ _ _ (quiet_SDL_RWFromFP True _ _)).
  - by eapply (quiet_Inv _ _ _ _ (quiet_stdio_seek True _ _ _)).
  - by eapply (quiet_Inv _ _ _ _ (quiet_stdio_read True _ _)).
  - by eapply (quiet_Inv _ _ _ _ (quiet_stdio_write True _ _)).
  - by eapply (quiet_Inv _ _ _ _ (quiet_stdio_close True _)).
Qed.

Lemma run_all_Inv (os : list op) (w w' : W) :
  Inv w -> run_all T L os w = Returns tt w' -> Inv w'.
Proof.
  revert w. induction os as [|o os IH]; intros w HI Hrun; simpl in Hrun.
  - by injection Hrun as <-.
  - unfold bind in Hrun. destruct (run T L o w) as [[] w1|] eqn:Ho; [|done].
    eapply IH; [|exact Hrun]. by eapply run_Inv.
Qed.

Lemma reachable_Inv (w : W) : reachable T L w -> Inv w.
Proof. intros [os Hrun]. eapply run_all_Inv; [apply initial_Inv|exact Hrun]. Qed.

(** *** The loop of [sound_device_init_channels] *)

Lemma init_slot (names : list string) (table : list sound_channel) (s : statics)
      (t : list event) (i : nat) :
  length table = Z.to_nat MAX_CHANNELS ->
  (i < length table)%nat -> (i < length names)%nat ->
  (let* _ := set_chunk (Z.of_nat i) None in
   let* name := read_filename names (Z.of_nat i) in
   set_filename (Z.of_nat i) (if nonempty name then Some name else None))
    (World (with_channels s (map slot_of (take i names) ++ drop i table)) t) =
  Returns tt
    (World (with_channels s (map slot_of (take (Datatypes.S i) names)
                             ++ drop (Datatypes.S i) table)) t).
Proof.
  intros Hlen Hi Hn.
  destruct (lookup_lt_is_Some_2 table i Hi) as [c Hc].
  destruct (lookup_lt_is_Some_2 names i Hn) as [name Hname].
  assert (length (map slot_of (take i names)) = i) as Hpre.
  { rewrite length_map, length_take. lia. }
  assert (in_table (Z.of_nat i) = true) as Hin.
  { apply in_table_range. unfold MAX_CHANNELS in *. lia. }
  assert ((map slot_of (take i names) ++ drop i table) !! i = Some c) as Hl1.
  { rewrite lookup_app_r by lia. rewrite Hpre, Nat.sub_diag, lookup_drop.
    by rewrite Nat.add_0_r. }
  assert (i < length (map slot_of (take i names) ++ drop i table))%nat as Hl2.
  { by apply lookup_lt_is_Some_1; eexists. }
  unfold set_chunk, set_filename, write_channel, read_channel, read_filename,
    set_data, with_channels.
  run_prog. rewrite Hin. simpl. rewrite Nat2Z.id, Hl1. simpl.
  destruct (Z.leb_spec 0 (Z.of_nat i)); [|lia]. rewrite ?Nat2Z.id, Hname. simpl.
  rewrite ?Hin. simpl. rewrite ?Nat2Z.id.
  rewrite list_lookup_insert_eq by exact Hl2. simpl.
  rewrite list_insert_insert_eq.
  rewrite insert_app_r_alt by lia. rewrite Hpre, Nat.sub_diag.
  rewrite (drop_S _ _ _ Hc). simpl.
  rewrite (take_S_r _ _ _ Hname), map_app. simpl.
  rewrite <- app_assoc. reflexivity.
Qed.

Lemma init_loop (names : list string) (s : statics) (t : list event) (n : nat) :
  length (channels (data s)) = Z.to_nat MAX_CHANNELS ->
  (n <= length (channels (data s)))%nat -> (n <= length names)%nat ->
  for_loop n 0 (fun i =>
    let* _ := set_chunk i None in
    let* name := read_filename names i in
    set_filename i (if nonempty name then Some name else None))
    (World s t) =
  Returns tt
    (World (with_channels s (map slot_of (take n names)
                             ++ drop n (channels (data s)))) t).
Proof.
  intros Hlen Hn1 Hn2.
  assert (triple False
            (for_loop n 0 (fun i =>
               let* _ := set_chunk i None in
               let* name := read_filename names i in
               set_filename i (if nonempty name then Some name else None)))
            (World s t)
            (fun _ w' =>
               w' = World (with_channels s
                             (map slot_of (take (Z.to_nat (0 + Z.of_nat n)) names)
                              ++ drop (Z.to_nat (0 + Z.of_nat n)) (channels (data s))))
                          t)) as Hloop.
  { apply (triple_for_loop False
             (fun i w' => w' = World (with_channels s
                                        (map slot_of (take (Z.to_nat i) names)
                                         ++ drop (Z.to_nat i) (channels (data s)))) t)).
    - simpl. by destruct s as [[] ? ?].
    - intros i w1 Hi ->. unfold triple.
      pose proof (init_slot names (channels (data s)) s t (Z.to_nat i)) as Hs.
      rewrite Z2Nat.id in Hs by lia. rewrite Hs by lia.
      by replace (Z.to_nat (i + 1)) with (Datatypes.S (Z.to_nat i)) by lia. }
  apply triple_returns in Hloop as ([] & w' & -> & ->).
  by rewrite Z.add_0_l, Nat2Z.id.
Qed.

(** *** Operations that stay inside the table return *)

Lemma quiet_returns {A} (m : M A) (w : W) :
  quiet False m -> table_ok w -> exists a w', m w = Returns a w' /\ quiet_step w w'.
Proof.
  intros Hq Hw. specialize (Hq w (or_intror Hw)). by apply triple_returns in Hq.
Qed.

Lemma quiet_returns_unit (m : M unit) (w : W) :
  quiet False m -> table_ok w -> exists w', m w = Returns tt w'.
Proof.
  intros Hq Hw. destruct (quiet_returns m w Hq Hw) as ([] & w' & Hrun & _). eauto.
Qed.

Lemma play_music_returns name v (w : W) :
  table_ok w -> exists r w', sound_device_play_music T L name v w = Returns r w'.
Proof.
  intros Hw. destruct (decide (initialized (data (state w)) = 0)) as [Hi|Hi].
  - unfold sound_device_play_music, bind, get. simpl. rewrite Hi. simpl. eauto.
  - pose proof (play_music_spec name v w Hw Hi) as Hspec.
    apply triple_returns in Hspec as (r & w' & Hrun & _). eauto.
Qed.

Lemma stop_music_returns (w : W) : exists w', sound_device_stop_music w = Returns tt w'.
Proof.
  destruct (decide (initialized (data (state w)) = 0)) as [Hi|Hi].
  - rewrite stop_music_uninitialized by done. eauto.
  - rewrite stop_music_initialized by done. eauto.
Qed.

Lemma use_custom_music_player_returns bitdepth num_channels rate audio_data len (w : W) :
  exists w',
    sound_device_use_custom_music_player L bitdepth num_channels rate audio_data len w
    = Returns tt w'.
Proof.
  destruct (format_of_bitdepth L bitdepth) as [fmt|] eqn:Hfmt.
  - rewrite (use_custom_music_player_spec _ _ _ _ _ fmt) by done. eauto.
  - unfold sound_device_use_custom_music_player. rewrite Hfmt. eauto.
Qed.

Lemma discard_run {A} (m : M A) (w w' : W) a :
  m w = Returns a w' -> discard m w = Returns tt w'.
Proof. intros H. unfold discard, bind. by rewrite H. Qed.

Lemma run_returns (o : op) (w : W) :
  table_ok w -> within_table o -> exists w', run T L o w = Returns tt w'.
Proof.
  intros Hw Ho.
  assert (forall m : M unit, quiet False m -> exists w', m w = Returns tt w') as Hq.
  { intros m Hm. by apply quiet_returns_unit. }
  destruct o; simpl in Ho |- *; try (apply in_table_range in Ho).
  - apply Hq, quiet_open.
  - apply Hq, quiet_close.
  - apply Hq, quiet_sound_device_init_channels. by right.
  - apply Hq, quiet_discard, quiet_is_channel_playing. by right.
  - apply Hq, quiet_set_music_volume.
  - apply Hq, quiet_set_channel_volume. by right.
  - destruct (play_music_returns name volume_pct w Hw) as (r & w' & Hrun).
    exists w'. by eapply discard_run.
  - apply Hq, quiet_play_file_on_channel. by right.
  - apply Hq, quiet_play_channel. by right.
  - apply Hq, quiet_play_channel_panned. by right.
  - apply stop_music_returns.
  - apply Hq, quiet_stop_channel. by right.
  - apply use_custom_music_player_returns.
  - apply Hq, quiet_write_custom_music_data.
  - rewrite use_default_music_player_spec. eauto.
  - apply Hq, quiet_discard, quiet_run_music_hook.
  - apply Hq, quiet_discard, quiet_SDL_RWFromFP.
  - apply Hq, quiet_discard, quiet_stdio_seek.
  - apply Hq, quiet_discard, quiet_stdio_read.
  - apply Hq, quiet_discard, quiet_stdio_write.
  - apply Hq, quiet_discard, quiet_stdio_close.
Qed.

Lemma read_channel_outside (channel : Z) (w : W) :
  ~ (0 <= channel < MAX_CHANNELS) ->
  read_channel channel w = OutOfBounds "data.channels" channel w.
Proof.
  intros Hout. unfold read_channel, bind, get, fault.
  assert (in_table channel = false) as ->; [|done].
  unfold in_table. lia.
Qed.

(** C1, as amended.  A call of [sound_device_init_channels] with more than
    150 channels allocates 150 and fills the table from the first 150 file
    names, nothing else (and does nothing on a device that is not open); the
    table has 150 slots before and after every operation, in every state
    the file can reach; and an operation uses no slot beyond it when the
    channel number it is given, if any, is in 0..149 (the operations that
    take none never do). *)
Theorem init_channels_clamps_to_table
    (num_channels : Z) (filenames : list string) (w : W) :
  Inv w ->
  num_channels > MAX_CHANNELS ->
  MAX_CHANNELS <= Z.of_nat (length filenames) ->
  (initialized (data (state w)) <> 0 ->
     sound_device_init_channels num_channels filenames w =
     Returns tt
       (World (with_channels (state w)
                 (map slot_of (take (Z.to_nat MAX_CHANNELS) filenames)))
              (trace w ++ [Mix_AllocateChannels MAX_CHANNELS;
                           log_info "Loading audio files" None 0]))) /\
  (initialized (data (state w)) = 0 ->
     sound_device_init_channels num_channels filenames w = Returns tt w) /\
  length (channels (data (state w))) = 150%nat /\
  (forall o w', run T L o w = Returns tt w' ->
                length (channels (data (state w'))) = 150%nat) /\
  (forall w0, reachable T L w0 -> length (channels (data (state w0))) = 150%nat) /\
  (forall o, within_table o -> exists w', run T L o w = Returns tt w').
Proof.
  intros HI Hnum Hnames.
  pose proof HI as (Hw & _).
  split; [|split; [|split; [exact Hw|split; [|split]]]].
  - intros Hi. unfold sound_device_init_channels, bind at 1, get at 1.
    destruct (Z.eqb_spec (initialized (data (state w))) 0); [done|]. simpl.
    destruct (Z.gtb_spec num_channels MAX_CHANNELS); [|lia].
    unfold bind at 1, emit at 1. unfold bind at 1, emit at 1. simpl.
    unfold for_lt. unfold table_ok in Hw.
    rewrite init_loop; simpl; [|exact Hw|lia..].
    rewrite drop_ge by lia. rewrite app_nil_r, <- app_assoc. reflexivity.
  - intros Hi. unfold sound_device_init_channels, bind, get. by rewrite Hi.
  - intros o w' Hrun. by destruct (run_Inv o w w' HI Hrun) as (Hw' & _).
  - intros w0 Hreach. by destruct (reachable_Inv w0 Hreach) as (Hw0 & _).
  - intros o Ho. by apply run_returns.
Qed.

(** C9. None of the six channel operations checks the channel number
    before indexing the table with it.  With the number in 0..149 each of
    them returns; with the number outside, the first thing each does with
    the table is an access at that very index, outside the table: always
    for the two that do not look at [data.initialized], on an open device
    for the other four, which do nothing at all on a closed one. *)
Theorem channel_operations_index_unchecked
    (channel volume_pct left_pct right_pct : Z) (name : string) (w : W) :
  table_ok w ->
  (0 <= channel < MAX_CHANNELS ->
     (exists r w', sound_device_is_channel_playing L channel w = Returns r w') /\
     (exists w', sound_device_set_channel_volume L channel volume_pct w = Returns tt w') /\
     (exists w', sound_device_play_file_on_channel T L name channel volume_pct w
                 = Returns tt w') /\
     (exists w', sound_device_play_channel T L channel volume_pct w = Returns tt w') /\
     (exists w', sound_device_play_channel_panned T L channel volume_pct
                   left_pct right_pct w = Returns tt w') /\
     (exists w', sound_device_stop_channel channel w = Returns tt w')) /\
  (~ (0 <= channel < MAX_CHANNELS) ->
     sound_device_is_channel_playing L channel w
       = OutOfBounds "data.channels" channel w /\
     sound_device_set_channel_volume L channel volume_pct w
       = OutOfBounds "data.channels" channel w /\
     (initialized (data (state w)) <> 0 ->
        sound_device_play_file_on_channel T L name channel volume_pct w
          = OutOfBounds "data.channels" channel w /\
        sound_device_play_channel T L channel volume_pct w
          = OutOfBounds "data.channels" channel w /\
        sound_device_play_channel_panned T L channel volume_pct left_pct right_pct w
          = OutOfBounds "data.channels" channel w /\
        sound_device_stop_channel channel w
          = OutOfBounds "data.channels" channel w) /\
     (initialized (data (state w)) = 0 ->
        sound_device_play_file_on_channel T L name channel volume_pct w = Returns tt w /\
        sound_device_play_channel T L channel volume_pct w = Returns tt w /\
        sound_device_play_channel_panned T L channel volume_pct left_pct right_pct w
          = Returns tt w /\
        sound_device_stop_channel channel w = Returns tt w)).
Proof.
  intros Hw. split.
  - intros Hin. apply in_table_range in Hin.
    repeat split.
    + destruct (quiet_returns _ w (quiet_is_channel_playing False channel
                                     (or_intror Hin)) Hw) as (r & w' & Hrun & _).
      eauto.
    + by apply quiet_returns_unit; [apply quiet_set_channel_volume; right|].
    + by apply quiet_returns_unit; [apply quiet_play_file_on_channel; right|].
    + by apply quiet_returns_unit; [apply quiet_play_channel; right|].
    + by apply quiet_returns_unit; [apply quiet_play_channel_panned; right|].
    + by apply quiet_returns_unit; [apply quiet_stop_channel; right|].
  - intros Hout. pose proof (read_channel_outside channel w Hout) as Hread.
    assert (forall A (k : sound_channel -> M A),
               bind (read_channel channel) k w
               = OutOfBounds "data.channels" channel w) as Hbind.
    { intros A k. unfold bind. by rewrite Hread. }
    split; [apply Hbind|]. split; [apply Hbind|]. split.
    + intros Hi.
      assert (sound_device_stop_channel channel w
              = OutOfBounds "data.channels" channel w) as Hstop.
      { unfold sound_device_stop_channel, bind at 1, get at 1.
        destruct (Z.eqb_spec (initialized (data (state w))) 0); [done|]. simpl.
        apply Hbind. }
      assert (forall A (k : Z -> M A),
                 bind (load_channel T L channel) k w
                 = OutOfBounds "data.channels" channel w) as Hload.
      { intros A k. unfold load_channel. unfold bind at 1. unfold bind at 1.
        by rewrite Hread. }
      repeat split; [| | |exact Hstop].
      * unfold sound_device_play_file_on_channel, bind at 1, get at 1.
        destruct (Z.eqb_spec (initialized (data (state w))) 0); [done|]. simpl.
        unfold bind at 1. by rewrite Hstop.
      * unfold sound_device_play_channel, bind at 1, get at 1.
        destruct (Z.eqb_spec (initialized (data (state w))) 0); [done|]. simpl.
        apply Hload.
      * unfold sound_device_play_channel_panned, bind at 1, get at 1.
        destruct (Z.eqb_spec (initialized (data (state w))) 0); [done|]. simpl.
        apply Hload.
    + intros Hi.
      unfold sound_device_play_file_on_channel, sound_device_play_channel,
        sound_device_play_channel_panned, sound_device_stop_channel, bind, get.
      rewrite Hi. simpl. done.
Qed.

(** C2, as amended.  There is one slot for a music handle.  On an open
    device [sound_device_play_music] first gives up the stored track, by
    [Mix_HaltMusic] and [Mix_FreeMusic], and only then makes the calls that
    load the new one; on an open device [sound_device_stop_music] does the
    same and leaves the slot cleared; on a device that is not open it does
    nothing and leaves the slot as it is.  After every operation, and so in
    every state the file can reach, the stored handle, if there is one, is a
    track that exists, and no other track plays. *)
Theorem single_music_handle (name : option string) (volume_pct : Z) (w : W) :
  Inv w ->
  (initialized (data (state w)) <> 0 ->
     (exists r w' rest loaded started,
        sound_device_play_music T L name volume_pct w = Returns r w' /\
        trace w' = trace w ++ halt_events (music (data (state w))) ++ rest /\
        music_effect rest loaded started) /\
     (exists w',
        sound_device_stop_music w = Returns tt w' /\
        trace w' = trace w ++ halt_events (music (data (state w))) /\
        music (data (state w')) = None)) /\
  (initialized (data (state w)) = 0 ->
     sound_device_stop_music w = Returns tt w) /\
  (forall o w', run T L o w = Returns tt w' -> music_ok w') /\
  (forall w0, reachable T L w0 -> music_ok w0).
Proof.
  intros HI. pose proof HI as (Hw & _). split; [|split; [|split]].
  - intros Hi. split.
    + pose proof (play_music_spec name volume_pct w Hw Hi) as Hspec.
      apply triple_returns in Hspec
        as (r & w' & Hrun & rest & loaded & started & Htr & Heff & _).
      by exists r, w', rest, loaded, started.
    + rewrite stop_music_initialized by done. by eexists.
  - apply stop_music_uninitialized.
  - intros o w' Hrun. by destruct (run_Inv o w w' HI Hrun) as (_ & Hm & _).
  - intros w0 Hreach. by destruct (reachable_Inv w0 Hreach) as (_ & Hm & _).
Qed.

(** C6. There is one slot for a custom audio stream.
    [create_custom_audio_stream] destroys the stored stream, if any, before
    it creates the new one, and stores what the creation answered;
    [sound_device_use_default_music_player] removes the hook, destroys the
    stored stream and clears the slot.  After either, after every
    operation, and so in every state the file can reach, the streams that
    exist are the stored one or none: at most one. *)
Theorem single_custom_stream
    (src_format : SDL_AudioFormat) (src_channels src_rate : Z)
    (dst_format_arg : SDL_AudioFormat) (dst_channels dst_rate : Z) (w : W) :
  Inv w ->
  let src := AudioSpec src_rate src_format (src_channels mod 256) in
  let dst := AudioSpec dst_rate dst_format_arg (dst_channels mod 256) in
  let t1 := trace w ++ destroy_events (stream (custom_music (state w))) in
  let st := on_SDL_CreateAudioStream L src dst t1 in
  (exists w',
     create_custom_audio_stream L src_format src_channels src_rate
                                dst_format_arg dst_channels dst_rate w
     = Returns (if is_null st then 0 else 1) w' /\
     trace w' = t1 ++ [SDL_CreateAudioStream src dst st] /\
     stream (custom_music (state w')) = st /\
     stream_ok w') /\
  (exists w',
     sound_device_use_default_music_player w = Returns tt w' /\
     trace w' = trace w ++ [Mix_HookMusic None] ++
                destroy_events (stream (custom_music (state w))) /\
     stream (custom_music (state w')) = None /\
     stream_ok w') /\
  (forall o w', run T L o w = Returns tt w' ->
                stream_ok w' /\ base.size (streams (mixer_of (trace w'))) <= 1)%nat /\
  (forall w0, reachable T L w0 ->
              stream_ok w0 /\ base.size (streams (mixer_of (trace w0))) <= 1)%nat.
Proof.
  intros HI src dst t1 st. pose proof HI as (_ & _ & Hs).
  assert (forall w0, Inv w0 ->
            stream_ok w0 /\ (base.size (streams (mixer_of (trace w0))) <= 1)%nat)
    as Hone.
  { intros w0 (_ & _ & Hs0). split; [exact Hs0|]. rewrite Hs0.
    destruct (stream (custom_music (state w0))); unfold handle_set.
    - rewrite size_singleton. lia.
    - rewrite size_empty. lia. }
  split; [|split; [|split]].
  - rewrite create_custom_audio_stream_spec. fold src dst t1 st.
    eexists. split; [reflexivity|]. simpl. split; [done|]. split; [done|].
    unfold stream_ok in *. simpl. subst t1.
    rewrite !mixer_of_app, destroy_events_mixer, Hs.
    destruct st; simpl; set_solver.
  - rewrite use_default_music_player_spec.
    eexists. split; [reflexivity|]. simpl. split; [done|]. split; [done|].
    unfold stream_ok in *. simpl.
    rewrite mixer_of_app, mixer_from_cons, destroy_events_mixer. simpl.
    rewrite Hs. set_solver.
  - intros o w' Hrun. apply Hone. by eapply run_Inv.
  - intros w0 Hreach. by apply Hone, reachable_Inv.
Qed.

Lemma custom_music_callback_pulls (out : bytes) (n : Z) (st mix_buffer : handle) (w : W) :
  stream (custom_music (state w)) = Some st ->
  0 < n ->
  on_malloc L n (trace w) = Some mix_buffer ->
  let t3 := trace w ++ [malloc n (Some mix_buffer)] in
  let pulled := on_SDL_GetAudioStreamData L st n t3 in
  0 < pulled.1 ->
  let t4 := t3 ++ [SDL_GetAudioStreamData st n pulled.1 pulled.2] in
  let pct := on_setting_sound_effects_volume L t4 in
  let mixed := on_SDL_MixAudio L (memset_zero out n) pulled.2
                 (dst_format (custom_music (state w))) pulled.1
                 (percentage_to_volume pct) in
  custom_music_callback L (Some out) n w =
  Returns (Some mixed)
    (World (state w)
       (t4 ++ [setting_sound_effects_volume pct;
               SDL_MixAudio (memset_zero out n) pulled.2
                 (dst_format (custom_music (state w))) pulled.1
                 (percentage_to_volume pct) mixed;
               free (Some mix_buffer)])).
Proof.
  intros Hst Hn Hmalloc t3 pulled Hpulled t4 pct mixed.
  unfold custom_music_callback, get_custom_audio_stream, custom_audio_stream_active.
  unfold bind, get, ret, extern, emit. simpl. rewrite Hst. simpl.
  destruct (Z.leb_spec n 0); [lia|]. simpl. rewrite ?Hst. simpl.
  rewrite Hmalloc. simpl. fold t3. fold pulled.
  destruct pulled as [copied got] eqn:Hp. simpl in *.
  destruct (Z.leb_spec copied 0); [lia|]. simpl.
  subst mixed pct t4. rewrite <- !app_assoc. reflexivity.
Qed.

(** C3. Entering, running and leaving the custom music player.  With a
    bit depth of 8 or 16 and a stream that the library does create,
    [sound_device_use_custom_music_player] asks the device for its format,
    creates a stream from the caller's format (the one of the bit depth,
    [num_channels] as a [Uint8], [rate]) to the device's, queues the
    samples it was given, if any, and installs [custom_music_callback] as
    the music hook.  When the mixer then asks the hook for [n] bytes, the
    hook takes what the stream has converted and mixes it into the silenced
    music output.  [sound_device_use_default_music_player] removes the hook
    and destroys the stream. *)
Theorem custom_music_player_mode
    (bitdepth num_channels rate : Z) (audio_data : option bytes) (len : Z)
    (out : bytes) (n : Z) (st mix_buffer : handle) (w : W) :
  bitdepth = 8 \/ bitdepth = 16 ->
  let fmt := if bitdepth =? 8 then SDL_AUDIO_U8 L else SDL_AUDIO_S16 L in
  let spec := on_Mix_QuerySpec L (trace w) in
  let src := AudioSpec rate fmt (num_channels mod 256) in
  let dst := AudioSpec spec.1.1 spec.1.2 (spec.2 mod 256) in
  let t1 := trace w ++ [Mix_QuerySpec spec.1.1 spec.1.2 spec.2] ++
            destroy_events (stream (custom_music (state w))) in
  on_SDL_CreateAudioStream L src dst t1 = Some st ->
  let t2 := t1 ++ [SDL_CreateAudioStream src dst (Some st)] in
  let queued :=
    match audio_data with
    | Some samples =>
        if len <=? 0 then []
        else [SDL_PutAudioStreamData st samples len
                (on_SDL_PutAudioStreamData L st samples len t2)]
    | None => []
    end in
  let w1 := World (Statics (data (state w)) (CustomMusic fmt spec.1.2 (Some st))
                           (vita_music_data (state w)))
                  (t2 ++ queued ++ [Mix_HookMusic (Some fn_custom_music_callback)]) in
  0 < n ->
  on_malloc L n (trace w1) = Some mix_buffer ->
  let t3 := trace w1 ++ [malloc n (Some mix_buffer)] in
  let pulled := on_SDL_GetAudioStreamData L st n t3 in
  0 < pulled.1 ->
  let t4 := t3 ++ [SDL_GetAudioStreamData st n pulled.1 pulled.2] in
  let pct := on_setting_sound_effects_volume L t4 in
  let mixed := on_SDL_MixAudio L (memset_zero out n) pulled.2 spec.1.2 pulled.1
                 (percentage_to_volume pct) in
  sound_device_use_custom_music_player L bitdepth num_channels rate audio_data len w
    = Returns tt w1 /\
  run_music_hook L fn_custom_music_callback (Some out) n w1
    = Returns (Some mixed)
        (World (state w1)
           (t4 ++ [setting_sound_effects_volume pct;
                   SDL_MixAudio (memset_zero out n) pulled.2 spec.1.2 pulled.1
                     (percentage_to_volume pct) mixed;
                   free (Some mix_buffer)])) /\
  sound_device_use_default_music_player w1
    = Returns tt
        (World (Statics (data (state w)) (CustomMusic fmt spec.1.2 None)
                        (vita_music_data (state w)))
               (trace w1 ++ [Mix_HookMusic None; SDL_DestroyAudioStream st])).
Proof.
  intros Hdepth fmt spec src dst t1 Hst t2 queued w1 Hn Hmalloc t3 pulled Hpulled
         t4 pct mixed.
  assert (format_of_bitdepth L bitdepth = Some fmt) as Hfmt.
  { unfold format_of_bitdepth. subst fmt. by destruct Hdepth as [-> | ->]. }
  split; [|split].
  - rewrite (use_custom_music_player_spec _ _ _ _ _ fmt) by done.
    fold spec. fold src. fold dst. fold t1. rewrite Hst. fold t2.
    subst w1 queued. reflexivity.
  - unfold run_music_hook.
    by rewrite (custom_music_callback_pulls out n st mix_buffer w1).
  - by rewrite use_default_music_player_spec.
Qed.


(** C5. The seek shim of the emulated stream.  The three SDL whence
    values select the three stdio ones; with one of them the shim seeks,
    and when both the seek and the query of the offset succeed it returns
    that offset, which is not negative; with any other whence value it
    returns -1 having only set the error message.  [SDL_RWFromFP] installs
    this shim as the seek entry of the stream it opens. *)
Theorem stdio_seek_maps_whence
    (u : IOStreamStdioFPData) (offset whence : Z) (f : handle) (auto : bool) (w : W) :
  stdio_whence_of SDL_IO_SEEK_SET = Some SEEK_SET /\
  stdio_whence_of SDL_IO_SEEK_CUR = Some SEEK_CUR /\
  stdio_whence_of SDL_IO_SEEK_END = Some SEEK_END /\
  (forall sw, stdio_whence_of whence = Some sw ->
     let off := fseek_off_t L offset in
     let r := on_fseek L (fp u) off sw (trace w) in
     let t1 := trace w ++ [fseek (fp u) off sw r] in
     let pos := on_ftell L (fp u) t1 in
     (r = 0 -> 0 <= pos ->
        stdio_seek L u offset whence w =
        Returns pos (World (state w) (t1 ++ [ftell (fp u) pos]))) /\
     (r = 0 -> pos < 0 ->
        stdio_seek L u offset whence w =
        Returns (-1) (World (state w)
                        (t1 ++ [ftell (fp u) pos;
                                SDL_SetError "Couldn't get stream offset"]))) /\
     (r <> 0 ->
        stdio_seek L u offset whence w =
        Returns (-1) (World (state w)
                        (t1 ++ [SDL_SetError "Couldn't seek in stream"])))) /\
  (whence <> SDL_IO_SEEK_SET -> whence <> SDL_IO_SEEK_CUR ->
   whence <> SDL_IO_SEEK_END ->
     stdio_whence_of whence = None /\
     stdio_seek L u offset whence w =
     Returns (-1) (World (state w)
                     (trace w ++ [SDL_SetError "Unknown value for 'whence'"]))) /\
  (forall p, on_SDL_malloc L (trace w) = Some p ->
     exists r w',
       SDL_RWFromFP L f auto w = Returns r w' /\
       SDL_OpenIO (IOInterface (Some fn_stdio_seek) (Some fn_stdio_read)
                               (Some fn_stdio_write) (Some fn_stdio_close))
                  p (StdioFPData f auto) r ∈ trace w').
Proof.
  split; [reflexivity|]. split; [reflexivity|]. split; [reflexivity|].
  split; [|split].
  - intros sw Hsw off r t1 pos. subst off r t1 pos.
    unfold stdio_seek. rewrite Hsw.
    unfold bind, extern, emit, ret. simpl.
    repeat split.
    + intros -> Hpos. simpl.
      destruct (Z.ltb_spec (on_ftell L (fp u)
        (trace w ++ [fseek (fp u) (fseek_off_t L offset) sw 0])) 0); [lia|].
      reflexivity.
    + intros -> Hpos. simpl.
      destruct (Z.ltb_spec (on_ftell L (fp u)
        (trace w ++ [fseek (fp u) (fseek_off_t L offset) sw 0])) 0); [|lia].
      simpl. rewrite <- !app_assoc. reflexivity.
    + intros Hr.
      destruct (Z.eqb_spec (on_fseek L (fp u) (fseek_off_t L offset) sw (trace w)) 0);
        [done|].
      reflexivity.
  - intros H1 H2 H3.
    assert (stdio_whence_of whence = None) as Hnone.
    { unfold stdio_whence_of.
      destruct (Z.eqb_spec whence SDL_IO_SEEK_SET); [done|].
      destruct (Z.eqb_spec whence SDL_IO_SEEK_CUR); [done|].
      destruct (Z.eqb_spec whence SDL_IO_SEEK_END); [done|]. reflexivity. }
    split; [exact Hnone|].
    unfold stdio_seek. rewrite Hnone. reflexivity.
  - intros p Hp.
    unfold SDL_RWFromFP, bind, extern. simpl. rewrite Hp.
    destruct (on_SDL_OpenIO L _ p _) as [io|] eqn:Hio; simpl.
    + eexists _, _. split; [reflexivity|].
      simpl. set_solver.
    + unfold stdio_close, bind, extern, emit, ret.
      destruct auto; simpl.
      * destruct (negb _); simpl;
          (eexists _, _; split; [reflexivity|]);
          simpl; set_solver.
      * eexists _, _. split; [reflexivity|].
        simpl. set_solver.
Qed.

(** C7. With a bit depth other than 8 and 16,
    [sound_device_use_custom_music_player] only logs the error: the
    statics, the custom-music state among them, are what they were, and
    the log entry is the only call made, so no stream is touched, nothing
    is queued and no hook is installed. *)
Theorem use_custom_music_player_bad_bitdepth
    (bitdepth num_channels rate : Z) (audio_data : option bytes) (len : Z) (w : W) :
  bitdepth <> 8 -> bitdepth <> 16 ->
  sound_device_use_custom_music_player L bitdepth num_channels rate audio_data len w =
  Returns tt (World (state w)
                (trace w ++ [log_error "Custom music bitdepth not supported:"
                                       None bitdepth])).
Proof.
  intros H8 H16. unfold sound_device_use_custom_music_player, format_of_bitdepth.
  destruct (Z.eqb_spec bitdepth 8); [done|].
  destruct (Z.eqb_spec bitdepth 16); [done|]. reflexivity.
Qed.

(** ** More of the sound device *)

(** *** The table, slot by slot *)

Lemma with_channels_id (s : statics) : with_channels s (channels (data s)) = s.
Proof. by destruct s as [[] ? ?]. Qed.

Lemma read_channel_inside (i : nat) (c : sound_channel) (w : W) :
  (Z.of_nat i < MAX_CHANNELS) ->
  channels (data (state w)) !! i = Some c ->
  read_channel (Z.of_nat i) w = Returns c w.
Proof.
  intros Hi Hc. unfold read_channel, bind, get, ret.
  rewrite in_table_range by lia. by rewrite Nat2Z.id, Hc.
Qed.

Lemma set_chunk_inside (i : nat) (c : sound_channel) (h : option handle) (w : W) :
  (Z.of_nat i < MAX_CHANNELS) ->
  channels (data (state w)) !! i = Some c ->
  set_chunk (Z.of_nat i) h w =
  Returns tt (World (with_channels (state w)
                       (<[i := Channel (filename c) h]> (channels (data (state w)))))
                    (trace w)).
Proof.
  intros Hi Hc. unfold set_chunk, write_channel, bind at 1.
  rewrite (read_channel_inside i c) by done.
  unfold set_data, modify, with_channels. by rewrite Nat2Z.id.
Qed.

Lemma done_slots_length (g : sound_channel -> sound_channel) (table : list sound_channel)
      (i : nat) :
  (i <= length table)%nat -> length (map g (take i table)) = i.
Proof. intros Hi. rewrite length_map, length_take. lia. Qed.

Lemma lookup_next_slot (g : sound_channel -> sound_channel) (table : list sound_channel)
      (i : nat) (c : sound_channel) :
  table !! i = Some c ->
  (map g (take i table) ++ drop i table) !! i = Some c.
Proof.
  intros Hc. pose proof (lookup_lt_Some _ _ _ Hc) as Hi.
  rewrite lookup_app_r by (rewrite done_slots_length; lia).
  rewrite done_slots_length by lia. by rewrite Nat.sub_diag, lookup_drop, Nat.add_0_r.
Qed.

Lemma insert_next_slot (g : sound_channel -> sound_channel) (table : list sound_channel)
      (i : nat) (c : sound_channel) :
  table !! i = Some c ->
  <[i := g c]> (map g (take i table) ++ drop i table)
  = map g (take (Datatypes.S i) table) ++ drop (Datatypes.S i) table.
Proof.
  intros Hc. pose proof (lookup_lt_Some _ _ _ Hc) as Hi.
  rewrite insert_app_r_alt by (rewrite done_slots_length; lia).
  rewrite done_slots_length by lia. rewrite Nat.sub_diag.
  rewrite (drop_S _ _ _ Hc). simpl.
  rewrite (take_S_r _ _ _ Hc), map_app. simpl. by rewrite <- app_assoc.
Qed.

(** *** The loop of [init_channels] *)

Lemma clear_loop (s : statics) (t : list event) (n : nat) :
  length (channels (data s)) = Z.to_nat MAX_CHANNELS ->
  (n <= length (channels (data s)))%nat ->
  for_loop n 0 (fun i => set_chunk i None) (World s t) =
  Returns tt
    (World (with_channels s (map clear_chunk (take n (channels (data s)))
                             ++ drop n (channels (data s)))) t).
Proof.
  intros Hlen Hn.
  pose proof (for_loop_explicit (fun i => set_chunk i None)
    (fun i => World (with_channels s (map clear_chunk (take i (channels (data s)))
                                      ++ drop i (channels (data s)))) t)
    n 0) as Hloop.
  simpl in Hloop. rewrite with_channels_id in Hloop. apply Hloop.
  intros i Hi.
  destruct (lookup_lt_is_Some_2 (channels (data s)) i ltac:(lia)) as [c Hc].
  rewrite (set_chunk_inside i c); simpl.
  - rewrite <- (insert_next_slot clear_chunk _ _ _ Hc). reflexivity.
  - unfold MAX_CHANNELS in *. lia.
  - by apply lookup_next_slot.
Qed.

(** *** The loop of [sound_device_close] *)

Lemma release_all_snoc (table : list sound_channel) (c : sound_channel) :
  release_all (table ++ [c]) = release_all table ++ release_events (length table) c.
Proof.
  unfold release_all. rewrite imap_app, concat_app. simpl.
  by rewrite Nat.add_0_r, app_nil_r.
Qed.

Lemma clear_chunk_empty (c : sound_channel) : chunk c = None -> clear_chunk c = c.
Proof. destruct c as [name ch]. simpl. by intros ->. Qed.

Lemma release_loop (s : statics) (t : list event) (n : nat) :
  initialized (data s) <> 0 ->
  length (channels (data s)) = Z.to_nat MAX_CHANNELS ->
  (n <= length (channels (data s)))%nat ->
  for_loop n 0 sound_device_stop_channel (World s t) =
  Returns tt
    (World (with_channels s (map clear_chunk (take n (channels (data s)))
                             ++ drop n (channels (data s))))
           (t ++ release_all (take n (channels (data s))))).
Proof.
  intros Hinit Hlen Hn.
  pose proof (for_loop_explicit sound_device_stop_channel
    (fun i => World (with_channels s (map clear_chunk (take i (channels (data s)))
                                      ++ drop i (channels (data s))))
                    (t ++ release_all (take i (channels (data s)))))
    n 0) as Hloop.
  simpl in Hloop. rewrite with_channels_id, app_nil_r in Hloop. apply Hloop.
  intros i Hi.
  destruct (lookup_lt_is_Some_2 (channels (data s)) i ltac:(lia)) as [c Hc].
  assert (Z.of_nat i < MAX_CHANNELS) as Hi' by (unfold MAX_CHANNELS in *; lia).
  rewrite (take_S_r _ _ _ Hc), release_all_snoc, length_take_le by lia.
  rewrite <- (take_S_r _ _ _ Hc).
  unfold sound_device_stop_channel, bind at 1, get at 1. simpl.
  destruct (Z.eqb_spec (initialized (data s)) 0) as [|_]; [done|]. simpl.
  unfold bind at 1.
  rewrite (read_channel_inside i c) by (try done; by apply lookup_next_slot).
  unfold release_events. destruct (chunk c) as [h|] eqn:Hchunk.
  - unfold bind at 1, emit at 1. unfold bind at 1, emit at 1. simpl.
    rewrite (set_chunk_inside i c) by (try done; by apply lookup_next_slot). simpl.
    rewrite <- (insert_next_slot clear_chunk _ _ _ Hc).
    rewrite <- !app_assoc. reflexivity.
  - unfold ret. rewrite app_nil_r.
    rewrite <- (insert_next_slot clear_chunk _ _ _ Hc).
    rewrite (clear_chunk_empty c Hchunk).
    rewrite list_insert_id; [done|]. by apply lookup_next_slot.
Qed.

(** *** What the operations leave alone *)

Create HintDb sound_code.
#[local] Hint Unfold
  sound_device_play_file_on_channel sound_device_play_channel
  sound_device_play_channel_panned sound_device_play_music load_music
  load_music_for_vita sound_device_stop_music sound_device_init_channels
  sound_device_is_channel_playing sound_device_set_channel_volume
  sound_device_set_music_volume sound_device_stop_channel load_channel load_chunk
  SDL_RWFromFP stdio_close stdio_seek stdio_read stdio_write
  sound_device_use_custom_music_player sound_device_write_custom_music_data
  sound_device_use_default_music_player run_music_hook custom_music_callback
  get_custom_audio_stream put_custom_audio_stream create_custom_audio_stream
  free_custom_audio_stream custom_audio_stream_active set_chunk set_filename
  write_channel read_channel read_filename set_music set_stream set_format
  set_dst_format set_data set_custom_music set_vita_music_data discard
  : sound_code.

Ltac keeps_tac := repeat autounfold with sound_code; repeat keeps_step.

(** Only [sound_device_open] and [sound_device_close] write
    [data.initialized]. *)
Lemma run_keeps_initialized (o : op) :
  o <> op_open -> o <> op_close ->
  keeps (fun s => initialized (data s)) True (run T L o).
Proof. intros Ho Hc. destruct o; try done; simpl; keeps_tac. Qed.

(** The operations that do not look at [data.initialized] do not write
    [data] at all. *)
Lemma run_keeps_data (o : op) :
  unguarded o = true -> keeps data True (run T L o).
Proof. intros Ho. destruct o; try done; simpl; keeps_tac. Qed.

Lemma keeps_returns {A X} (f : statics -> X) (m : M A) (w : W) :
  keeps f False m -> exists a w', m w = Returns a w' /\ f (state w') = f (state w).
Proof. intros Hm. specialize (Hm w). by apply triple_returns in Hm. Qed.

Lemma release_all_frees (table : list sound_channel) (h : handle) :
  Mix_FreeChunk h ∈ release_all table <->
  exists i c, table !! i = Some c /\ chunk c = Some h.
Proof.
  induction table as [|c table IH] using rev_ind.
  - split; [by intros ?%elem_of_nil|]. by intros (i & c & ? & _).
  - rewrite release_all_snoc, elem_of_app, IH. split.
    + intros [(i & c' & Hi & Hc) | Hin].
      * exists i, c'. split; [|done]. by apply lookup_app_l_Some.
      * exists (length table), c. rewrite lookup_app_r, Nat.sub_diag by lia.
        split; [done|]. unfold release_events in Hin.
        destruct (chunk c) as [h'|]; [|by apply elem_of_nil in Hin].
        apply elem_of_cons in Hin as [|Hin]; [done|].
        apply list_elem_of_singleton in Hin. by injection Hin as ->.
    + intros (i & c' & Hi & Hc).
      apply lookup_app_Some in Hi as [Hi | [Hlen Hi]].
      * left. by exists i, c'.
      * right. destruct (i - length table)%nat; [|done]. injection Hi as ->.
        unfold release_events. rewrite Hc. set_solver.
Qed.

Lemma close_open_device (w : W) :
  table_ok w ->
  initialized (data (state w)) <> 0 ->
  sound_device_close w =
  Returns tt
    (World (Statics (Data 0 (music (data (state w)))
                          (map clear_chunk (channels (data (state w)))))
                    (custom_music (state w)) (vita_music_data (state w)))
           (trace w ++ release_all (channels (data (state w))) ++ [Mix_CloseAudio])).
Proof.
  intros Hw Hi. unfold sound_device_close, bind at 1, get at 1.
  destruct (Z.eqb_spec (initialized (data (state w))) 0) as [|_]; [done|].
  cbn [negb]. unfold bind at 1, for_lt. destruct w as [s t].
  unfold table_ok in Hw. cbn [state trace] in *.
  rewrite release_loop by (try done; lia).
  rewrite take_ge, drop_ge by lia. rewrite app_nil_r.
  unfold bind, emit, set_initialized, set_data, modify. simpl.
  by rewrite <- app_assoc.
Qed.

Lemma close_closed_device (w : W) :
  initialized (data (state w)) = 0 -> sound_device_close w = Returns tt w.
Proof. intros Hi. unfold sound_device_close, bind, get. by rewrite Hi. Qed.

Lemma open_flag (w w' : W) :
  sound_device_open L w = Returns tt w' ->
  state w' = state w \/ initialized (data (state w')) = 1.
Proof.
  unfold sound_device_open, bind at 1, extern at 1.
  destruct (on_Mix_OpenAudio L 0 _ (trace w)).
  - intros Hrun. right.
    unfold init_channels, set_initialized, set_data, bind at 1, modify in Hrun.
    eapply (keeps_run (fun s => initialized (data s)) True) in Hrun; [exact Hrun|].
    keeps_tac.
  - intros Hrun. left.
    eapply (keeps_run (fun s => s) True) in Hrun; [exact Hrun|].
    repeat keeps_step.
Qed.

(** On a device that is not open, the operations guarded by
    [data.initialized] return at once. *)
Lemma run_closed_noop (o : op) (w : W) :
  initialized (data (state w)) = 0 ->
  unguarded o = false -> o <> op_open ->
  run T L o w = Returns tt w.
Proof.
  intros Hi Hu Ho. destruct o; try done; simpl;
    unfold discard, sound_device_close, sound_device_init_channels,
      sound_device_play_music, sound_device_play_file_on_channel,
      sound_device_play_channel, sound_device_play_channel_panned,
      sound_device_stop_music, sound_device_stop_channel, bind, get;
    by rewrite Hi.
Qed.

Lemma run_closed_silent (o : op) (w w' : W) :
  Inv w -> closed_silent w -> run T L o w = Returns tt w' -> closed_silent w'.
Proof.
  intros (Hw & _) Hsilent Hrun.
  destruct (decide (initialized (data (state w)) = 0)) as [Hi|Hi].
  - destruct (unguarded o) eqn:Hu.
    + pose proof (keeps_run data True _ _ _ _ (run_keeps_data o Hu) Hrun) as Hdata.
      unfold closed_silent in *. rewrite Hdata. exact Hsilent.
    + destruct o; try discriminate Hu;
        try (rewrite run_closed_noop in Hrun by done; by injection Hrun as <-).
      destruct (open_flag _ _ Hrun) as [Hst | Hone].
      * unfold closed_silent in *. by rewrite Hst.
      * intros Hzero. rewrite Hone in Hzero. discriminate.
  - destruct o;
      try (match type of Hrun with
           | run _ _ ?o' _ = _ =>
               pose proof (keeps_run (fun s => initialized (data s)) True _ _ _ _
                             (run_keeps_initialized o' ltac:(done) ltac:(done)) Hrun)
                 as Hsame
           end; simpl in Hsame; intros Hzero; congruence).
    + destruct (open_flag _ _ Hrun) as [Hst | Hone].
      * intros Hzero. rewrite Hst in Hzero. done.
      * intros Hzero. rewrite Hone in Hzero. discriminate.
    + simpl in Hrun. rewrite close_open_device in Hrun by done.
      injection Hrun as <-. intros _. simpl.
      apply Forall_forall. intros c Hc. apply list_elem_of_fmap in Hc as (c0 & -> & _).
      reflexivity.
Qed.

Lemma reachable_closed_silent (w : W) : reachable T L w -> closed_silent w.
Proof.
  intros [os Hrun].
  assert (forall w0, Inv w0 -> closed_silent w0 ->
                     run_all T L os w0 = Returns tt w -> closed_silent w) as Hall.
  { clear Hrun. induction os as [|o os IH]; intros w0 HI Hs Hrun; simpl in Hrun.
    - by injection Hrun as <-.
    - unfold bind in Hrun. destruct (run T L o w0) as [[] w1|] eqn:Ho; [|done].
      eapply IH; [|  |exact Hrun].
      + by eapply run_Inv.
      + by eapply run_closed_silent. }
  eapply Hall; [apply initial_Inv| |exact Hrun].
  intros _. unfold initial. cbn [state data channels]. by apply Forall_replicate.
Qed.

(** X1. [sound_device_open]: when the mixer opens, with the fixed format
    (22050 Hz, S16LE, 2 channels), the device is marked initialized and every
    slot loses its chunk while it keeps its file name, the music handle and
    the custom-music state stay, and no other call is made; when the mixer
    does not open, the function only logs: the statics are what they were,
    so the device is no more initialized than before. *)
Theorem open_marks_initialized_only_on_success (w : W) :
  table_ok w ->
  let spec := AudioSpec AUDIO_RATE (SDL_AUDIO_S16LE L) AUDIO_CHANNELS in
  (on_Mix_OpenAudio L 0 spec (trace w) = true ->
     sound_device_open L w =
     Returns tt
       (World (Statics (Data 1 (music (data (state w)))
                             (map clear_chunk (channels (data (state w)))))
                       (custom_music (state w)) (vita_music_data (state w)))
              (trace w ++ [Mix_OpenAudio 0 spec true]))) /\
  (on_Mix_OpenAudio L 0 spec (trace w) = false ->
     exists w', sound_device_open L w = Returns tt w' /\ state w' = state w).
Proof.
  intros Hw spec. split; intros Hopen.
  - unfold sound_device_open, AUDIO_FORMAT, bind at 1, extern at 1. fold spec.
    rewrite Hopen. unfold init_channels, set_initialized, set_data, bind at 1, modify.
    unfold for_lt. rewrite clear_loop; simpl; [|exact Hw|unfold table_ok in Hw; lia].
    unfold table_ok in Hw. rewrite take_ge, drop_ge by lia.
    by rewrite app_nil_r.
  - unfold sound_device_open, AUDIO_FORMAT, bind at 1, extern at 1. fold spec.
    rewrite Hopen.
    match goal with
    | |- exists w', ?m ?w0 = _ /\ _ =>
        destruct (keeps_returns (fun s => s) m w0) as ([] & w' & Hrun & Hstate)
    end.
    { repeat keeps_step. }
    exists w'. by split.
Qed.

(** X2. [sound_device_close] on an open device gives up the chunk of every
    slot that has one, slot after slot, by [Mix_HaltChannel] and
    [Mix_FreeChunk], then closes the mixer and clears the flag: every chunk
    that was stored is freed, the file names stay, and the music handle is
    neither halted nor freed nor cleared.  On a device that is not open it
    does nothing, so closing twice is closing once. *)
Theorem close_releases_every_chunk (w : W) :
  table_ok w ->
  (initialized (data (state w)) <> 0 ->
     sound_device_close w =
     Returns tt
       (World (Statics (Data 0 (music (data (state w)))
                             (map clear_chunk (channels (data (state w)))))
                       (custom_music (state w)) (vita_music_data (state w)))
              (trace w ++ release_all (channels (data (state w))) ++ [Mix_CloseAudio]))) /\
  (initialized (data (state w)) = 0 -> sound_device_close w = Returns tt w) /\
  (forall w', sound_device_close w = Returns tt w' ->
              sound_device_close w' = Returns tt w') /\
  (forall h, Mix_FreeChunk h ∈ release_all (channels (data (state w))) <->
             exists i c, channels (data (state w)) !! i = Some c /\ chunk c = Some h).
Proof.
  intros Hw.
  pose proof (close_open_device w Hw) as Hopen.
  pose proof (close_closed_device w) as Hclosed.
  split; [exact Hopen|]. split; [exact Hclosed|]. split; [|apply release_all_frees].
  intros w' Hrun.
  destruct (decide (initialized (data (state w)) = 0)) as [Hi|Hi].
  - rewrite Hclosed in Hrun by done. injection Hrun as <-. by apply Hclosed.
  - rewrite Hopen in Hrun by done. injection Hrun as <-. reflexivity.
Qed.

(** X3. A device that is not open is silent.  In every state the file can
    reach, while [data.initialized] is 0 no slot holds a chunk; so, with a
    channel number inside the table, [sound_device_is_channel_playing]
    answers 0 and [sound_device_set_channel_volume] returns, both without a
    call to the mixer, and every operation guarded by the flag (init of the
    channels, the three plays, the two stops, play and stop of the music,
    close) returns having changed nothing and called nothing. *)
Theorem closed_device_is_silent (channel volume_pct : Z) (w : W) :
  reachable T L w ->
  initialized (data (state w)) = 0 ->
  0 <= channel < MAX_CHANNELS ->
  Forall (fun c => chunk c = None) (channels (data (state w))) /\
  sound_device_is_channel_playing L channel w = Returns 0 w /\
  sound_device_set_channel_volume L channel volume_pct w = Returns tt w /\
  (forall o, unguarded o = false -> o <> op_open -> run T L o w = Returns tt w).
Proof.
  intros Hreach Hi Hch.
  pose proof (reachable_closed_silent w Hreach Hi) as Hnone.
  pose proof (reachable_Inv w Hreach) as (Hw & _).
  split; [exact Hnone|].
  destruct (lookup_lt_is_Some_2 (channels (data (state w))) (Z.to_nat channel))
    as [c Hc].
  { unfold table_ok in Hw. lia. }
  assert (chunk c = None) as Hchunk.
  { rewrite Forall_forall in Hnone. apply Hnone. by eapply list_elem_of_lookup_2. }
  assert (read_channel channel w = Returns c w) as Hread.
  { rewrite <- (Z2Nat.id channel) by lia. apply read_channel_inside; [lia|done]. }
  split; [|split].
  - unfold sound_device_is_channel_playing, bind. by rewrite Hread, Hchunk.
  - unfold sound_device_set_channel_volume, bind. by rewrite Hread, Hchunk.
  - intros o Hu Ho. by apply run_closed_noop.
Qed.

(** *** Filling the table *)

(** X4. [sound_device_init_channels] on an open device, for any count:
    it allocates [min(num_channels, 150)] channels and rewrites that many
    slots from the front, each to the file name of the same index (none for
    an empty name) and no chunk; the slots behind keep name and chunk; a
    chunk that a rewritten slot held is dropped, not freed; a count of 0 or
    less rewrites nothing.  When the array of names is shorter than the
    count, the loop reads it one past its end. *)
Theorem init_channels_fills_prefix
    (num_channels : Z) (filenames : list string) (w : W) :
  table_ok w ->
  initialized (data (state w)) <> 0 ->
  let n := Z.to_nat (Z.min num_channels MAX_CHANNELS) in
  let t1 := trace w ++ [Mix_AllocateChannels (Z.min num_channels MAX_CHANNELS);
                        log_info "Loading audio files" None 0] in
  ((n <= length filenames)%nat ->
     sound_device_init_channels num_channels filenames w =
     Returns tt
       (World (with_channels (state w)
                 (map slot_of (take n filenames) ++ drop n (channels (data (state w)))))
              t1)) /\
  ((length filenames < n)%nat ->
     exists w',
       sound_device_init_channels num_channels filenames w =
       OutOfBounds "filenames" (Z.of_nat (length filenames)) w' /\
       trace w' = t1).
Proof.
  intros Hw Hi n t1.
  assert (sound_device_init_channels num_channels filenames w =
          for_loop n 0 (fun i =>
            let* _ := set_chunk i None in
            let* name := read_filename filenames i in
            set_filename i (if nonempty name then Some name else None))
            (World (state w) t1)) as Hcode.
  { unfold sound_device_init_channels, bind at 1, get at 1.
    destruct (Z.eqb_spec (initialized (data (state w))) 0) as [|_]; [done|].
    cbn [negb]. unfold bind at 1, emit at 1. unfold bind at 1, emit at 1.
    cbn [state trace]. unfold for_lt. subst n t1. rewrite <- app_assoc.
    by destruct (Z.gtb_spec num_channels MAX_CHANNELS);
      [rewrite Z.min_r by lia | rewrite Z.min_l by lia]. }
  assert (n <= Z.to_nat MAX_CHANNELS)%nat as Hn by (subst n; lia).
  unfold table_ok in Hw.
  split; intros Hnames; rewrite Hcode.
  - apply init_loop; [exact Hw|lia|exact Hnames].
  - pose proof (for_loop_faults
      (fun i =>
         let* _ := set_chunk i None in
         let* name := read_filename filenames i in
         set_filename i (if nonempty name then Some name else None))
      (fun i => World (with_channels (state w)
                         (map slot_of (take i filenames)
                          ++ drop i (channels (data (state w))))) t1)
      n 0 (length filenames)) as Hloop.
    simpl in Hloop. rewrite with_channels_id in Hloop.
    assert (length filenames < length (channels (data (state w))))%nat as Hlt' by lia.
    destruct (lookup_lt_is_Some_2 (channels (data (state w))) (length filenames) Hlt')
      as [c Hc].
    eexists. split.
    + apply Hloop; [exact Hnames| |].
      * intros i Hlt. apply (init_slot filenames (channels (data (state w))));
          [exact Hw|lia|lia].
      * assert ((map slot_of (take (length filenames) filenames)
                 ++ drop (length filenames) (channels (data (state w))))
                !! length filenames = Some c) as Hslot.
        { rewrite lookup_app_r by (rewrite length_map, length_take; lia).
          rewrite length_map, length_take, Nat.min_id, Nat.sub_diag, lookup_drop.
          by rewrite Nat.add_0_r. }
        unfold bind at 1.
        rewrite (set_chunk_inside (length filenames) c);
          [|unfold MAX_CHANNELS in *; lia|exact Hslot].
        unfold bind at 1, read_filename.
        destruct (Z.leb_spec 0 (Z.of_nat (length filenames))); [|lia].
        rewrite Nat2Z.id, (lookup_ge_None_2 filenames) by lia.
        unfold fault. reflexivity.
    + reflexivity.
Qed.

(** *** Loading and starting chunks *)

Lemma keeps_state_returns {A} (m : M A) (w : W) :
  keeps (fun s => s) False m ->
  exists a w', m w = Returns a w' /\ state w' = state w.
Proof. apply keeps_returns. Qed.

Lemma load_chunk_returns (name : string) (w : W) :
  exists r w1, load_chunk T L name w = Returns r w1 /\ state w1 = state w.
Proof. apply keeps_state_returns. keeps_tac. Qed.

Lemma SDL_RWFromFP_returns (f : handle) (auto : bool) (w : W) :
  exists io w1, SDL_RWFromFP L f auto w = Returns io w1 /\ state w1 = state w.
Proof. apply keeps_state_returns. keeps_tac. Qed.

Lemma nonempty_true (name : string) : name <> "" -> nonempty name = true.
Proof. by destruct name. Qed.

(** X5. [load_chunk]: an empty file name gives NULL without any call.
    Otherwise the desktop build asks the mixer to load the file by name and
    returns what it answers; the Android and Vita builds open the file
    themselves, give NULL without a call to the mixer when it does not open,
    and else hand the mixer the stream of [SDL_RWFromFP], whatever that
    returned, and return what the mixer answers.  The statics are never
    touched. *)
Theorem load_chunk_paths (name : string) (w : W) :
  (name = "" -> load_chunk T L name w = Returns None w) /\
  (name <> "" -> T = Desktop ->
     let r := on_Mix_LoadWAV L name (trace w) in
     load_chunk T L name w =
     Returns r (World (state w) (trace w ++ [Mix_LoadWAV name r]))) /\
  (name <> "" -> T <> Desktop ->
     on_file_open L name "rb" (trace w) = None ->
     load_chunk T L name w =
     Returns None (World (state w) (trace w ++ [file_open name "rb" None]))) /\
  (name <> "" -> T <> Desktop ->
     forall f, on_file_open L name "rb" (trace w) = Some f ->
     exists io w1,
       SDL_RWFromFP L f true
         (World (state w) (trace w ++ [file_open name "rb" (Some f)]))
       = Returns io w1 /\
       state w1 = state w /\
       let r := on_Mix_LoadWAV_IO L io 1 (trace w1) in
       load_chunk T L name w =
       Returns r (World (state w) (trace w1 ++ [Mix_LoadWAV_IO io 1 r]))).
Proof.
  split; [|split; [|split]].
  - intros ->. reflexivity.
  - intros Hne HT r. unfold load_chunk. rewrite (nonempty_true _ Hne), HT. reflexivity.
  - intros Hne HT Hopen. unfold load_chunk. rewrite (nonempty_true _ Hne).
    assert (bind (extern (on_file_open L name "rb") (file_open name "rb"))
              (fun f => match f with
                        | Some f => let* sdl_fp := SDL_RWFromFP L f true in
                                    extern (on_Mix_LoadWAV_IO L sdl_fp 1)
                                           (Mix_LoadWAV_IO sdl_fp 1)
                        | None => ret None
                        end) w
            = Returns None (World (state w) (trace w ++ [file_open name "rb" None])))
      as Hrun.
    { unfold bind, extern. by rewrite Hopen. }
    by destruct T.
  - intros Hne HT f Hopen.
    destruct (SDL_RWFromFP_returns f true
                (World (state w) (trace w ++ [file_open name "rb" (Some f)])))
      as (io & w1 & Hio & Hst).
    exists io, w1. split; [exact Hio|]. split; [exact Hst|]. intros r.
    unfold load_chunk. rewrite (nonempty_true _ Hne).
    assert (bind (extern (on_file_open L name "rb") (file_open name "rb"))
              (fun f => match f with
                        | Some f => let* sdl_fp := SDL_RWFromFP L f true in
                                    extern (on_Mix_LoadWAV_IO L sdl_fp 1)
                                           (Mix_LoadWAV_IO sdl_fp 1)
                        | None => ret None
                        end) w
            = Returns r (World (state w) (trace w1 ++ [Mix_LoadWAV_IO io 1 r])))
      as Hrun.
    { unfold bind at 1, extern at 1. rewrite Hopen. unfold bind. rewrite Hio.
      unfold extern. simpl in Hst. by rewrite Hst. }
    by destruct T.
Qed.

Lemma read_channel_Z (channel : Z) (c : sound_channel) (w : W) :
  0 <= channel < MAX_CHANNELS ->
  channels (data (state w)) !! Z.to_nat channel = Some c ->
  read_channel channel w = Returns c w.
Proof.
  intros Hch Hc. rewrite <- (Z2Nat.id channel) by lia.
  apply read_channel_inside; [lia|done].
Qed.

Lemma set_chunk_Z (channel : Z) (c : sound_channel) (h : option handle) (w : W) :
  0 <= channel < MAX_CHANNELS ->
  channels (data (state w)) !! Z.to_nat channel = Some c ->
  set_chunk channel h w =
  Returns tt (World (with_channels (state w)
                       (<[Z.to_nat channel := Channel (filename c) h]>
                          (channels (data (state w)))))
                    (trace w)).
Proof.
  intros Hch Hc. rewrite <- (Z2Nat.id channel) at 1 by lia.
  apply set_chunk_inside; [lia|done].
Qed.

(** Volume, then start, of the chunk a slot holds. *)
Lemma start_slot (channel volume_pct : Z) (c : sound_channel) (w : W) :
  0 <= channel < MAX_CHANNELS ->
  channels (data (state w)) !! Z.to_nat channel = Some c ->
  (let* _ := sound_device_set_channel_volume L channel volume_pct in
   let* ch := read_channel channel in
   emit (Mix_PlayChannel channel (chunk ch) 0)) w =
  Returns tt
    (World (state w)
       (trace w ++
        match chunk c with
        | Some h => [Mix_VolumeChunk h (mixer_volume L volume_pct)]
        | None => []
        end ++ [Mix_PlayChannel channel (chunk c) 0])).
Proof.
  intros Hch Hc.
  unfold sound_device_set_channel_volume, bind at 1. unfold bind at 1.
  rewrite (read_channel_Z channel c) by done.
  destruct (chunk c) as [h|] eqn:Hchunk.
  - unfold emit at 1, bind at 1.
    rewrite (read_channel_Z channel c) by done.
    unfold emit. simpl. by rewrite Hchunk, <- app_assoc.
  - unfold ret at 1, bind at 1. rewrite (read_channel_Z channel c) by done.
    unfold emit. simpl. by rewrite Hchunk.
Qed.

Lemma stop_channel_slot (channel : Z) (c : sound_channel) (w : W) :
  initialized (data (state w)) <> 0 ->
  0 <= channel < MAX_CHANNELS ->
  channels (data (state w)) !! Z.to_nat channel = Some c ->
  sound_device_stop_channel channel w =
  Returns tt
    (World (with_channels (state w)
              (<[Z.to_nat channel := clear_chunk c]> (channels (data (state w)))))
           (trace w ++ release_events (Z.to_nat channel) c)).
Proof.
  intros Hi Hch Hc. unfold sound_device_stop_channel, bind at 1, get at 1.
  destruct (Z.eqb_spec (initialized (data (state w))) 0) as [|_]; [done|].
  cbn [negb]. unfold bind at 1. rewrite (read_channel_Z channel c) by done.
  unfold release_events. rewrite Z2Nat.id by lia.
  destruct (chunk c) as [h|] eqn:Hchunk.
  - unfold bind at 1, emit at 1. unfold bind at 1, emit at 1.
    rewrite (set_chunk_Z channel c) by done. simpl. by rewrite <- app_assoc.
  - unfold ret. rewrite app_nil_r, (clear_chunk_empty c Hchunk).
    rewrite list_insert_id by done. rewrite with_channels_id. by destruct w.
Qed.

Lemma load_channel_slot (channel : Z) (c : sound_channel) (w : W) :
  0 <= channel < MAX_CHANNELS ->
  channels (data (state w)) !! Z.to_nat channel = Some c ->
  match chunk c, filename c with
  | None, Some name =>
      exists r w1,
        load_chunk T L name w = Returns r w1 /\ state w1 = state w /\
        load_channel T L channel w =
        Returns (match r with Some _ => 1 | None => 0 end)
          (World (with_channels (state w)
                    (<[Z.to_nat channel := Channel (Some name) r]>
                       (channels (data (state w)))))
                 (trace w1))
  | Some _, _ => load_channel T L channel w = Returns 1 w
  | None, None => load_channel T L channel w = Returns 0 w
  end.
Proof.
  intros Hch Hc. pose proof (lookup_lt_Some _ _ _ Hc) as Hlt.
  destruct (chunk c) as [h|] eqn:Hchunk.
  - unfold load_channel, bind at 1. rewrite (read_channel_Z channel c) by done.
    rewrite Hchunk. unfold bind, ret.
    rewrite (read_channel_Z channel c) by done. by rewrite Hchunk.
  - destruct (filename c) as [name|] eqn:Hname.
    + destruct (load_chunk_returns name w) as (r & w1 & Hload & Hst).
      exists r, w1. split; [exact Hload|]. split; [exact Hst|].
      unfold load_channel, bind at 1. rewrite (read_channel_Z channel c) by done.
      rewrite Hchunk, Hname. unfold bind at 1. unfold bind at 1. rewrite Hload.
      rewrite (set_chunk_Z channel c) by (try done; by rewrite Hst).
      unfold bind. rewrite Hst, Hname.
      rewrite (read_channel_Z channel (Channel (Some name) r));
        [done|done|]. simpl. by apply list_lookup_insert_eq.
    + unfold load_channel, bind at 1. rewrite (read_channel_Z channel c) by done.
      rewrite Hchunk, Hname. unfold bind, ret.
      rewrite (read_channel_Z channel c) by done. by rewrite Hchunk.
Qed.

(** X6. [sound_device_play_channel] on an open device, with a channel
    number inside the table.  A slot that holds a chunk is started as it is:
    volume, then play, and no load.  A slot without chunk and without file
    name does nothing.  A slot without chunk but with a name is loaded first:
    the slot gets what [load_chunk] returned, and is started when that is a
    chunk; when the file does not load, nothing is started and the slot stays
    empty, to be tried again by the next call. *)
Theorem play_channel_loads_on_demand
    (channel volume_pct : Z) (c : sound_channel) (w : W) :
  initialized (data (state w)) <> 0 ->
  0 <= channel < MAX_CHANNELS ->
  channels (data (state w)) !! Z.to_nat channel = Some c ->
  (forall h, chunk c = Some h ->
     sound_device_play_channel T L channel volume_pct w =
     Returns tt (World (state w)
                   (trace w ++ start_events L channel volume_pct (Some h)))) /\
  (chunk c = None -> filename c = None ->
     sound_device_play_channel T L channel volume_pct w = Returns tt w) /\
  (forall name, chunk c = None -> filename c = Some name ->
     exists r w1,
       load_chunk T L name w = Returns r w1 /\ state w1 = state w /\
       sound_device_play_channel T L channel volume_pct w =
       Returns tt
         (World (with_channels (state w)
                   (<[Z.to_nat channel := Channel (Some name) r]>
                      (channels (data (state w)))))
                (trace w1 ++ start_events L channel volume_pct r))).
Proof.
  intros Hi Hch Hc. pose proof (lookup_lt_Some _ _ _ Hc) as Hlt.
  pose proof (load_channel_slot channel c w Hch Hc) as Hload.
  assert (sound_device_play_channel T L channel volume_pct w
          = bind (load_channel T L channel)
              (fun loaded =>
                 if negb (loaded =? 0)
                 then let* _ := sound_device_set_channel_volume L channel volume_pct in
                      let* ch := read_channel channel in
                      emit (Mix_PlayChannel channel (chunk ch) 0)
                 else ret tt) w) as ->.
  { unfold sound_device_play_channel, bind at 1, get at 1.
    by destruct (Z.eqb_spec (initialized (data (state w))) 0). }
  split; [|split].
  - intros h Hchunk. rewrite Hchunk in Hload. unfold bind at 1. rewrite Hload.
    cbn [negb Z.eqb]. rewrite (start_slot channel volume_pct c) by done.
    by rewrite Hchunk.
  - intros Hchunk Hname. rewrite Hchunk, Hname in Hload. unfold bind at 1.
    by rewrite Hload.
  - intros name Hchunk Hname. rewrite Hchunk, Hname in Hload.
    destruct Hload as (r & w1 & Hrun & Hst & Hload).
    exists r, w1. split; [exact Hrun|]. split; [exact Hst|].
    unfold bind at 1. rewrite Hload. destruct r as [h|]; cbn [negb Z.eqb].
    + rewrite (start_slot channel volume_pct (Channel (Some name) (Some h)));
        [done|done|]. simpl. by apply list_lookup_insert_eq.
    + unfold ret. simpl. by rewrite app_nil_r.
Qed.

(** X7. [sound_device_play_file_on_channel] on an open device, with a
    channel number inside the table, is not atomic: it first gives up the
    chunk the slot holds, halted and freed, and only then loads the file;
    the slot keeps its file name and gets what [load_chunk] returned, which
    is started when it is a chunk; when the file does not load the slot is
    left empty and nothing plays on the channel. *)
Theorem play_file_on_channel_replaces_chunk
    (name : string) (channel volume_pct : Z) (c : sound_channel) (w : W) :
  initialized (data (state w)) <> 0 ->
  0 <= channel < MAX_CHANNELS ->
  channels (data (state w)) !! Z.to_nat channel = Some c ->
  let w0 := World (with_channels (state w)
                     (<[Z.to_nat channel := clear_chunk c]> (channels (data (state w)))))
                  (trace w ++ release_events (Z.to_nat channel) c) in
  exists r w1,
    load_chunk T L name w0 = Returns r w1 /\ state w1 = state w0 /\
    sound_device_play_file_on_channel T L name channel volume_pct w =
    Returns tt
      (World (with_channels (state w)
                (<[Z.to_nat channel := Channel (filename c) r]>
                   (channels (data (state w)))))
             (trace w1 ++ start_events L channel volume_pct r)).
Proof.
  intros Hi Hch Hc w0. pose proof (lookup_lt_Some _ _ _ Hc) as Hlt.
  destruct (load_chunk_returns name w0) as (r & w1 & Hload & Hst).
  exists r, w1. split; [exact Hload|]. split; [exact Hst|].
  unfold sound_device_play_file_on_channel, bind at 1, get at 1.
  destruct (Z.eqb_spec (initialized (data (state w))) 0) as [|_]; [done|].
  cbn [negb]. unfold bind at 1. rewrite (stop_channel_slot channel c) by done.
  fold w0. unfold bind at 1. rewrite Hload.
  assert (channels (data (state w1)) !! Z.to_nat channel = Some (clear_chunk c)) as Hc1.
  { rewrite Hst. simpl. by apply list_lookup_insert_eq. }
  unfold bind at 1. rewrite (set_chunk_Z channel (clear_chunk c)) by done.
  rewrite Hst. simpl. rewrite list_insert_insert_eq.
  unfold bind at 1.
  rewrite (read_channel_Z channel (Channel (filename c) r));
    [|done|simpl; by apply list_lookup_insert_eq].
  simpl. destruct r as [h|].
  - rewrite (start_slot channel volume_pct (Channel (filename c) (Some h)));
      [done|done|]. simpl. by apply list_lookup_insert_eq.
  - unfold ret. simpl. by rewrite app_nil_r.
Qed.

(** X8. [sound_device_play_channel_panned] on an open device, on a slot
    that holds a chunk, with percentages whose product with 255 fits an
    [int]: the panning is set first, to the two percentages scaled by
    255/100 with truncation and converted to the [Uint8] that the mixer
    takes, then the volume, then the chunk is started.  The values handed
    over are always within 0..255; for percentages from 0 to 100 the
    conversion changes nothing and the value grows with the percentage, from
    0 for 0 to 255 for 100.  On a slot without chunk and without file name
    nothing is called, the panning included. *)
Theorem play_channel_panned_order_and_range
    (channel volume_pct left_pct right_pct : Z) (c : sound_channel) (w : W) :
  initialized (data (state w)) <> 0 ->
  0 <= channel < MAX_CHANNELS ->
  channels (data (state w)) !! Z.to_nat channel = Some c ->
  let pan pct := to_Uint8 (Z.quot (pct * 255) 100) in
  (forall h, chunk c = Some h ->
     -8421504 <= left_pct <= 8421504 -> -8421504 <= right_pct <= 8421504 ->
     sound_device_play_channel_panned T L channel volume_pct left_pct right_pct w =
     Returns tt
       (World (state w)
          (trace w ++
           Mix_SetPanning channel (pan left_pct) (pan right_pct)
           :: start_events L channel volume_pct (Some h)))) /\
  (chunk c = None -> filename c = None ->
     sound_device_play_channel_panned T L channel volume_pct left_pct right_pct w
     = Returns tt w) /\
  (forall pct, 0 <= pan pct <= 255) /\
  (forall pct, 0 <= pct <= 100 -> pan pct = Z.quot (pct * 255) 100) /\
  (forall p q, 0 <= p <= q -> q <= 100 -> pan p <= pan q) /\
  pan 0 = 0 /\ pan 100 = 255.
Proof.
  intros Hi Hch Hc pan.
  pose proof (load_channel_slot channel c w Hch Hc) as Hload.
  assert (sound_device_play_channel_panned T L channel volume_pct left_pct right_pct w
          = bind (load_channel T L channel)
              (fun loaded =>
                 if negb (loaded =? 0)
                 then let* _ := emit (Mix_SetPanning channel (pan left_pct)
                                                     (pan right_pct)) in
                      let* _ := sound_device_set_channel_volume L channel volume_pct in
                      let* ch := read_channel channel in
                      emit (Mix_PlayChannel channel (chunk ch) 0)
                 else ret tt) w) as ->.
  { unfold sound_device_play_channel_panned, bind at 1, get at 1.
    by destruct (Z.eqb_spec (initialized (data (state w))) 0). }
  assert (forall pct, 0 <= pct <= 100 -> pan pct = Z.quot (pct * 255) 100) as Hsmall.
  { intros pct Hpct. unfold pan, to_Uint8. apply Z.mod_small. split.
    - apply Z.quot_pos; lia.
    - apply Z.quot_lt_upper_bound; lia. }
  split; [|split; [|split; [|split; [|split; [|split]]]]].
  - intros h Hchunk _ _. rewrite Hchunk in Hload. unfold bind at 1. rewrite Hload.
    cbn [negb Z.eqb]. unfold bind at 1, emit at 1.
    rewrite (start_slot channel volume_pct c) by done.
    simpl. rewrite Hchunk. by rewrite <- app_assoc.
  - intros Hchunk Hname. rewrite Hchunk, Hname in Hload. unfold bind at 1.
    by rewrite Hload.
  - intros pct. unfold pan, to_Uint8.
    pose proof (Z.mod_pos_bound (Z.quot (pct * 255) 100) 256). lia.
  - exact Hsmall.
  - intros p q Hp Hq. rewrite !Hsmall by lia. apply Z.quot_le_mono; lia.
  - reflexivity.
  - reflexivity.
Qed.

(** *** The stream shims *)

(** X9. [stdio_read] and [stdio_write] return the count that [fread] and
    [fwrite] answered, whatever it is; they ask for the error flag of the
    stream only after a count of 0, and set the error message only when that
    flag is set.  [stdio_close] closes the file only when [autoclose] is set,
    and reports failure exactly when [fclose] does.  None of them touches
    the statics. *)
Theorem stdio_shims_report (u : IOStreamStdioFPData) (sz : Z) (w : W) :
  let n := on_fread L (fp u) sz (trace w) in
  let t1 := trace w ++ [fread (fp u) sz n] in
  let e := on_ferror L (fp u) t1 in
  let m := on_fwrite L (fp u) sz (trace w) in
  let t2 := trace w ++ [fwrite (fp u) sz m] in
  let e2 := on_ferror L (fp u) t2 in
  let r := on_fclose L (fp u) (trace w) in
  (n <> 0 -> stdio_read L u sz w = Returns n (World (state w) t1)) /\
  (n = 0 -> e = 0 ->
     stdio_read L u sz w = Returns 0 (World (state w) (t1 ++ [ferror (fp u) 0]))) /\
  (n = 0 -> e <> 0 ->
     stdio_read L u sz w =
     Returns 0 (World (state w)
                  (t1 ++ [ferror (fp u) e; SDL_SetError "Couldn't read stream"]))) /\
  (m <> 0 -> stdio_write L u sz w = Returns m (World (state w) t2)) /\
  (m = 0 -> e2 = 0 ->
     stdio_write L u sz w = Returns 0 (World (state w) (t2 ++ [ferror (fp u) 0]))) /\
  (m = 0 -> e2 <> 0 ->
     stdio_write L u sz w =
     Returns 0 (World (state w)
                  (t2 ++ [ferror (fp u) e2; SDL_SetError "Couldn't write stream"]))) /\
  (autoclose u = false -> stdio_close L u w = Returns true w) /\
  (autoclose u = true -> r = 0 ->
     stdio_close L u w = Returns true (World (state w) (trace w ++ [fclose (fp u) 0]))) /\
  (autoclose u = true -> r <> 0 ->
     stdio_close L u w =
     Returns false (World (state w)
                      (trace w ++ [fclose (fp u) r;
                                   SDL_SetError "Couldn't close stream"]))).
Proof.
  cbv zeta.
  unfold stdio_read, stdio_write, stdio_close.
  repeat split.
  - intros Hn. run_prog. by match goal with |- context [Z.eqb ?a 0] => destruct (Z.eqb_spec a 0) end.
  - intros Hn He. rewrite Hn in He. run_prog. rewrite Hn. simpl. rewrite He.
    simpl. by rewrite <- ?app_assoc.
  - intros Hn He. rewrite Hn in He. run_prog. rewrite Hn. simpl.
    match goal with |- context [Z.eqb ?a 0] => destruct (Z.eqb_spec a 0); [done|] end. simpl. by rewrite <- ?app_assoc.
  - intros Hn. run_prog. by match goal with |- context [Z.eqb ?a 0] => destruct (Z.eqb_spec a 0) end.
  - intros Hn He. rewrite Hn in He. run_prog. rewrite Hn. simpl. rewrite He.
    simpl. by rewrite <- ?app_assoc.
  - intros Hn He. rewrite Hn in He. run_prog. rewrite Hn. simpl.
    match goal with |- context [Z.eqb ?a 0] => destruct (Z.eqb_spec a 0); [done|] end. simpl. by rewrite <- ?app_assoc.
  - by intros ->.
  - intros -> Hr. run_prog. by rewrite Hr.
  - intros -> Hr. run_prog. match goal with |- context [Z.eqb ?a 0] => destruct (Z.eqb_spec a 0); [done|] end. simpl.
    by rewrite <- ?app_assoc.
Qed.

(** X10. [SDL_RWFromFP]: when [SDL_malloc] gives NULL the result is NULL and
    nothing else is called, so the file stays open even with [autoclose];
    otherwise the stream is opened over the four shims with the file and the
    flag as its data, and is returned when it is not NULL; when [SDL_OpenIO]
    gives NULL, [stdio_close] runs on the data (closing the file exactly when
    [autoclose] is set) and the result is NULL. *)
Theorem SDL_RWFromFP_paths (f : handle) (auto : bool) (w : W) :
  let t1 q := trace w ++ [SDL_malloc q] in
  let iface := IOInterface (Some fn_stdio_seek) (Some fn_stdio_read)
                           (Some fn_stdio_write) (Some fn_stdio_close) in
  let u := StdioFPData f auto in
  let t2 q io := t1 (Some q) ++ [SDL_OpenIO iface q u io] in
  (on_SDL_malloc L (trace w) = None ->
     SDL_RWFromFP L f auto w = Returns None (World (state w) (t1 None))) /\
  (forall q s,
     on_SDL_malloc L (trace w) = Some q ->
     on_SDL_OpenIO L iface q (t1 (Some q)) = Some s ->
     SDL_RWFromFP L f auto w = Returns (Some s) (World (state w) (t2 q (Some s)))) /\
  (forall q,
     on_SDL_malloc L (trace w) = Some q ->
     on_SDL_OpenIO L iface q (t1 (Some q)) = None ->
     exists b w',
       stdio_close L u (World (state w) (t2 q None)) = Returns b w' /\
       SDL_RWFromFP L f auto w = Returns None w' /\
       state w' = state w /\
       (auto = false -> w' = World (state w) (t2 q None)) /\
       (auto = true ->
        exists r, trace w' = t2 q None ++ [fclose f r] ++
                             (if r =? 0 then []
                              else [SDL_SetError "Couldn't close stream"]))).
Proof.
  cbv zeta. unfold SDL_RWFromFP. repeat split.
  - intros Hp. run_prog. by rewrite Hp.
  - intros q s Hp Hio. run_prog. rewrite Hp. simpl. rewrite Hio. simpl.
    by rewrite <- ?app_assoc.
  - intros q Hp Hio. run_prog. rewrite Hp. simpl. rewrite Hio. simpl.
    unfold stdio_close. destruct auto; run_prog.
    + match goal with |- context [Z.eqb ?a 0] => destruct (Z.eqb_spec a 0) as [Hr|Hr] end;
        simpl.
      * eexists _, _. split; [done|]. split; [done|]. split; [done|].
        split; [done|]. intros _. exists 0. simpl. by rewrite Hr.
      * eexists _, _. split; [done|]. split; [done|]. split; [done|].
        split; [done|]. intros _.
        match type of Hr with ?a <> 0 => exists a end. simpl.
        match goal with |- context [Z.eqb ?a 0] => destruct (Z.eqb_spec a 0); [done|] end.
        by rewrite <- ?app_assoc.
    + eexists _, _. split; [done|]. split; [done|]. split; [done|].
      split; [|done]. intros _. by rewrite <- ?app_assoc.
Qed.

(** *** The custom music stream, where it gives nothing *)

Lemma memset_zero_length (d : bytes) (len : Z) :
  (Z.to_nat len <= length d)%nat -> length (memset_zero d len) = length d.
Proof.
  intros Hlen. unfold memset_zero, zeros.
  rewrite length_app, length_replicate, length_drop. lia.
Qed.

Lemma memset_zero_lookup (d : bytes) (len : Z) (i : nat) :
  memset_zero d len !! i
  = if decide (i < Z.to_nat len)%nat then Some 0 else d !! i.
Proof.
  unfold memset_zero, zeros, bytes. destruct (decide _) as [Hi|Hi].
  - rewrite lookup_app_l by (rewrite length_replicate; lia).
    by apply lookup_replicate_2.
  - rewrite lookup_app_r by (rewrite length_replicate; lia).
    rewrite length_replicate, lookup_drop. f_equal. lia.
Qed.

(** X11. [put_custom_audio_stream] returns 0 without a call when there are no
    samples, no positive length or no stream.  Otherwise it hands the samples
    to the stream and returns 0 when the library reports success and 1 when
    it reports failure.  [sound_device_write_custom_music_data] makes the
    same calls and leaves the same state, and drops that result. *)
Theorem put_custom_audio_stream_result (audio_data : option bytes) (len : Z) (w : W) :
  (audio_data = None \/ len <= 0 \/ stream (custom_music (state w)) = None ->
     put_custom_audio_stream L audio_data len w = Returns 0 w /\
     sound_device_write_custom_music_data L audio_data len w = Returns tt w) /\
  (forall samples st,
     audio_data = Some samples -> 0 < len ->
     stream (custom_music (state w)) = Some st ->
     let ok := on_SDL_PutAudioStreamData L st samples len (trace w) in
     let w' := World (state w) (trace w ++ [SDL_PutAudioStreamData st samples len ok]) in
     put_custom_audio_stream L audio_data len w
       = Returns (if ok then 0 else 1) w' /\
     sound_device_write_custom_music_data L audio_data len w = Returns tt w').
Proof.
  unfold sound_device_write_custom_music_data, put_custom_audio_stream,
    custom_audio_stream_active.
  split.
  - intros Hnone. destruct w as [s t]. simpl in *. run_prog.
    destruct audio_data as [samples|]; simpl; [|done].
    destruct (Z.leb_spec len 0); simpl; [done|].
    destruct (stream (custom_music s)); simpl; [|done].
    destruct Hnone as [?|[?|?]]; [done|lia|done].
  - intros samples st -> Hlen Hst. destruct w as [s t]. simpl in *. run_prog.
    rewrite Hst. simpl.
    destruct (Z.leb_spec len 0); [lia|]. simpl. rewrite !Hst. simpl.
    by rewrite ?Hst.
Qed.

(** X12. [get_custom_audio_stream] on an output of at least [len] bytes.
    When it has nothing to give it returns 0 and leaves silence: the first
    [len] bytes of the output are zero and the rest is what it was.  That is
    so without any call when [len] is 0 or there is no stream, after the one
    failed [malloc] when the mix buffer cannot be allocated, and after the
    pull when the stream gives no bytes; in this last case the mix buffer is
    not freed.  The statics never change. *)
Theorem get_custom_audio_stream_silence (d : bytes) (len : Z) (w : W) :
  0 <= len -> (Z.to_nat len <= length d)%nat ->
  let silence := Some (memset_zero d len) in
  (len = 0 \/ stream (custom_music (state w)) = None ->
     get_custom_audio_stream L (Some d) len w = Returns (0, silence) w) /\
  (forall st,
     0 < len -> stream (custom_music (state w)) = Some st ->
     let b := on_malloc L len (trace w) in
     let t1 := trace w ++ [malloc len b] in
     let pulled := on_SDL_GetAudioStreamData L st len t1 in
     (b = None ->
        get_custom_audio_stream L (Some d) len w
        = Returns (0, silence) (World (state w) t1)) /\
     (b <> None -> pulled.1 <= 0 ->
        get_custom_audio_stream L (Some d) len w
        = Returns (0, silence)
            (World (state w)
               (t1 ++ [SDL_GetAudioStreamData st len pulled.1 pulled.2])))) /\
  (forall i : nat,
     memset_zero d len !! i
     = if decide (i < Z.to_nat len)%nat then Some 0 else d !! i) /\
  length (memset_zero d len) = length d.
Proof.
  intros Hlen0 Hfits. cbv zeta.
  unfold get_custom_audio_stream, custom_audio_stream_active.
  split; [|split; [|split]].
  - intros Hnone. destruct w as [s t]. simpl in *. run_prog.
    destruct (Z.leb_spec len 0); simpl; [done|].
    destruct (stream (custom_music s)); simpl; [|done].
    destruct Hnone; [lia|done].
  - intros st Hlen Hst. destruct w as [s t]. simpl in *.
    split.
    + intros Hb. run_prog. rewrite Hst. simpl.
      destruct (Z.leb_spec len 0); [lia|]. simpl. rewrite Hst.
      cbn [state trace]. by rewrite !Hb.
    + intros Hb Hp. run_prog. rewrite Hst. simpl.
      destruct (Z.leb_spec len 0); [lia|]. simpl. rewrite Hst.
      cbn [state trace].
      destruct (on_malloc L len t) as [b|]; [|done]. simpl.
      destruct (on_SDL_GetAudioStreamData L st len _) as [n got]. simpl in *.
      destruct (Z.leb_spec n 0); [|lia]. simpl. by rewrite <- app_assoc.
  - apply memset_zero_lookup.
  - by apply memset_zero_length.
Qed.

(** X13. When the bit depth is 8 or 16 but the stream cannot be created,
    [sound_device_use_custom_music_player] has still destroyed the stream it
    had and overwritten both stored formats; it queues nothing and does not
    touch the music hook.  In the state it leaves there is no stream, so
    writing samples does nothing and a hook installed earlier, asked for [n]
    bytes of an output that has them, gives silence. *)
Theorem use_custom_music_player_no_stream
    (bitdepth num_channels rate : Z) (audio_data : option bytes) (len : Z)
    (more : option bytes) (n : Z) (out : bytes) (w : W) :
  bitdepth = 8 \/ bitdepth = 16 ->
  let fmt := if bitdepth =? 8 then SDL_AUDIO_U8 L else SDL_AUDIO_S16 L in
  let spec := on_Mix_QuerySpec L (trace w) in
  let src := AudioSpec rate fmt (num_channels mod 256) in
  let dst := AudioSpec spec.1.1 spec.1.2 (spec.2 mod 256) in
  let t1 := trace w ++ [Mix_QuerySpec spec.1.1 spec.1.2 spec.2] ++
            destroy_events (stream (custom_music (state w))) in
  on_SDL_CreateAudioStream L src dst t1 = None ->
  let w1 := World (Statics (data (state w)) (CustomMusic fmt spec.1.2 None)
                           (vita_music_data (state w)))
                  (t1 ++ [SDL_CreateAudioStream src dst None]) in
  sound_device_use_custom_music_player L bitdepth num_channels rate audio_data len w
    = Returns tt w1 /\
  custom_audio_stream_active w1 = Returns 0 w1 /\
  sound_device_write_custom_music_data L more n w1 = Returns tt w1 /\
  (0 <= n -> (Z.to_nat n <= length out)%nat ->
   run_music_hook L fn_custom_music_callback (Some out) n w1
     = Returns (Some (memset_zero out n)) w1).
Proof.
  intros Hdepth fmt spec src dst t1 Hst w1.
  assert (format_of_bitdepth L bitdepth = Some fmt) as Hfmt.
  { unfold format_of_bitdepth. subst fmt. by destruct Hdepth as [-> | ->]. }
  split; [|split; [|split]].
  - rewrite (use_custom_music_player_spec _ _ _ _ _ fmt) by done.
    fold spec. fold src. fold dst. fold t1. rewrite Hst.
    subst w1. by rewrite app_nil_r.
  - done.
  - rewrite write_custom_music_data_spec. subst w1. simpl.
    destruct more; by rewrite app_nil_r.
  - intros _ _.
    unfold run_music_hook, custom_music_callback, get_custom_audio_stream,
      custom_audio_stream_active. subst w1. run_prog.
    by destruct (n <=? 0).
Qed.

(** *** Music that does not start *)

Ltac play_music_opened Hi :=
  unfold sound_device_play_music, bind at 1, get at 1;
  match goal with
  | |- context [Z.eqb ?a 0] => destruct (Z.eqb_spec a 0); [done|]
  end;
  cbn [negb]; unfold bind at 1; rewrite stop_music_initialized by exact Hi.

(** X14. The desktop build, on an open device, with a file name.  When
    [Mix_LoadMUS] gives NULL, the call logs "Error opening music file" with
    the library's error and returns 0.  When the track loads but
    [Mix_PlayMusic] fails, the call clears the stored handle, logs "Error
    playing music file" and returns 0 without freeing the track: the track
    stays loaded in the mixer with no handle left to it, and a later
    [sound_device_stop_music] frees nothing.  The volume is set in neither
    case. *)
Theorem play_music_desktop_failures (name : string) (volume_pct : Z) (w : W) :
  T = Desktop ->
  initialized (data (state w)) <> 0 ->
  let t0 := trace w ++ halt_events (music (data (state w))) in
  let stopped := Statics (Data (initialized (data (state w))) None
                               (channels (data (state w))))
                         (custom_music (state w)) (vita_music_data (state w)) in
  (on_Mix_LoadMUS L name t0 = None ->
     let t1 := t0 ++ [Mix_LoadMUS name None] in
     let err := on_SDL_GetError L t1 in
     sound_device_play_music T L (Some name) volume_pct w
     = Returns 0
         (World stopped
            (t1 ++ [SDL_GetError err;
                    SDL_LogWarn "Error opening music file '%s'. Reason: %s"
                      [ArgStr (Some name); ArgStr err]]))) /\
  (forall h,
     on_Mix_LoadMUS L name t0 = Some h ->
     let t1 := t0 ++ [Mix_LoadMUS name (Some h)] in
     on_Mix_PlayMusic L h (-1) t1 = false ->
     let t2 := t1 ++ [Mix_PlayMusic h (-1) false] in
     let err := on_SDL_GetError L t2 in
     let w' := World stopped
                 (t2 ++ [SDL_GetError err;
                         SDL_LogWarn "Error playing music file '%s'. Reason: %s"
                           [ArgStr (Some name); ArgStr err]]) in
     sound_device_play_music T L (Some name) volume_pct w = Returns 0 w' /\
     h ∈ tracks (mixer_of (trace w')) /\
     sound_device_stop_music w' = Returns tt w').
Proof.
  intros HT Hi t0 stopped. split.
  - intros Hload t1 err. play_music_opened Hi.
    unfold load_music. rewrite HT. run_prog. fold t0. rewrite Hload. simpl.
    subst err t1. by rewrite <- !app_assoc.
  - intros h Hload t1 Hplay t2 err w'. split; [|split].
    + play_music_opened Hi.
      unfold load_music. rewrite HT. run_prog. fold t0. rewrite Hload. simpl.
      fold t1. rewrite Hplay. simpl. subst w' err t2 t1.
      by rewrite <- !app_assoc.
    + subst w' t2 t1. cbn [trace]. rewrite !mixer_of_app. simpl. set_solver.
    + rewrite stop_music_initialized by exact Hi. subst w' stopped. simpl.
      do 2 f_equal. apply app_nil_r.
Qed.

(** X15. The Android and Vita builds, on an open device, when the file does
    not open.  [sound_device_play_music] has stopped the music that played
    and returns 0 at once: the mixer is not asked to load anything and,
    unlike the desktop build, nothing is logged.  On Vita the cached buffer
    was freed and the stored file name overwritten before the attempt. *)
Theorem play_music_file_does_not_open (name : string) (volume_pct : Z) (w : W) :
  initialized (data (state w)) <> 0 ->
  let t0 := trace w ++ halt_events (music (data (state w))) in
  let stopped := Data (initialized (data (state w))) None
                      (channels (data (state w))) in
  (T = Android ->
     on_file_open L name "rb" t0 = None ->
     sound_device_play_music T L (Some name) volume_pct w
     = Returns 0
         (World (Statics stopped (custom_music (state w)) (vita_music_data (state w)))
                (t0 ++ [file_open name "rb" None]))) /\
  (T = Vita ->
     let v := vita_music_data (state w) in
     buffer v = None \/ vita_filename v <> name ->
     let freed := match buffer v with Some b => [free (Some b)] | None => [] end in
     let fd := on_sceIoOpen L name (t0 ++ freed) in
     fd < 0 ->
     sound_device_play_music T L (Some name) volume_pct w
     = Returns 0
         (World (Statics stopped (custom_music (state w))
                   (VitaMusicData (strncpy name (FILE_NAME_MAX L - 1)) None (size v)))
                (t0 ++ freed ++ [sceIoOpen name fd]))).
Proof.
  intros Hi t0 stopped. split.
  - intros HT Hopen. play_music_opened Hi.
    unfold load_music. rewrite HT. run_prog. fold t0. by rewrite Hopen.
  - intros HT v Hmiss freed fd Hfd. play_music_opened Hi.
    unfold load_music, load_music_for_vita, set_vita_music_data. rewrite HT.
    run_prog. fold t0. fold v.
    destruct (buffer v) as [b|] eqn:Hb; simpl.
    + destruct Hmiss as [?|Hname]; [done|].
      destruct (String.eqb_spec name (vita_filename v)) as [Heq|_];
        [by rewrite Heq in Hname|].
      simpl. subst freed fd. simpl in *.
      destruct (Z.ltb_spec (on_sceIoOpen L name (t0 ++ [free (Some b)])) 0); [|lia].
      simpl. by rewrite <- !app_assoc.
    + subst freed fd. simpl in *. rewrite app_nil_r in Hfd.
      destruct (Z.ltb_spec (on_sceIoOpen L name t0) 0); [|lia].
      simpl. rewrite !Hb. simpl. by rewrite ?app_nil_r.
Qed.

(** *** The Vita music cache *)

#[local] Arguments to_int : simpl never.
#[local] Arguments to_unsigned : simpl never.

Lemma substring_all (s : string) (n : nat) :
  (String.length s <= n)%nat -> String.substring 0 n s = s.
Proof.
  revert n. induction s as [|c s IH]; intros [|n] Hn; simpl in *; try done; try lia.
  f_equal. apply IH. lia.
Qed.

Lemma substring_length_le (s : string) (n : nat) :
  (String.length (String.substring 0 n s) <= n)%nat.
Proof.
  revert n. induction s as [|c s IH]; intros [|n]; simpl; try lia.
  specialize (IH n). lia.
Qed.

Lemma strncpy_short (name : string) (n : Z) :
  Z.of_nat (String.length name) <= n -> strncpy name n = name.
Proof. intros Hn. apply substring_all. lia. Qed.

Lemma strncpy_long (name : string) (n : Z) :
  0 <= n < Z.of_nat (String.length name) -> strncpy name n <> name.
Proof.
  intros Hn Heq. pose proof (substring_length_le name (Z.to_nat n)) as Hle.
  unfold strncpy in Heq. rewrite Heq in Hle. lia.
Qed.

(** X16. [load_music_for_vita] keeps one file in memory.  With a buffer held
    and the stored name equal to the requested one it does nothing.
    Otherwise it frees the buffer it holds, stores the first
    [FILE_NAME_MAX - 1] characters of the name, and opens the file: when
    that fails no buffer is held; when it succeeds the size stored is what
    seeking to the end answered, as an [int]; the buffer is what [malloc]
    answered for that size as an unsigned number, and the file is read into
    it, in that length, and closed.  For a file of less than 2^31 bytes all
    three are the size of the file.  After a successful load with a buffer, asking
    for the same name again does nothing when the name is shorter than
    [FILE_NAME_MAX]; a longer name never matches what was stored, so it is
    loaded again each time. *)
Theorem load_music_for_vita_cache (name : string) (w : W) :
  let v := vita_music_data (state w) in
  let stored := strncpy name (FILE_NAME_MAX L - 1) in
  let freed := match buffer v with Some b => [free (Some b)] | None => [] end in
  let t1 := trace w ++ freed in
  let fd := on_sceIoOpen L name t1 in
  let t2 := t1 ++ [sceIoOpen name fd] in
  let end_offset := on_sceIoLseek L fd 0 true t2 in
  let t3 := t2 ++ [sceIoLseek fd 0 true end_offset] in
  let back := on_sceIoLseek L fd 0 false t3 in
  let t4 := t3 ++ [sceIoLseek fd 0 false back] in
  let sz := to_int end_offset in
  let len := to_unsigned sz in
  let b := on_malloc L len t4 in
  let w2 := World (Statics (data (state w)) (custom_music (state w))
                           (VitaMusicData stored b sz))
                  (t4 ++ [malloc len b; sceIoRead fd b len; sceIoClose fd]) in
  (- 2 ^ 31 <= sz < 2 ^ 31 /\ 0 <= len < 2 ^ 32 /\
   (0 <= end_offset < 2 ^ 31 -> sz = end_offset /\ len = end_offset)) /\
  (buffer v <> None -> vita_filename v = name ->
     load_music_for_vita L name w = Returns tt w) /\
  (buffer v = None \/ vita_filename v <> name ->
     (fd < 0 ->
        load_music_for_vita L name w
        = Returns tt
            (World (Statics (data (state w)) (custom_music (state w))
                            (VitaMusicData stored None (size v)))
                   t2)) /\
     (0 <= fd ->
        load_music_for_vita L name w = Returns tt w2 /\
        (b <> None -> Z.of_nat (String.length name) < FILE_NAME_MAX L ->
           load_music_for_vita L name w2 = Returns tt w2) /\
        (b <> None -> 0 < FILE_NAME_MAX L <= Z.of_nat (String.length name) ->
           exists w3 rest,
             load_music_for_vita L name w2 = Returns tt w3 /\
             trace w3 = trace w2 ++ free b :: sceIoOpen name
                                               (on_sceIoOpen L name
                                                  (trace w2 ++ [free b])) :: rest))).
Proof.
  intros v stored freed t1 fd t2 end_offset t3 back t4 sz len b w2.
  assert (buffer v = None \/ vita_filename v <> name ->
          load_music_for_vita L name w
          = if fd <? 0
            then Returns tt
                   (World (Statics (data (state w)) (custom_music (state w))
                                   (VitaMusicData stored None (size v))) t2)
            else Returns tt w2) as Hmiss.
  { intros Hm. unfold load_music_for_vita, set_vita_music_data. run_prog.
    fold v. destruct (buffer v) as [b0|] eqn:Hb; simpl.
    - destruct Hm as [?|Hname]; [done|].
      destruct (String.eqb_spec name (vita_filename v)) as [Heq|_];
        [by rewrite Heq in Hname|].
      simpl. subst w2 b len sz t4 back t3 end_offset t2 fd t1 freed stored. simpl.
      destruct (_ <? 0); simpl; by rewrite <- ?app_assoc.
    - subst w2 b len sz t4 back t3 end_offset t2 fd t1 freed stored. simpl.
      rewrite !app_nil_r. unfold v in Hb.
      destruct (_ <? 0); simpl; by rewrite <- ?app_assoc, ?Hb. }
  split; [|split].
  - unfold len, sz, to_int, to_unsigned.
    pose proof (Z.mod_pos_bound (end_offset + 2 ^ 31) (2 ^ 32)).
    pose proof (Z.mod_pos_bound ((end_offset + 2 ^ 31) mod 2 ^ 32 - 2 ^ 31) (2 ^ 32)).
    split; [lia|]. split; [lia|]. intros Hsmall.
    rewrite (Z.mod_small (end_offset + 2 ^ 31)) by lia.
    replace (end_offset + 2 ^ 31 - 2 ^ 31) with end_offset by lia.
    split; [done|]. apply Z.mod_small. lia.
  - intros Hb Hname. unfold load_music_for_vita. run_prog. fold v.
    destruct (buffer v); [|done]. rewrite Hname, String.eqb_refl. done.
  - intros Hm. specialize (Hmiss Hm). split.
    + intros Hfd. rewrite Hmiss. by destruct (Z.ltb_spec fd 0); [|lia].
    + intros Hfd. split; [|split].
      * rewrite Hmiss. by destruct (Z.ltb_spec fd 0); [lia|].
      * intros Hb Hlen. unfold load_music_for_vita. run_prog.
        destruct b as [b0|]; [|done]. simpl. subst stored.
        rewrite strncpy_short by lia. by rewrite String.eqb_refl.
      * intros Hb Hlen. destruct b as [b0|] eqn:Hbe; [|done].
        assert (stored <> name) as Hne.
        { subst stored. apply strncpy_long. lia. }
        unfold load_music_for_vita, set_vita_music_data. run_prog.
        destruct (String.eqb_spec name stored) as [Heq|_]; [by rewrite Heq in Hne|].
        simpl. clear Hmiss.
        match goal with |- context [Z.ltb ?a 0] => destruct (Z.ltb a 0) end;
          simpl; eexists _, _; (split; [reflexivity|]);
          simpl; rewrite <- ?app_assoc; simpl; reflexivity.
Qed.

(** *** The life of a slot *)

Lemma play_channel_opened (channel volume_pct : Z) (w : W) :
  initialized (data (state w)) <> 0 ->
  sound_device_play_channel T L channel volume_pct w
  = bind (load_channel T L channel)
      (fun loaded =>
         if negb (loaded =? 0)
         then let* _ := sound_device_set_channel_volume L channel volume_pct in
              let* ch := read_channel channel in
              emit (Mix_PlayChannel channel (chunk ch) 0)
         else ret tt) w.
Proof.
  intros Hi. unfold sound_device_play_channel, bind at 1, get at 1.
  by destruct (Z.eqb_spec (initialized (data (state w))) 0).
Qed.

(** X17. A slot that has a file name and no chunk, on an open device.  When
    the file loads, the first [sound_device_play_channel] stores the chunk
    in the slot and starts it; a second play finds the chunk and starts it
    again without loading anything; and [sound_device_stop_channel] halts the
    channel, frees that chunk and leaves the statics as they were before the
    first play.  Stopping once more does nothing. *)
Theorem play_channel_caches_chunk
    (channel v1 v2 : Z) (name : string) (h : handle) (w w1 : W) :
  initialized (data (state w)) <> 0 ->
  0 <= channel < MAX_CHANNELS ->
  channels (data (state w)) !! Z.to_nat channel = Some (Channel (Some name) None) ->
  load_chunk T L name w = Returns (Some h) w1 ->
  let w2 := World (with_channels (state w)
                     (<[Z.to_nat channel := Channel (Some name) (Some h)]>
                        (channels (data (state w)))))
                  (trace w1 ++ start_events L channel v1 (Some h)) in
  let w3 := World (state w2) (trace w2 ++ start_events L channel v2 (Some h)) in
  let w4 := World (state w)
                  (trace w3 ++ [Mix_HaltChannel channel; Mix_FreeChunk h]) in
  sound_device_play_channel T L channel v1 w = Returns tt w2 /\
  sound_device_play_channel T L channel v2 w2 = Returns tt w3 /\
  sound_device_stop_channel channel w3 = Returns tt w4 /\
  sound_device_stop_channel channel w4 = Returns tt w4.
Proof.
  intros Hi Hch Hc Hload w2 w3 w4.
  pose proof (lookup_lt_Some _ _ _ Hc) as Hlt.
  assert (initialized (data (state w2)) <> 0) as Hi2.
  { subst w2. by destruct w as [[[] ] ]. }
  assert (channels (data (state w2)) !! Z.to_nat channel
          = Some (Channel (Some name) (Some h))) as Hc2.
  { subst w2. simpl. by apply list_lookup_insert_eq. }
  split; [|split; [|split]].
  - rewrite play_channel_opened by done.
    destruct (load_channel_slot channel _ w Hch Hc) as (r & w1' & Hrun & Hst & Hl).
    rewrite Hload in Hrun. injection Hrun as <- <-.
    unfold bind at 1. rewrite Hl. cbn [negb Z.eqb].
    rewrite (start_slot channel v1 (Channel (Some name) (Some h)));
      [done|done|]. simpl. by apply list_lookup_insert_eq.
  - rewrite play_channel_opened by done.
    pose proof (load_channel_slot channel _ w2 Hch Hc2) as Hl. simpl in Hl.
    unfold bind at 1. rewrite Hl. cbn [negb Z.eqb].
    by rewrite (start_slot channel v2 (Channel (Some name) (Some h))).
  - rewrite (stop_channel_slot channel (Channel (Some name) (Some h))); try done.
    subst w4 w3 w2. unfold release_events, clear_chunk, with_channels.
    destruct w as [[[i m ch] cm v] t]. simpl in *.
    rewrite Z2Nat.id by lia. rewrite list_insert_insert_eq.
    by rewrite list_insert_id by done.
  - rewrite (stop_channel_slot channel (Channel (Some name) None)); try done.
    subst w4. unfold release_events, clear_chunk. simpl.
    rewrite list_insert_id by done. by rewrite with_channels_id, app_nil_r.
Qed.

(** *** Asking and setting the volume *)

Lemma mixer_volume_exact (volume_pct : Z) :
  mixer_volume L volume_pct = Z.quot (volume_pct * MIX_MAX_VOLUME L) (100 * 1).
Proof. reflexivity. Qed.

(** X18. [sound_device_is_channel_playing] asks the mixer only for a slot
    that holds a chunk, and answers 0 or 1; [sound_device_set_channel_volume]
    sets the volume of the chunk of the slot and does nothing for an empty
    slot; [sound_device_set_music_volume] calls the mixer whether the device
    is open or not.  The volume handed to the mixer for a percentage between
    0 and 100 lies between 0 and [MIX_MAX_VOLUME], grows with the
    percentage, and is 0 at 0 and [MIX_MAX_VOLUME] at 100. *)
Theorem volume_calls_and_range
    (channel volume_pct : Z) (c : sound_channel) (w : W) :
  0 <= channel < MAX_CHANNELS ->
  channels (data (state w)) !! Z.to_nat channel = Some c ->
  0 <= MIX_MAX_VOLUME L ->
  (chunk c = None ->
     sound_device_is_channel_playing L channel w = Returns 0 w /\
     sound_device_set_channel_volume L channel volume_pct w = Returns tt w) /\
  (forall h, chunk c = Some h ->
     let p := on_Mix_Playing L channel (trace w) in
     sound_device_is_channel_playing L channel w
     = Returns (if p =? 0 then 0 else 1)
         (World (state w) (trace w ++ [Mix_Playing channel p])) /\
     sound_device_set_channel_volume L channel volume_pct w
     = Returns tt
         (World (state w)
            (trace w ++ [Mix_VolumeChunk h (mixer_volume L volume_pct)]))) /\
  sound_device_set_music_volume L volume_pct w
  = Returns tt
      (World (state w) (trace w ++ [Mix_VolumeMusic (mixer_volume L volume_pct)])) /\
  (0 <= volume_pct <= 100 ->
     0 <= mixer_volume L volume_pct <= MIX_MAX_VOLUME L) /\
  (forall lower, 0 <= lower <= volume_pct ->
     mixer_volume L lower <= mixer_volume L volume_pct) /\
  mixer_volume L 0 = 0 /\
  mixer_volume L 100 = MIX_MAX_VOLUME L.
Proof.
  intros Hch Hc Hmax.
  split; [|split; [|split; [|split; [|split; [|split]]]]].
  - intros Hchunk. unfold sound_device_is_channel_playing,
      sound_device_set_channel_volume, bind.
    by rewrite (read_channel_Z channel c), Hchunk.
  - intros h Hchunk p. unfold sound_device_is_channel_playing,
      sound_device_set_channel_volume, bind.
    by rewrite (read_channel_Z channel c), Hchunk.
  - reflexivity.
  - intros Hpct. rewrite mixer_volume_exact. split.
    + apply Z.quot_pos; nia.
    + apply Z.quot_le_upper_bound; nia.
  - intros lower Hl. rewrite !mixer_volume_exact.
    apply Z.quot_le_mono; nia.
  - rewrite mixer_volume_exact. by rewrite Z.mul_0_l.
  - rewrite mixer_volume_exact.
    rewrite (Z.mul_comm 100 (MIX_MAX_VOLUME L)), Z.mul_1_r.
    apply Z.quot_mul. lia.
Qed.

(** *** Playing music, step by step *)

Lemma load_music_returns (n : string) (w : W) :
  table_ok w ->
  exists loaded w1,
    load_music T L n w = Returns loaded w1 /\
    data (state w1) = data (state w) /\
    exists evs, trace w1 = trace w ++ evs /\
                music_effect evs (loaded_of loaded) false.
Proof.
  intros Hw. pose proof (load_music_spec n w Hw) as Hspec.
  apply triple_returns in Hspec as (loaded & w1 & Hrun & _ & _ & _ & Hevs).
  exists loaded, w1. split; [exact Hrun|]. split; [|exact Hevs].
  apply (keeps_run data False (load_music T L n) w w1 loaded); [|exact Hrun].
  keeps_tac.
Qed.

Lemma same_data_state (s : statics) (d : data_t) :
  data s = d -> Statics d (custom_music s) (vita_music_data s) = s.
Proof. intros <-. by destruct s. Qed.

(** C10. [sound_device_play_music], step by step.  On a device that is not
    open it returns 0 and does nothing.  On an open device it first runs
    [sound_device_stop_music], which halts and frees the stored track and
    clears the handle; without a file name it then returns 0.  With a name it
    runs the load of the build (on the desktop, [Mix_LoadMUS] of the name) in
    that state, and then: when the file did not open it returns 0; when the
    mixer gave no track it logs the error and returns 0; when the track does
    not start it clears the handle, logs the error and returns 0; when the
    track starts it sets the volume and returns 1, the track stored and
    playing.  So the call returns 1 exactly when a track is stored, loaded
    and playing afterwards, and when it returns 0 no handle is stored and
    nothing plays, the previous track included.  On the path where the track
    loaded but did not start, that track is not freed: it is still loaded in
    the mixer, with no handle left to it. *)
Theorem play_music_not_atomic (name : option string) (volume_pct : Z) (w : W) :
  Inv w ->
  let stopped := Data (initialized (data (state w))) None
                      (channels (data (state w))) in
  let w0 := World (Statics stopped (custom_music (state w)) (vita_music_data (state w)))
                  (trace w ++ halt_events (music (data (state w)))) in
  (initialized (data (state w)) = 0 ->
     sound_device_play_music T L name volume_pct w = Returns 0 w) /\
  (initialized (data (state w)) <> 0 ->
     sound_device_stop_music w = Returns tt w0 /\
     (name = None ->
        sound_device_play_music T L name volume_pct w = Returns 0 w0) /\
     (forall n, name = Some n ->
        exists loaded w1,
          load_music T L n w0 = Returns loaded w1 /\
          data (state w1) = stopped /\
          (T = Desktop ->
             let m := on_Mix_LoadMUS L n (trace w0) in
             loaded = Some m /\
             w1 = World (state w0) (trace w0 ++ [Mix_LoadMUS n m])) /\
          (loaded = None ->
             sound_device_play_music T L name volume_pct w = Returns 0 w1) /\
          (loaded = Some None ->
             let err := on_SDL_GetError L (trace w1) in
             sound_device_play_music T L name volume_pct w
             = Returns 0
                 (World (state w1)
                    (trace w1 ++
                     [SDL_GetError err;
                      SDL_LogWarn "Error opening music file '%s'. Reason: %s"
                        [ArgStr (Some n); ArgStr err]]))) /\
          (forall h, loaded = Some (Some h) ->
             let t2 ok := trace w1 ++ [Mix_PlayMusic h (-1) ok] in
             (on_Mix_PlayMusic L h (-1) (trace w1) = true ->
                let w' :=
                  World (Statics (Data (initialized stopped) (Some h) (channels stopped))
                                 (custom_music (state w1)) (vita_music_data (state w1)))
                        (t2 true ++ [Mix_VolumeMusic (mixer_volume L volume_pct)]) in
                sound_device_play_music T L name volume_pct w = Returns 1 w' /\
                h ∈ tracks (mixer_of (trace w')) /\
                playing (mixer_of (trace w')) = Some h) /\
             (on_Mix_PlayMusic L h (-1) (trace w1) = false ->
                let err := on_SDL_GetError L (t2 false) in
                let w' :=
                  World (state w1)
                        (t2 false ++
                         [SDL_GetError err;
                          SDL_LogWarn "Error playing music file '%s'. Reason: %s"
                            [ArgStr (Some n); ArgStr err]]) in
                sound_device_play_music T L name volume_pct w = Returns 0 w' /\
                music (data (state w')) = None /\
                playing (mixer_of (trace w')) = None /\
                h ∈ tracks (mixer_of (trace w')))))) /\
  (forall r w',
     sound_device_play_music T L name volume_pct w = Returns r w' ->
     (r = 0 \/ r = 1) /\
     (r = 1 -> initialized (data (state w)) <> 0 /\ name <> None) /\
     (initialized (data (state w)) <> 0 ->
        (r = 1 <-> exists h, music (data (state w')) = Some h /\
                             h ∈ tracks (mixer_of (trace w')) /\
                             playing (mixer_of (trace w')) = Some h) /\
        (r = 0 -> music (data (state w')) = None /\
                  playing (mixer_of (trace w')) = None))).
Proof.
  intros HI stopped w0. pose proof HI as (Hw & [Hm1 Hm2] & _).
  assert (initialized (data (state w)) = 0 ->
          sound_device_play_music T L name volume_pct w = Returns 0 w) as Hclosed.
  { intros Hi. unfold sound_device_play_music, bind, get. simpl. by rewrite Hi. }
  split; [exact Hclosed|]. split.
  - intros Hi.
    assert (sound_device_stop_music w = Returns tt w0) as Hstop.
    { by rewrite stop_music_initialized. }
    split; [exact Hstop|]. split.
    { intros ->. by play_music_opened Hi. }
    intros n ->.
    assert (table_ok w0) as Hw0 by exact Hw.
    destruct (load_music_returns n w0 Hw0) as (loaded & w1 & Hload & Hdata & evs & Htr & Heff).
    exists loaded, w1. split; [exact Hload|]. split; [exact Hdata|].
    assert (playing (mixer_of (trace w0)) = None) as Hquiet.
    { unfold w0. cbn [trace]. rewrite mixer_of_app, halt_events_mixer by exact Hm2.
      reflexivity. }
    assert (Statics (Data (initialized (data (state w))) None
                          (channels (data (state w))))
                    (custom_music (state w1)) (vita_music_data (state w1))
            = state w1) as Hs1.
    { apply same_data_state. exact Hdata. }
    assert (forall k : option (option handle) -> M Z,
              (let* loaded := load_music T L n in k loaded) w0 = k loaded w1) as Hbind.
    { intros k. unfold bind. by rewrite Hload. }
    split; [|split; [|split]].
    + intros HT m. unfold load_music in Hload. rewrite HT in Hload.
      unfold bind, extern, ret in Hload. simpl in Hload.
      by injection Hload as <- <-.
    + intros ->. play_music_opened Hi. fold w0. by rewrite Hbind.
    + intros -> err. play_music_opened Hi. fold w0. rewrite Hbind.
      unfold set_music, set_data. run_prog.
      rewrite Hdata. simpl. rewrite Hs1.
      subst err. by rewrite <- !app_assoc.
    + intros h -> t2. simpl in Heff.
      assert (h ∈ tracks (mixer_of (trace w1)) /\
              playing (mixer_of (trace w1)) = None) as [Hin Hnot].
      { rewrite Htr, mixer_of_app, Heff. simpl. split; [set_solver|exact Hquiet]. }
      split.
      * intros Hok w'. split; [|split].
        -- play_music_opened Hi. fold w0. rewrite Hbind.
           unfold set_music, set_data, sound_device_set_music_volume. run_prog.
           rewrite Hok. simpl. rewrite Hdata. simpl.
           subst w' t2. simpl. by rewrite <- !app_assoc.
        -- subst w' t2. cbn [trace]. rewrite !mixer_of_app. simpl. exact Hin.
        -- subst w' t2. cbn [trace]. rewrite !mixer_of_app. reflexivity.
      * intros Hok err w'. split; [|split; [|split]].
        -- play_music_opened Hi. fold w0. rewrite Hbind.
           unfold set_music, set_data. run_prog.
           rewrite Hok. simpl. rewrite Hdata. simpl. rewrite Hs1.
           subst w' err t2. simpl. by rewrite <- !app_assoc.
        -- subst w'. cbn [state]. by rewrite Hdata.
        -- subst w' t2. cbn [trace]. rewrite !mixer_of_app. simpl. exact Hnot.
        -- subst w' t2. cbn [trace]. rewrite !mixer_of_app. simpl. exact Hin.
  - intros r w' Hrun.
    destruct (decide (initialized (data (state w)) = 0)) as [Hi|Hi].
    { rewrite (Hclosed Hi) in Hrun. injection Hrun as <- <-.
      split; [by left|]. split; [intros; lia|done]. }
    pose proof (play_music_spec name volume_pct w Hw Hi) as Hspec.
    unfold triple in Hspec. rewrite Hrun in Hspec.
    destruct Hspec as (rest & loaded & started & Htr & Heff & Hst & Hmu & Hr & _).
    assert (playing (mixer_of (trace w')) = (if started then loaded else None)) as Hp.
    { rewrite Htr, app_assoc, mixer_of_app, Heff, mixer_of_app,
        halt_events_mixer by exact Hm2.
      simpl. by destruct started. }
    assert (handle_set loaded ⊆ tracks (mixer_of (trace w'))) as Ht.
    { rewrite Htr, app_assoc, mixer_of_app, Heff. simpl. set_solver. }
    rewrite Hp, Hmu, Hr. destruct started.
    + destruct (Hst eq_refl) as [[h ->] [n ->]]. simpl in Ht.
      split; [by right|]. split; [done|]. intros _. split; [|intros; lia].
      split; [|done]. intros _. exists h. split; [done|]. split; [set_solver|done].
    + split; [by left|]. split; [intros; lia|]. intros _. split; [|done].
      split; [lia|]. by intros (h & Hh & _).
Qed.
End SoundFacts.

(** ** More of the mouse *)

Section MouseSession.
Import Mouse.
Variable P : platform.

Ltac run_mouse :=
  unfold system_mouse_set_relative_mode, system_mouse_get_relative_state,
    system_move_mouse_cursor, set_x, set_y, set_enabled, store,
    bind, ret, get, modify, emit, extern; simpl.

Lemma run_call_keeps_saved (c : call) (w : world data_t event) :
  same_mode (enabled (state w)) c = true ->
  exists w', run_call P c w = Returns tt w' /\ saved (state w') = saved (state w).
Proof.
  intros Hc. destruct c as [px py|dx dy|e]; simpl in *.
  - run_mouse. destruct px as [ax|], py as [ay|]; simpl; eauto.
    destruct (on_SDL_GetRelativeMouseState P _) as [fx fy]. simpl. eauto.
  - run_mouse. destruct (on_system_set_mouse_position P _ _ _) as [x' y'].
    simpl. eauto.
  - run_mouse. rewrite Hc. eauto.
Qed.

Lemma run_calls_keep_saved (cs : list call) (w : world data_t event) :
  forallb (same_mode (enabled (state w))) cs = true ->
  exists w', run_calls P cs w = Returns tt w' /\ saved (state w') = saved (state w).
Proof.
  revert w. induction cs as [|c cs IH]; intros w Hcs; simpl in *.
  - by exists w.
  - apply andb_prop in Hcs as [Hc Hcs].
    destruct (run_call_keeps_saved c w Hc) as (w1 & Hrun & Hsaved).
    assert (enabled (state w1) = enabled (state w)) as He.
    { unfold saved in Hsaved. congruence. }
    rewrite <- He in Hcs. destruct (IH w1 Hcs) as (w2 & Hrun2 & Hsaved2).
    exists w2. unfold bind. rewrite Hrun. split; [exact Hrun2|congruence].
Qed.

(** X19. A whole stay in relative mode.  Relative mode is entered from a
    state where it is off; then the program polls the relative state, moves
    the cursor and asks again for the mode it is in, any number of times and
    in any order; then it leaves relative mode.  The position handed to
    [system_set_mouse_position] on leaving is the one computed on entering,
    whatever was called in between, and what that call gives back is stored
    and reported to [mouse_set_position]. *)
Theorem relative_mode_session
    (e : Z) (cs : list call) (w : world data_t event) :
  e <> 0 ->
  enabled (state w) = 0 ->
  forallb (same_mode e) cs = true ->
  let win := on_SDL_GetMouseFocus P (trace w) in
  let t1 := trace w ++ [SDL_GetMouseFocus win] in
  let pos := on_SDL_GetMouseState P t1 in
  let t2 := t1 ++ [SDL_GetMouseState pos.1 pos.2] in
  let pct := calc_percentage P 100 (on_platform_screen_get_scale P t2) in
  let sx := calc_adjust_with_percentage P (float_to_int pos.1) pct in
  let sy := calc_adjust_with_percentage P (float_to_int pos.2) pct in
  exists w1 w2 w3,
    system_mouse_set_relative_mode P e w = Returns tt w1 /\
    saved (state w1) = (sx, sy, e) /\
    run_calls P cs w1 = Returns tt w2 /\
    saved (state w2) = (sx, sy, e) /\
    system_mouse_set_relative_mode P 0 w2 = Returns tt w3 /\
    let win' := on_SDL_GetMouseFocus P (trace w2) in
    let t3 := trace w2 ++ [SDL_GetMouseFocus win';
                           SDL_SetWindowRelativeMouseMode win' false] in
    let back := on_system_set_mouse_position P t3 sx sy in
    trace w3 = t3 ++ [system_set_mouse_position sx sy back.1 back.2;
                      mouse_set_position back.1 back.2] /\
    saved (state w3) = (back.1, back.2, 0).
Proof.
  intros He Hoff Hcs win t1 pos t2 pct sx sy.
  assert (exists w1, system_mouse_set_relative_mode P e w = Returns tt w1 /\
                     saved (state w1) = (sx, sy, e)) as (w1 & Hon & Hs1).
  { run_mouse. rewrite Hoff.
    destruct (Z.eqb_spec e 0) as [|_]; [done|]. simpl.
    fold win. fold t1. fold pos. destruct pos as [fx fy] eqn:Hpos. simpl.
    eexists. split; [reflexivity|]. by subst sx sy pct t2. }
  assert (enabled (state w1) = e) as He1 by (unfold saved in Hs1; congruence).
  rewrite <- He1 in Hcs.
  destruct (run_calls_keep_saved cs w1 Hcs) as (w2 & Hrun & Hs2).
  rewrite Hs1 in Hs2.
  exists w1, w2.
  destruct w2 as [[x2 y2 e2 h2] tr2]. unfold saved in Hs2. simpl in Hs2.
  injection Hs2 as -> -> ->.
  assert (system_mouse_set_relative_mode P 0
            (World (Data sx sy e h2) tr2)
          = let win' := on_SDL_GetMouseFocus P tr2 in
            let t3 := tr2 ++ [SDL_GetMouseFocus win';
                              SDL_SetWindowRelativeMouseMode win' false] in
            let back := on_system_set_mouse_position P t3 sx sy in
            Returns tt
              (World (Data back.1 back.2 0 h2)
                 (t3 ++ [system_set_mouse_position sx sy back.1 back.2;
                         mouse_set_position back.1 back.2]))) as Hoff2.
  { unfold system_mouse_set_relative_mode, bind at 1, get at 1.
    cbn [state enabled]. destruct (Z.eqb_spec 0 e) as [|_]; [done|].
    run_mouse. rewrite <- !app_assoc. simpl.
    destruct (on_system_set_mouse_position P _ sx sy) as [bx by']. simpl.
    by rewrite <- !app_assoc. }
  eexists. split; [exact Hon|]. split; [exact Hs1|].
  split; [exact Hrun|]. split; [reflexivity|]. split; [exact Hoff2|].
  done.
Qed.

(** X20. With two pointers [system_mouse_get_relative_state] polls the
    library once and writes the two readings, cast to [int], through them:
    first [*x], then [*y].  Every other cell, the stored position and the
    flag are what they were; when the two pointers are the same cell, it
    holds the [y] reading. *)
Theorem get_relative_state_writes_cells
    (ax ay : handle) (w : world data_t event) :
  let r := on_SDL_GetRelativeMouseState P (trace w) in
  exists w',
    system_mouse_get_relative_state P (Some ax) (Some ay) w = Returns tt w' /\
    trace w' = trace w ++ [SDL_GetRelativeMouseState r.1 r.2] /\
    saved (state w') = saved (state w) /\
    heap (state w') !! ay = Some (float_to_int r.2) /\
    (ax <> ay -> heap (state w') !! ax = Some (float_to_int r.1)) /\
    (forall p, p <> ax -> p <> ay -> heap (state w') !! p = heap (state w) !! p).
Proof.
  intros r. run_mouse. fold r. destruct r as [fx fy]. simpl.
  eexists. split; [reflexivity|]. simpl. split; [done|]. split; [done|].
  split; [by rewrite lookup_insert_eq|]. split.
  - intros Hne. rewrite lookup_insert_ne by done. by rewrite lookup_insert_eq.
  - intros p Hx Hy. by rewrite !lookup_insert_ne.
Qed.
End MouseSession.

(** ** The version of the library *)

Section PlatformFacts.
Import Platform.

(** X21. [platform_sdl_version_at_least] answers 0 or 1.  Where
    [SDL_VERSIONNUM] is SDL3's [major * 1000000 + minor * 1000 + patch], the
    library runs version [a.b.c], the minor and patch numbers on both sides
    are below 1000 and the major numbers small enough for the sums to fit an
    [int], it answers 1 exactly when [a.b.c] is [major.minor.patch] or a
    later version. *)
Theorem version_at_least_is_lexicographic
    (S : sdl) (a b c major minor patch : Z) :
  (forall i j k, SDL_VERSIONNUM S i j k = sdl3_versionnum i j k) ->
  on_SDL_GetVersion S = SDL_VERSIONNUM S a b c ->
  0 <= a < 2147 -> 0 <= major < 2147 ->
  0 <= b < 1000 -> 0 <= c < 1000 ->
  0 <= minor < 1000 -> 0 <= patch < 1000 ->
  (platform_sdl_version_at_least S major minor patch = 0 \/
   platform_sdl_version_at_least S major minor patch = 1) /\
  (platform_sdl_version_at_least S major minor patch = 1 <->
   major < a \/ (major = a /\ (minor < b \/ (minor = b /\ patch <= c)))).
Proof.
  intros Hnum Hv Ha Hmajor Hb Hc Hminor Hpatch.
  unfold platform_sdl_version_at_least. rewrite Hv, !Hnum.
  unfold sdl3_versionnum.
  destruct (Z.geb_spec (a * 1000000 + b * 1000 + c)
                       (major * 1000000 + minor * 1000 + patch)) as [Hge|Hlt].
  - split; [by right|]. split; [intros _; lia|done].
  - split; [by left|]. split; [done|intros H; lia].
Qed.
End PlatformFacts.

(** ** The theorems at work on the demo libraries *)

Section Demo.
Import SoundDevice.

Lemma opened_reachable :
  run_all Desktop demo_library [op_open] initial = Returns tt opened.
Proof. vm_compute. reflexivity. Qed.

Lemma opened_Inv : Inv opened.
Proof. apply (reachable_Inv Desktop demo_library). eexists. apply opened_reachable. Qed.

Lemma playing_reachable :
  run_all Desktop demo_library [op_open; op_play_music (Some "track.mp3") 100] initial
  = Returns tt playing_world.
Proof. vm_compute. reflexivity. Qed.

Lemma playing_Inv : Inv playing_world.
Proof.
  apply (reachable_Inv Desktop demo_library). eexists. apply playing_reachable.
Qed.

Lemma streaming_reachable :
  run_all Desktop demo_library
    [op_open; op_use_custom_music_player 16 2 22050 None 0] initial
  = Returns tt streaming_world.
Proof. vm_compute. reflexivity. Qed.

Lemma streaming_Inv : Inv streaming_world.
Proof.
  apply (reachable_Inv Desktop demo_library). eexists. apply streaming_reachable.
Qed.
End Demo.

(** C1, the claim as stated fails: on the open device the call
    [sound_device_stop_channel(150)] reads slot 150 of a table whose last
    slot is 149. *)
Lemma stop_channel_150_is_beyond_table :
  SoundDevice.run_all SoundDevice.Desktop SoundDevice.demo_library
    [SoundDevice.op_open] SoundDevice.initial = Returns tt SoundDevice.opened /\
  SoundDevice.sound_device_stop_channel 150 SoundDevice.opened
  = OutOfBounds "data.channels" 150 SoundDevice.opened.
Proof. split; vm_compute; reflexivity. Qed.

Lemma init_channels_clamps_to_table_witness :
  SoundDevice.sound_device_init_channels 200 (replicate 200 "wavs/fire.wav")
    SoundDevice.opened
  = Returns tt
      (World (SoundDevice.with_channels (state SoundDevice.opened)
                (replicate 150 (SoundDevice.Channel (Some "wavs/fire.wav") None)))
             (trace SoundDevice.opened ++
              [SoundDevice.Mix_AllocateChannels 150;
               SoundDevice.log_info "Loading audio files" None 0])).
Proof.
  apply (init_channels_clamps_to_table SoundDevice.Desktop SoundDevice.demo_library
           200 (replicate 200 "wavs/fire.wav") SoundDevice.opened).
  - apply opened_Inv.
  - unfold SoundDevice.MAX_CHANNELS; lia.
  - simpl; unfold SoundDevice.MAX_CHANNELS; lia.
  - simpl; lia.
Defined.

(** C2, the claim as stated fails: once a track plays and the device has
    been closed, [sound_device_stop_music] leaves the handle of that track
    in place. *)
Lemma stop_music_after_close_keeps_handle :
  SoundDevice.run_all SoundDevice.Desktop SoundDevice.demo_library
    [SoundDevice.op_open; SoundDevice.op_play_music (Some "track.mp3") 100;
     SoundDevice.op_close] SoundDevice.initial
  = Returns tt SoundDevice.closed_world /\
  SoundDevice.sound_device_stop_music SoundDevice.closed_world
  = Returns tt SoundDevice.closed_world /\
  SoundDevice.music (SoundDevice.data (state SoundDevice.closed_world))
  = Some 31%positive.
Proof. split; [|split]; vm_compute; reflexivity. Qed.

Lemma single_music_handle_witness :
  exists w',
    SoundDevice.sound_device_stop_music SoundDevice.playing_world = Returns tt w' /\
    trace w' = trace SoundDevice.playing_world ++
               [SoundDevice.Mix_HaltMusic; SoundDevice.Mix_FreeMusic 31%positive] /\
    SoundDevice.music (SoundDevice.data (state w')) = None.
Proof.
  apply (single_music_handle SoundDevice.Desktop SoundDevice.demo_library
           (Some "other.mp3") 100 SoundDevice.playing_world).
  - apply playing_Inv.
  - simpl; lia.
Defined.

Lemma custom_music_player_mode_witness :
  SoundDevice.sound_device_use_custom_music_player SoundDevice.demo_library
    16 2 22050 (Some [1; 2; 3; 4]) 4 SoundDevice.opened
  = Returns tt
      (World (SoundDevice.Statics
                (SoundDevice.data (state SoundDevice.opened))
                (SoundDevice.CustomMusic 32784 32784 (Some 51%positive))
                (SoundDevice.vita_music_data (state SoundDevice.opened)))
             (trace SoundDevice.opened ++
              [SoundDevice.Mix_QuerySpec 44100 32784 2;
               SoundDevice.SDL_CreateAudioStream
                 (SoundDevice.AudioSpec 22050 32784 2)
                 (SoundDevice.AudioSpec 44100 32784 2) (Some 51%positive);
               SoundDevice.SDL_PutAudioStreamData 51%positive [1; 2; 3; 4] 4 true;
               SoundDevice.Mix_HookMusic (Some SoundDevice.fn_custom_music_callback)])).
Proof.
  apply (custom_music_player_mode SoundDevice.demo_library
           16 2 22050 (Some [1; 2; 3; 4]) 4 [9; 9; 9; 9] 4 51%positive 41%positive
           SoundDevice.opened).
  - right; reflexivity.
  - reflexivity.
  - lia.
  - reflexivity.
  - simpl; lia.
Defined.

Lemma stdio_seek_maps_whence_witness :
  SoundDevice.stdio_seek SoundDevice.demo_library
    (SoundDevice.StdioFPData 13%positive true) 10 SoundDevice.SDL_IO_SEEK_CUR
    SoundDevice.opened
  = Returns 42
      (World (state SoundDevice.opened)
             (trace SoundDevice.opened ++
              [SoundDevice.fseek 13%positive 10 SoundDevice.SEEK_CUR 0;
               SoundDevice.ftell 13%positive 42])) /\
  SoundDevice.stdio_seek SoundDevice.demo_library
    (SoundDevice.StdioFPData 13%positive true) 10 7 SoundDevice.opened
  = Returns (-1)
      (World (state SoundDevice.opened)
             (trace SoundDevice.opened ++
              [SoundDevice.SDL_SetError "Unknown value for 'whence'"])).
Proof.
  split.
  - destruct (stdio_seek_maps_whence SoundDevice.demo_library
                (SoundDevice.StdioFPData 13%positive true) 10 SoundDevice.SDL_IO_SEEK_CUR
                13%positive true SoundDevice.opened) as (_ & _ & _ & Hseek & _).
    destruct (Hseek SoundDevice.SEEK_CUR eq_refl) as (Hok & _).
    apply Hok; [reflexivity | simpl; lia].
  - destruct (stdio_seek_maps_whence SoundDevice.demo_library
                (SoundDevice.StdioFPData 13%positive true) 10 7
                13%positive true SoundDevice.opened) as (_ & _ & _ & _ & Hother & _).
    apply Hother;
      unfold SoundDevice.SDL_IO_SEEK_SET, SoundDevice.SDL_IO_SEEK_CUR,
        SoundDevice.SDL_IO_SEEK_END; lia.
Defined.

(** In custom-music-player mode, leaving the mode destroys the one stream
    there is. *)
Lemma single_custom_stream_witness :
  exists w',
    SoundDevice.sound_device_use_default_music_player SoundDevice.streaming_world
    = Returns tt w' /\
    trace w' = trace SoundDevice.streaming_world ++
               [SoundDevice.Mix_HookMusic None;
                SoundDevice.SDL_DestroyAudioStream 51%positive] /\
    SoundDevice.stream (SoundDevice.custom_music (state w')) = None /\
    SoundDevice.stream_ok w'.
Proof.
  apply (single_custom_stream SoundDevice.Desktop SoundDevice.demo_library
           32784 2 22050 32784 2 44100 SoundDevice.streaming_world).
  apply streaming_Inv.
Defined.

Lemma use_custom_music_player_bad_bitdepth_witness :
  SoundDevice.sound_device_use_custom_music_player SoundDevice.demo_library
    24 2 22050 (Some [1; 2; 3]) 3 SoundDevice.opened
  = Returns tt
      (World (state SoundDevice.opened)
             (trace SoundDevice.opened ++
              [SoundDevice.log_error "Custom music bitdepth not supported:" None 24])).
Proof.
  apply (use_custom_music_player_bad_bitdepth SoundDevice.demo_library
           24 2 22050 (Some [1; 2; 3]) 3 SoundDevice.opened); lia.
Defined.

Lemma channel_operations_index_unchecked_witness :
  (exists w', SoundDevice.sound_device_stop_channel 149 SoundDevice.opened
              = Returns tt w') /\
  SoundDevice.sound_device_is_channel_playing SoundDevice.demo_library (-1)
    SoundDevice.opened
  = OutOfBounds "data.channels" (-1) SoundDevice.opened.
Proof.
  split.
  - apply (channel_operations_index_unchecked SoundDevice.Desktop
             SoundDevice.demo_library 149 100 50 50 "wavs/fire.wav" SoundDevice.opened);
      [reflexivity | unfold SoundDevice.MAX_CHANNELS; lia].
  - apply (channel_operations_index_unchecked SoundDevice.Desktop
             SoundDevice.demo_library (-1) 100 50 50 "wavs/fire.wav" SoundDevice.opened);
      [reflexivity | unfold SoundDevice.MAX_CHANNELS; lia].
Defined.

(** A track plays.  On a mixer where the next one loads but does not
    start, the old track was halted and freed, 0 is returned, no handle is
    stored and nothing plays; the new track was loaded and is never freed.
    On a mixer where it starts, 1 is returned and the new track is stored and
    plays. *)
Lemma play_music_not_atomic_witness :
  (exists w',
     SoundDevice.sound_device_play_music SoundDevice.Desktop
       SoundDevice.stalling_library (Some "other.mp3") 100 SoundDevice.playing_world
     = Returns 0 w' /\
     trace w' = trace SoundDevice.playing_world ++
                [SoundDevice.Mix_HaltMusic; SoundDevice.Mix_FreeMusic 31%positive;
                 SoundDevice.Mix_LoadMUS "other.mp3" (Some 32%positive);
                 SoundDevice.Mix_PlayMusic 32%positive (-1) false;
                 SoundDevice.SDL_GetError (Some "");
                 SoundDevice.SDL_LogWarn "Error playing music file '%s'. Reason: %s"
                   [SoundDevice.ArgStr (Some "other.mp3");
                    SoundDevice.ArgStr (Some "")]] /\
     SoundDevice.music (SoundDevice.data (state w')) = None /\
     SoundDevice.playing (SoundDevice.mixer_of (trace w')) = None /\
     32%positive ∈ SoundDevice.tracks (SoundDevice.mixer_of (trace w'))) /\
  (exists w',
     SoundDevice.sound_device_play_music SoundDevice.Desktop
       SoundDevice.demo_library (Some "other.mp3") 50 SoundDevice.playing_world
     = Returns 1 w' /\
     trace w' = trace SoundDevice.playing_world ++
                [SoundDevice.Mix_HaltMusic; SoundDevice.Mix_FreeMusic 31%positive;
                 SoundDevice.Mix_LoadMUS "other.mp3" (Some 31%positive);
                 SoundDevice.Mix_PlayMusic 31%positive (-1) true;
                 SoundDevice.Mix_VolumeMusic 64] /\
     SoundDevice.music (SoundDevice.data (state w')) = Some 31%positive /\
     SoundDevice.playing (SoundDevice.mixer_of (trace w')) = Some 31%positive).
Proof.
  split.
  - destruct (play_music_not_atomic SoundDevice.Desktop SoundDevice.stalling_library
                (Some "other.mp3") 100 SoundDevice.playing_world playing_Inv)
      as (_ & Hopen & _).
    destruct Hopen as (_ & _ & Hname); [simpl; lia|].
    destruct (Hname "other.mp3" eq_refl)
      as (loaded & w1 & _ & _ & Hdesktop & _ & _ & Hstart).
    destruct (Hdesktop eq_refl) as [-> ->].
    destruct (Hstart 32%positive eq_refl) as [_ Hfails].
    destruct (Hfails eq_refl) as (Hrun & Hmusic & Hplaying & Hloaded).
    eexists. split; [exact Hrun|]. split; [reflexivity|].
    split; [exact Hmusic|]. split; [exact Hplaying|exact Hloaded].
  - destruct (play_music_not_atomic SoundDevice.Desktop SoundDevice.demo_library
                (Some "other.mp3") 50 SoundDevice.playing_world playing_Inv)
      as (_ & Hopen & _).
    destruct Hopen as (_ & _ & Hname); [simpl; lia|].
    destruct (Hname "other.mp3" eq_refl)
      as (loaded & w1 & _ & _ & Hdesktop & _ & _ & Hstart).
    destruct (Hdesktop eq_refl) as [-> ->].
    destruct (Hstart 31%positive eq_refl) as [Hstarts _].
    destruct (Hstarts eq_refl) as (Hrun & _ & Hplaying).
    eexists. split; [exact Hrun|]. split; [reflexivity|].
    split; [reflexivity|exact Hplaying].
Defined.

(** ** More of the code at work *)

Lemma named_reachable :
  SoundDevice.run_all SoundDevice.Desktop SoundDevice.demo_library
    [SoundDevice.op_open; SoundDevice.op_init_channels 1 ["wavs/fire.wav"]]
    SoundDevice.initial
  = Returns tt SoundDevice.named_world.
Proof. vm_compute. reflexivity. Qed.

Lemma loaded_reachable :
  SoundDevice.run_all SoundDevice.Desktop SoundDevice.demo_library
    [SoundDevice.op_open; SoundDevice.op_init_channels 1 ["wavs/fire.wav"];
     SoundDevice.op_play_channel 0 100]
    SoundDevice.initial
  = Returns tt SoundDevice.loaded_world.
Proof. vm_compute. reflexivity. Qed.

Lemma open_marks_initialized_only_on_success_witness :
  SoundDevice.sound_device_open SoundDevice.demo_library SoundDevice.initial
  = Returns tt SoundDevice.opened /\
  exists w',
    SoundDevice.sound_device_open SoundDevice.broken_library SoundDevice.initial
    = Returns tt w' /\
    state w' = state SoundDevice.initial.
Proof.
  split.
  - apply (open_marks_initialized_only_on_success SoundDevice.demo_library
             SoundDevice.initial); reflexivity.
  - apply (open_marks_initialized_only_on_success SoundDevice.broken_library
             SoundDevice.initial); reflexivity.
Defined.

Lemma close_releases_every_chunk_witness :
  SoundDevice.sound_device_close SoundDevice.loaded_world
  = Returns tt
      (World (SoundDevice.Statics
                (SoundDevice.Data 0 None
                   (SoundDevice.fire
                    :: replicate 149 SoundDevice.no_channel))
                (SoundDevice.CustomMusic 0 0 None)
                (SoundDevice.VitaMusicData "" None 0))
             (trace SoundDevice.loaded_world ++
              [SoundDevice.Mix_HaltChannel 0; SoundDevice.Mix_FreeChunk 21%positive;
               SoundDevice.Mix_CloseAudio])).
Proof.
  apply (close_releases_every_chunk SoundDevice.loaded_world).
  - reflexivity.
  - simpl; lia.
Defined.

Lemma closed_device_is_silent_witness :
  SoundDevice.sound_device_is_channel_playing SoundDevice.demo_library 5
    SoundDevice.closed_world
  = Returns 0 SoundDevice.closed_world /\
  SoundDevice.run SoundDevice.Desktop SoundDevice.demo_library
    (SoundDevice.op_play_channel 5 100) SoundDevice.closed_world
  = Returns tt SoundDevice.closed_world.
Proof.
  assert (SoundDevice.reachable SoundDevice.Desktop SoundDevice.demo_library
            SoundDevice.closed_world) as Hreach.
  { exists [SoundDevice.op_open; SoundDevice.op_play_music (Some "track.mp3") 100;
            SoundDevice.op_close].
    vm_compute. reflexivity. }
  split.
  - apply (closed_device_is_silent SoundDevice.Desktop SoundDevice.demo_library
             5 100 SoundDevice.closed_world Hreach);
      [reflexivity | unfold SoundDevice.MAX_CHANNELS; lia].
  - apply (closed_device_is_silent SoundDevice.Desktop SoundDevice.demo_library
             5 100 SoundDevice.closed_world Hreach);
      [reflexivity | unfold SoundDevice.MAX_CHANNELS; lia | reflexivity
      | discriminate].
Defined.

Lemma init_channels_fills_prefix_witness :
  SoundDevice.sound_device_init_channels 1 ["wavs/fire.wav"] SoundDevice.opened
  = Returns tt SoundDevice.named_world /\
  exists w',
    SoundDevice.sound_device_init_channels 3 ["wavs/fire.wav"] SoundDevice.opened
    = OutOfBounds "filenames" 1 w' /\
    trace w' = trace SoundDevice.opened ++
               [SoundDevice.Mix_AllocateChannels 3;
                SoundDevice.log_info "Loading audio files" None 0].
Proof.
  split.
  - apply (init_channels_fills_prefix 1 ["wavs/fire.wav"] SoundDevice.opened);
      [reflexivity | simpl; lia | vm_compute; lia].
  - apply (init_channels_fills_prefix 3 ["wavs/fire.wav"] SoundDevice.opened);
      [reflexivity | simpl; lia | vm_compute; lia].
Defined.

Lemma load_chunk_paths_witness :
  SoundDevice.load_chunk SoundDevice.Desktop SoundDevice.demo_library
    "wavs/fire.wav" SoundDevice.named_world
  = Returns (Some 21%positive)
      (World (state SoundDevice.named_world)
             (trace SoundDevice.named_world ++
              [SoundDevice.Mix_LoadWAV "wavs/fire.wav" (Some 21%positive)])) /\
  SoundDevice.load_chunk SoundDevice.Android SoundDevice.broken_library
    "wavs/fire.wav" SoundDevice.named_world
  = Returns None
      (World (state SoundDevice.named_world)
             (trace SoundDevice.named_world ++
              [SoundDevice.file_open "wavs/fire.wav" "rb" None])).
Proof.
  split.
  - apply (load_chunk_paths SoundDevice.Desktop SoundDevice.demo_library
             "wavs/fire.wav" SoundDevice.named_world); [discriminate | reflexivity].
  - apply (load_chunk_paths SoundDevice.Android SoundDevice.broken_library
             "wavs/fire.wav" SoundDevice.named_world);
      [discriminate | discriminate | reflexivity].
Defined.

Lemma play_channel_loads_on_demand_witness :
  SoundDevice.sound_device_play_channel SoundDevice.Desktop SoundDevice.demo_library
    0 50 SoundDevice.loaded_world
  = Returns tt
      (World (state SoundDevice.loaded_world)
             (trace SoundDevice.loaded_world ++
              [SoundDevice.Mix_VolumeChunk 21%positive 64;
               SoundDevice.Mix_PlayChannel 0 (Some 21%positive) 0])) /\
  SoundDevice.sound_device_play_channel SoundDevice.Desktop SoundDevice.demo_library
    7 50 SoundDevice.loaded_world
  = Returns tt SoundDevice.loaded_world.
Proof.
  split.
  - apply (play_channel_loads_on_demand SoundDevice.Desktop SoundDevice.demo_library
             0 50 (SoundDevice.Channel (Some "wavs/fire.wav") (Some 21%positive))
             SoundDevice.loaded_world);
      [simpl; lia | unfold SoundDevice.MAX_CHANNELS; lia | reflexivity | reflexivity].
  - apply (play_channel_loads_on_demand SoundDevice.Desktop SoundDevice.demo_library
             7 50 SoundDevice.no_channel SoundDevice.loaded_world);
      [simpl; lia | unfold SoundDevice.MAX_CHANNELS; lia | reflexivity
      | reflexivity | reflexivity].
Defined.

Lemma play_file_on_channel_replaces_chunk_witness :
  exists r w1,
    SoundDevice.load_chunk SoundDevice.Desktop SoundDevice.demo_library "wavs/wolf.wav"
      (World (state SoundDevice.named_world)
             (trace SoundDevice.loaded_world ++
              [SoundDevice.Mix_HaltChannel 0; SoundDevice.Mix_FreeChunk 21%positive]))
    = Returns r w1 /\
    state w1 = state SoundDevice.named_world /\
    SoundDevice.sound_device_play_file_on_channel SoundDevice.Desktop
      SoundDevice.demo_library "wavs/wolf.wav" 0 100 SoundDevice.loaded_world
    = Returns tt
        (World (SoundDevice.with_channels (state SoundDevice.loaded_world)
                  (<[0%nat := SoundDevice.Channel (Some "wavs/fire.wav") r]>
                     (SoundDevice.channels
                        (SoundDevice.data (state SoundDevice.loaded_world)))))
               (trace w1 ++ SoundDevice.start_events SoundDevice.demo_library 0 100 r)).
Proof.
  apply (play_file_on_channel_replaces_chunk SoundDevice.Desktop
           SoundDevice.demo_library "wavs/wolf.wav" 0 100
           (SoundDevice.Channel (Some "wavs/fire.wav") (Some 21%positive))
           SoundDevice.loaded_world);
    [simpl; lia | unfold SoundDevice.MAX_CHANNELS; lia | reflexivity].
Defined.

Lemma play_channel_panned_order_and_range_witness :
  SoundDevice.sound_device_play_channel_panned SoundDevice.Desktop
    SoundDevice.demo_library 0 100 50 100 SoundDevice.loaded_world
  = Returns tt
      (World (state SoundDevice.loaded_world)
             (trace SoundDevice.loaded_world ++
              [SoundDevice.Mix_SetPanning 0 127 255;
               SoundDevice.Mix_VolumeChunk 21%positive 128;
               SoundDevice.Mix_PlayChannel 0 (Some 21%positive) 0])) /\
  SoundDevice.sound_device_play_channel_panned SoundDevice.Desktop
    SoundDevice.demo_library 0 100 150 (-10) SoundDevice.loaded_world
  = Returns tt
      (World (state SoundDevice.loaded_world)
             (trace SoundDevice.loaded_world ++
              [SoundDevice.Mix_SetPanning 0 126 231;
               SoundDevice.Mix_VolumeChunk 21%positive 128;
               SoundDevice.Mix_PlayChannel 0 (Some 21%positive) 0])).
Proof.
  split.
  - apply (play_channel_panned_order_and_range SoundDevice.Desktop
             SoundDevice.demo_library 0 100 50 100
             (SoundDevice.Channel (Some "wavs/fire.wav") (Some 21%positive))
             SoundDevice.loaded_world);
      [simpl; lia | unfold SoundDevice.MAX_CHANNELS; lia | reflexivity | reflexivity
      | lia | lia].
  - apply (play_channel_panned_order_and_range SoundDevice.Desktop
             SoundDevice.demo_library 0 100 150 (-10)
             (SoundDevice.Channel (Some "wavs/fire.wav") (Some 21%positive))
             SoundDevice.loaded_world);
      [simpl; lia | unfold SoundDevice.MAX_CHANNELS; lia | reflexivity | reflexivity
      | lia | lia].
Defined.

Lemma stdio_shims_report_witness :
  SoundDevice.stdio_read SoundDevice.broken_library
    (SoundDevice.StdioFPData 13%positive true) 8 SoundDevice.opened
  = Returns 0
      (World (state SoundDevice.opened)
             ((trace SoundDevice.opened ++ [SoundDevice.fread 13%positive 8 0]) ++
              [SoundDevice.ferror 13%positive 1;
               SoundDevice.SDL_SetError "Couldn't read stream"])) /\
  SoundDevice.stdio_close SoundDevice.demo_library
    (SoundDevice.StdioFPData 13%positive false) SoundDevice.opened
  = Returns true SoundDevice.opened.
Proof.
  split.
  - apply (stdio_shims_report SoundDevice.broken_library
             (SoundDevice.StdioFPData 13%positive true) 8 SoundDevice.opened);
      [reflexivity | discriminate].
  - apply (stdio_shims_report SoundDevice.demo_library
             (SoundDevice.StdioFPData 13%positive false) 8 SoundDevice.opened).
    reflexivity.
Defined.

Lemma SDL_RWFromFP_paths_witness :
  SoundDevice.SDL_RWFromFP SoundDevice.broken_library 13%positive true SoundDevice.opened
  = Returns None
      (World (state SoundDevice.opened)
             (trace SoundDevice.opened ++ [SoundDevice.SDL_malloc None])) /\
  SoundDevice.SDL_RWFromFP SoundDevice.demo_library 13%positive true SoundDevice.opened
  = Returns (Some 12%positive)
      (World (state SoundDevice.opened)
             ((trace SoundDevice.opened ++ [SoundDevice.SDL_malloc (Some 11%positive)]) ++
              [SoundDevice.SDL_OpenIO
                 (SoundDevice.IOInterface
                    (Some SoundDevice.fn_stdio_seek) (Some SoundDevice.fn_stdio_read)
                    (Some SoundDevice.fn_stdio_write) (Some SoundDevice.fn_stdio_close))
                 11%positive (SoundDevice.StdioFPData 13%positive true)
                 (Some 12%positive)])).
Proof.
  split.
  - apply (SDL_RWFromFP_paths SoundDevice.broken_library 13%positive true
             SoundDevice.opened).
    reflexivity.
  - apply (SDL_RWFromFP_paths SoundDevice.demo_library 13%positive true
             SoundDevice.opened); reflexivity.
Defined.

Lemma put_custom_audio_stream_result_witness :
  SoundDevice.put_custom_audio_stream SoundDevice.broken_library (Some [1; 2]) 2
    SoundDevice.streaming_world
  = Returns 1
      (World (state SoundDevice.streaming_world)
             (trace SoundDevice.streaming_world ++
              [SoundDevice.SDL_PutAudioStreamData 51%positive [1; 2] 2 false])) /\
  SoundDevice.put_custom_audio_stream SoundDevice.demo_library (Some [1; 2]) 2
    SoundDevice.opened
  = Returns 0 SoundDevice.opened.
Proof.
  split.
  - apply (put_custom_audio_stream_result SoundDevice.broken_library (Some [1; 2]) 2
             SoundDevice.streaming_world); [reflexivity | lia | reflexivity].
  - apply (put_custom_audio_stream_result SoundDevice.demo_library (Some [1; 2]) 2
             SoundDevice.opened).
    right; right; reflexivity.
Defined.

Lemma get_custom_audio_stream_silence_witness :
  SoundDevice.get_custom_audio_stream SoundDevice.broken_library (Some [9; 9; 9; 9]) 2
    SoundDevice.streaming_world
  = Returns (0, Some [0; 0; 9; 9])
      (World (state SoundDevice.streaming_world)
             (trace SoundDevice.streaming_world ++ [SoundDevice.malloc 2 None])) /\
  SoundDevice.get_custom_audio_stream SoundDevice.demo_library (Some [9; 9; 9; 9]) 2
    SoundDevice.opened
  = Returns (0, Some [0; 0; 9; 9]) SoundDevice.opened.
Proof.
  split.
  - destruct (get_custom_audio_stream_silence SoundDevice.broken_library
                [9; 9; 9; 9] 2 SoundDevice.streaming_world)
      as (_ & Hstream & _); [lia | simpl; lia |].
    destruct (Hstream 51%positive) as [Hnone _]; [lia | reflexivity |].
    apply Hnone. reflexivity.
  - apply (get_custom_audio_stream_silence SoundDevice.demo_library [9; 9; 9; 9] 2
             SoundDevice.opened); [lia | simpl; lia |].
    right; reflexivity.
Defined.

Lemma use_custom_music_player_no_stream_witness :
  SoundDevice.sound_device_use_custom_music_player SoundDevice.broken_library
    16 2 22050 (Some [1; 2]) 2 SoundDevice.streaming_world
  = Returns tt
      (World (SoundDevice.Statics
                (SoundDevice.data (state SoundDevice.streaming_world))
                (SoundDevice.CustomMusic 32784 32784 None)
                (SoundDevice.vita_music_data (state SoundDevice.streaming_world)))
             ((trace SoundDevice.streaming_world ++
               [SoundDevice.Mix_QuerySpec 44100 32784 2;
                SoundDevice.SDL_DestroyAudioStream 51%positive]) ++
              [SoundDevice.SDL_CreateAudioStream
                 (SoundDevice.AudioSpec 22050 32784 2)
                 (SoundDevice.AudioSpec 44100 32784 2) None])).
Proof.
  apply (use_custom_music_player_no_stream SoundDevice.broken_library
           16 2 22050 (Some [1; 2]) 2 None 0 [9; 9] SoundDevice.streaming_world);
    [right; reflexivity | reflexivity].
Defined.

Lemma play_music_desktop_failures_witness :
  exists w',
    SoundDevice.sound_device_play_music SoundDevice.Desktop SoundDevice.silent_library
      (Some "track.mp3") 100 SoundDevice.opened = Returns 0 w' /\
    31%positive ∈ SoundDevice.tracks (SoundDevice.mixer_of (trace w')) /\
    SoundDevice.sound_device_stop_music w' = Returns tt w'.
Proof.
  eexists.
  apply (play_music_desktop_failures SoundDevice.Desktop SoundDevice.silent_library
           "track.mp3" 100 SoundDevice.opened eq_refl);
    [simpl; lia | reflexivity | reflexivity].
Defined.

Lemma play_music_file_does_not_open_witness :
  SoundDevice.sound_device_play_music SoundDevice.Android SoundDevice.broken_library
    (Some "track.mp3") 100 SoundDevice.playing_world
  = Returns 0
      (World (state SoundDevice.opened)
             ((trace SoundDevice.playing_world ++
               [SoundDevice.Mix_HaltMusic; SoundDevice.Mix_FreeMusic 31%positive]) ++
              [SoundDevice.file_open "track.mp3" "rb" None])).
Proof.
  apply (play_music_file_does_not_open SoundDevice.Android SoundDevice.broken_library
           "track.mp3" 100 SoundDevice.playing_world);
    [simpl; lia | reflexivity | reflexivity].
Defined.

Lemma load_music_for_vita_cache_witness :
  SoundDevice.load_music_for_vita SoundDevice.demo_library "track.mp3"
    SoundDevice.opened
  = Returns tt SoundDevice.vita_world /\
  SoundDevice.load_music_for_vita SoundDevice.demo_library "track.mp3"
    SoundDevice.vita_world
  = Returns tt SoundDevice.vita_world /\
  SoundDevice.load_music_for_vita SoundDevice.big_file_library "track.mp3"
    SoundDevice.opened
  = Returns tt
      (World (state SoundDevice.vita_world)
             (trace SoundDevice.opened ++
              [SoundDevice.sceIoOpen "track.mp3" 3;
               SoundDevice.sceIoLseek 3 0 true 4294968296;
               SoundDevice.sceIoLseek 3 0 false 0;
               SoundDevice.malloc 1000 (Some 41%positive);
               SoundDevice.sceIoRead 3 (Some 41%positive) 1000;
               SoundDevice.sceIoClose 3])).
Proof.
  destruct (load_music_for_vita_cache SoundDevice.demo_library "track.mp3"
              SoundDevice.opened) as (_ & _ & Hmiss).
  destruct (Hmiss (or_introl eq_refl)) as [_ Hload].
  destruct Hload as (Hfirst & Hagain & _); [simpl; lia|].
  split; [exact Hfirst|]. split.
  - apply Hagain; [discriminate | simpl; lia].
  - destruct (load_music_for_vita_cache SoundDevice.big_file_library "track.mp3"
                SoundDevice.opened) as (_ & _ & Hbig).
    destruct (Hbig (or_introl eq_refl)) as [_ Hload].
    destruct Hload as (Hwrapped & _); [simpl; lia|].
    exact Hwrapped.
Defined.

Lemma play_channel_caches_chunk_witness :
  SoundDevice.sound_device_play_channel SoundDevice.Desktop SoundDevice.demo_library
    0 100 SoundDevice.named_world
  = Returns tt SoundDevice.loaded_world.
Proof.
  apply (play_channel_caches_chunk SoundDevice.Desktop SoundDevice.demo_library
           0 100 50 "wavs/fire.wav" 21%positive SoundDevice.named_world
           (World (state SoundDevice.named_world)
                  (trace SoundDevice.named_world ++
                   [SoundDevice.Mix_LoadWAV "wavs/fire.wav" (Some 21%positive)])));
    [simpl; lia | unfold SoundDevice.MAX_CHANNELS; lia | reflexivity | reflexivity].
Defined.

Lemma volume_calls_and_range_witness :
  SoundDevice.sound_device_set_channel_volume SoundDevice.demo_library 0 50
    SoundDevice.loaded_world
  = Returns tt
      (World (state SoundDevice.loaded_world)
             (trace SoundDevice.loaded_world ++
              [SoundDevice.Mix_VolumeChunk 21%positive 64])) /\
  0 <= SoundDevice.mixer_volume SoundDevice.demo_library 50 <= 128.
Proof.
  split.
  - apply (volume_calls_and_range SoundDevice.demo_library 0 50
             (SoundDevice.Channel (Some "wavs/fire.wav") (Some 21%positive))
             SoundDevice.loaded_world);
      [unfold SoundDevice.MAX_CHANNELS; lia | reflexivity | simpl; lia | reflexivity].
  - apply (volume_calls_and_range SoundDevice.demo_library 0 50
             (SoundDevice.Channel (Some "wavs/fire.wav") (Some 21%positive))
             SoundDevice.loaded_world);
      [unfold SoundDevice.MAX_CHANNELS; lia | reflexivity | simpl; lia | lia].
Defined.

Lemma relative_mode_session_witness :
  exists w1 w2 w3,
    Mouse.system_mouse_set_relative_mode Mouse.demo_platform 1 Mouse.initial
    = Returns tt w1 /\
    Mouse.saved (state w1) = (6, 13, 1) /\
    Mouse.run_calls Mouse.demo_platform
      [Mouse.call_get_relative_state (Some 1%positive) (Some 2%positive);
       Mouse.call_move_cursor 3 4; Mouse.call_set_relative_mode 1] w1
    = Returns tt w2 /\
    Mouse.saved (state w2) = (6, 13, 1) /\
    Mouse.system_mouse_set_relative_mode Mouse.demo_platform 0 w2 = Returns tt w3 /\
    Mouse.saved (state w3) = (6, 13, 0).
Proof.
  destruct (relative_mode_session Mouse.demo_platform 1
              [Mouse.call_get_relative_state (Some 1%positive) (Some 2%positive);
               Mouse.call_move_cursor 3 4; Mouse.call_set_relative_mode 1]
              Mouse.initial)
    as (w1 & w2 & w3 & Hon & Hs1 & Hrun & Hs2 & Hoff & _ & Hs3);
    [lia | reflexivity | reflexivity |].
  exists w1, w2, w3.
  split; [exact Hon|]. split; [exact Hs1|]. split; [exact Hrun|].
  split; [exact Hs2|]. split; [exact Hoff|exact Hs3].
Defined.

Lemma get_relative_state_writes_cells_witness :
  exists w',
    Mouse.system_mouse_get_relative_state Mouse.demo_platform
      (Some 1%positive) (Some 2%positive) Mouse.initial = Returns tt w' /\
    Mouse.heap (state w') !! 1%positive = Some 3 /\
    Mouse.heap (state w') !! 2%positive = Some (-4).
Proof.
  destruct (get_relative_state_writes_cells Mouse.demo_platform 1%positive 2%positive
              Mouse.initial) as (w' & Hrun & _ & _ & Hy & Hx & _).
  exists w'. split; [exact Hrun|]. split; [|exact Hy].
  apply Hx. discriminate.
Defined.

Lemma version_at_least_is_lexicographic_witness :
  Platform.platform_sdl_version_at_least Platform.demo_sdl 3 2 0 = 1 /\
  ~ Platform.platform_sdl_version_at_least Platform.demo_sdl 3 4 0 = 1.
Proof.
  split.
  - apply (version_at_least_is_lexicographic Platform.demo_sdl 3 2 10 3 2 0);
      [reflexivity | reflexivity | lia | lia | lia | lia | lia | lia | lia].
  - intros H.
    apply (version_at_least_is_lexicographic Platform.demo_sdl 3 2 10 3 4 0) in H;
      [lia | reflexivity | reflexivity | lia | lia | lia | lia | lia | lia].
Defined.
